(** * JoSi chatbot: a shallow embedding of [chatbot.py]

    The development follows the layout of the Python module: text helpers,
    the JSON data that crosses the network boundary, the remote model client
    ([call_gemini_api]), the company validator, the question generator, the
    [TestManager] class, the Markdown rendering of the chat pane and the
    message handling of [EnhancedChatbotGUI].

    A Python [str] is modelled by the [string] of its UTF-8 bytes.  The
    operations that depend on the characters follow Python on such bytes:
    [strip] removes the characters for which [str.isspace] holds, whatever
    their number of bytes, and [len] and indexing count characters.  [find],
    [rfind] and slices count bytes throughout, which names the same
    positions.  [lower] changes the letters A to Z only.  Python also lowers
    the cased characters outside that range; the lower case of such a
    character holds an ASCII letter in two cases only, U+212A (which gives
    k) and U+0130 (which gives i followed by U+0307), so that the one
    comparison the program makes on a lowered text, with the word [valid],
    is decided alike.

    The external collaborators (the HTTP library, the profanity word list,
    the JSON decoder and the built-in [repr]) are fields of an environment
    record [Env]; every general theorem holds for all of them, and the
    scenarios instantiate them with stubs.  The credential of the source is
    a field of [Env] as well.

    A method of the window either returns, raises, or never returns: the
    loop of [format_markdown] does not end on some lines, and then nothing
    placed after the call is executed.  A worker started by [send_message]
    is run to its end, or to the point where it stops for ever, before the
    next event. *)

From Stdlib Require Import ZArith List String Ascii Bool Lia DecimalString.
From Stdlib Require Import Floats.
Import ListNotations.

Set Warnings "-register-all".

Open Scope string_scope.
Open Scope Z_scope.

(** ** Python text operations used by the program *)

(** [s[n:]], in bytes. *)
Fixpoint drop (n : nat) (s : string) : string :=
  match n, s with
  | O, _ => s
  | S n', String _ s' => drop n' s'
  | S _, EmptyString => EmptyString
  end.

Fixpoint rev_string (s : string) : string :=
  match s with
  | EmptyString => EmptyString
  | String c s' => rev_string s' ++ String c EmptyString
  end.

(** The rest of [s] after the first of [chars] that it starts with; each
    character is given by its bytes. *)
Fixpoint drop_one_of (chars : list string) (s : string) : option string :=
  match chars with
  | [] => None
  | t :: ts =>
      if prefix t s then Some (drop (String.length t) s) else drop_one_of ts s
  end.

Fixpoint lstrip_chars_from (fuel : nat) (chars : list string) (s : string) : string :=
  match fuel with
  | O => s
  | S fuel' =>
      match drop_one_of chars s with
      | Some r => lstrip_chars_from fuel' chars r
      | None => s
      end
  end.

(** [s.lstrip(chars)]. *)
Definition lstrip_chars (chars : list string) (s : string) : string :=
  lstrip_chars_from (String.length s) chars s.

(** [s.rstrip(chars)]. *)
Definition rstrip_chars (chars : list string) (s : string) : string :=
  rev_string (lstrip_chars (map rev_string chars) (rev_string s)).

(** [s.strip(chars)]. *)
Definition strip_chars (chars : list string) (s : string) : string :=
  rstrip_chars chars (lstrip_chars chars s).

Module PyStr.

Definition nl : string := String (ascii_of_nat 10) "".
Definition dq : string := String (ascii_of_nat 34) "".
Definition sq : string := "'".

(** A triple-quoted literal that opens and closes on lines of their own. *)
Definition block (lines : list string) : string :=
  nl ++ concat nl lines ++ nl.

(** The character whose UTF-8 encoding is the given bytes. *)
Definition utf8 (bytes : list nat) : string :=
  fold_right (fun n s => String (ascii_of_nat n) s) "" bytes.

(** The characters for which [str.isspace] holds: U+0009 to U+000D, U+001C
    to U+0020, U+0085, U+00A0, U+1680, U+2000 to U+200A, U+2028, U+2029,
    U+202F, U+205F and U+3000. *)
Definition whitespace : list string :=
  (map (fun n => utf8 [n]) [9; 10; 11; 12; 13; 28; 29; 30; 31; 32]
   ++ [utf8 [194; 133]; utf8 [194; 160]; utf8 [225; 154; 128]]
   ++ map (fun n => utf8 [226; 128; n])
        [128; 129; 130; 131; 132; 133; 134; 135; 136; 137; 138]
   ++ [utf8 [226; 128; 168]; utf8 [226; 128; 169]; utf8 [226; 128; 175];
       utf8 [226; 129; 159]; utf8 [227; 128; 128]])%nat%list.

(** [c.isspace()] for one character. *)
Definition isspace (c : string) : bool := existsb (String.eqb c) whitespace.

Definition lstrip (s : string) : string := lstrip_chars whitespace s.

Definition rstrip (s : string) : string := rstrip_chars whitespace s.

(** [s.strip()]. *)
Definition strip (s : string) : string := rstrip (lstrip s).

Definition lower_char (c : ascii) : ascii :=
  let n := nat_of_ascii c in
  if ((65 <=? n)%nat && (n <=? 90)%nat)%bool then ascii_of_nat (n + 32) else c.

Fixpoint lower (s : string) : string :=
  match s with
  | EmptyString => EmptyString
  | String c s' => String (lower_char c) (lower s')
  end.

(** A byte that continues a character begun by an earlier byte. *)
Definition is_continuation (c : ascii) : bool :=
  let n := nat_of_ascii c in
  ((128 <=? n)%nat && (n <? 192)%nat)%bool.

(** The characters of a text, each as its bytes. *)
Fixpoint chars (s : string) : list string :=
  match s with
  | EmptyString => []
  | String c s' =>
      match s' with
      | String d _ =>
          if is_continuation d then
            match chars s' with
            | g :: gs => String c g :: gs
            | [] => [String c EmptyString]
            end
          else String c EmptyString :: chars s'
      | EmptyString => [String c EmptyString]
      end
  end.

(** [len(s)]: the number of characters. *)
Definition len (s : string) : Z := Z.of_nat (List.length (chars s)).

(** [s.find(c)] for a one-byte pattern: first position, or -1. *)
Fixpoint find_from (c : ascii) (s : string) (i : Z) : Z :=
  match s with
  | EmptyString => -1
  | String d s' => if Ascii.eqb d c then i else find_from c s' (i + 1)
  end.

Definition find (c : ascii) (s : string) : Z := find_from c s 0.

(** [s.rfind(c)] for a one-byte pattern: last position, or -1. *)
Fixpoint rfind_from (c : ascii) (s : string) (i : Z) (seen : Z) : Z :=
  match s with
  | EmptyString => seen
  | String d s' => rfind_from c s' (i + 1) (if Ascii.eqb d c then i else seen)
  end.

Definition rfind (c : ascii) (s : string) : Z := rfind_from c s 0 (-1).

(** A slice bound as Python normalises it: negative bounds count from the
    end, and both are clamped to the length. *)
Definition clamp (n i : Z) : Z :=
  if i <? 0 then Z.max 0 (i + n) else Z.min i n.

(** [s[i:j]], for positions as [find] and [rfind] give them. *)
Definition slice (s : string) (i j : Z) : string :=
  let n := Z.of_nat (String.length s) in
  let a := clamp n i in
  let b := clamp n j in
  substring (Z.to_nat a) (Z.to_nat (b - a)) s.

Definition startswith (s p : string) : bool := prefix p s.

(** [str(n)] for an integer. *)
Definition of_Z (z : Z) : string := NilZero.string_of_int (Z.to_int z).

(** [sep.join(parts)]. *)
Definition join (sep : string) (parts : list string) : string :=
  concat sep parts.

End PyStr.

(** [xs[-n:]] on a list, for a positive [n]. *)
Definition last_n {A : Type} (n : nat) (xs : list A) : list A :=
  skipn (List.length xs - n)%nat xs.

(** ** Values decoded from JSON, as Python objects *)

(** A [dict] is the list of its items in insertion order; the ones a decoder
    builds have distinct keys. *)
Inductive JValue : Type :=
| JNull
| JBool (b : bool)
| JInt (z : Z)
| JFloat (f : float)
| JStr (s : string)
| JList (items : list JValue)
| JDict (items : list (string * JValue)).

(** ** Exceptions *)

Inductive exn : Type :=
| KeyError (shown_key : string)
| IndexError (msg : string)
| TypeError (msg : string)
| ValueError (msg : string)
| AttributeError (msg : string)
| OtherError (msg : string).

(** [str(e)]. *)
Definition str_exn (e : exn) : string :=
  match e with
  | KeyError k => k
  | IndexError m | TypeError m | ValueError m | AttributeError m | OtherError m => m
  end.

Definition result (A : Type) : Type := (exn + A)%type.

Definition ok {A} (a : A) : result A := inr a.
Definition raise {A} (e : exn) : result A := inl e.

Definition rbind {A B} (r : result A) (k : A -> result B) : result B :=
  match r with
  | inl e => inl e
  | inr a => k a
  end.

Notation "x <- r ;; k" := (rbind r (fun x => k))
  (at level 61, r at next level, right associativity).

(** *** Built-ins on decoded values *)

Definition type_name (v : JValue) : string :=
  match v with
  | JNull => "NoneType"
  | JBool _ => "bool"
  | JInt _ => "int"
  | JFloat _ => "float"
  | JStr _ => "str"
  | JList _ => "list"
  | JDict _ => "dict"
  end.

(** [len(v)]. *)
Definition py_len (v : JValue) : result Z :=
  match v with
  | JStr s => ok (PyStr.len s)
  | JList l => ok (Z.of_nat (List.length l))
  | JDict kv => ok (Z.of_nat (List.length kv))
  | _ => raise (TypeError ("object of type '" ++ type_name v ++ "' has no len()"))
  end.

(** Truth value of an object, as [if q:] tests it. *)
Definition truthy (v : JValue) : bool :=
  match v with
  | JNull => false
  | JBool b => b
  | JInt z => negb (z =? 0)
  | JFloat f => negb (PrimFloat.eqb f 0%float)
  | JStr s => negb (String.eqb s "")
  | JList l => match l with [] => false | _ => true end
  | JDict kv => match kv with [] => false | _ => true end
  end.

Fixpoint lookup (k : string) (kv : list (string * JValue)) : option JValue :=
  match kv with
  | [] => None
  | (k', v) :: rest => if String.eqb k k' then Some v else lookup k rest
  end.

(** [v[k]] for a string key. *)
Definition getitem_key (v : JValue) (k : string) : result JValue :=
  match v with
  | JDict kv =>
      match lookup k kv with
      | Some x => ok x
      | None => raise (KeyError (PyStr.sq ++ k ++ PyStr.sq))
      end
  | JList _ => raise (TypeError "list indices must be integers or slices, not str")
  | JStr _ => raise (TypeError "string indices must be integers, not 'str'")
  | _ => raise (TypeError (PyStr.sq ++ type_name v ++ "' object is not subscriptable"))
  end.

(** Position of index [i] in a sequence of length [n]; negative indices count
    from the end. *)
Definition seq_pos (n i : Z) : option nat :=
  let j := if i <? 0 then i + n else i in
  if (0 <=? j) && (j <? n) then Some (Z.to_nat j) else None.

(** [v[i]] for an integer index; a text is indexed by characters. *)
Definition getitem_index (v : JValue) (i : Z) : result JValue :=
  match v with
  | JList l =>
      match seq_pos (Z.of_nat (List.length l)) i with
      | Some p =>
          match nth_error l p with
          | Some x => ok x
          | None => raise (IndexError "list index out of range")
          end
      | None => raise (IndexError "list index out of range")
      end
  | JStr s =>
      match seq_pos (PyStr.len s) i with
      | Some p =>
          match nth_error (PyStr.chars s) p with
          | Some c => ok (JStr c)
          | None => raise (IndexError "string index out of range")
          end
      | None => raise (IndexError "string index out of range")
      end
  | JDict _ => raise (KeyError (PyStr.of_Z i))
  | _ => raise (TypeError (PyStr.sq ++ type_name v ++ "' object is not subscriptable"))
  end.

(** The exception of [v.attr] for an attribute of [str] on another
    object. *)
Definition no_attribute (v : JValue) (attr : string) : exn :=
  AttributeError
    (PyStr.sq ++ type_name v ++ "' object has no attribute '" ++ attr ++ PyStr.sq).

(** The receiver of a [str] method. *)
Definition str_method (attr : string) (v : JValue) : result string :=
  match v with
  | JStr s => ok s
  | _ => raise (no_attribute v attr)
  end.

(** The exception of [v + "..."] for an object that is not a text. *)
Definition no_concat (v : JValue) : exn :=
  match v with
  | JList _ =>
      TypeError ("can only concatenate list (not " ++ PyStr.dq ++ "str" ++ PyStr.dq
                 ++ ") to list")
  | _ =>
      TypeError ("unsupported operand type(s) for +: '" ++ type_name v ++ "' and 'str'")
  end.

(** ** The network boundary *)

(** One POST as [requests.post(url, headers=headers, json=data)] sends it. *)
Record Request : Type := mkRequest {
  req_url : string;
  req_headers : list (string * string);
  req_json : JValue
}.

(** The success body of the generation endpoint.  Its fields follow the
    service's response schema; any of them may be absent and either array may
    be empty.  The text part is whatever the body holds under that key. *)
Record Part : Type := mkPart { part_text : option JValue }.
Record Content : Type := mkContent { content_parts : option (list Part) }.
Record Candidate : Type := mkCandidate { candidate_content : option Content }.
Record Body : Type := mkBody { body_candidates : option (list Candidate) }.

(** What the caller reads from a [requests.Response]: [resp.status_code],
    [resp.text] and [resp.json()], which raises when the body does not
    decode. *)
Record Response : Type := mkResponse {
  status_code : Z;
  text : string;
  json : result Body
}.

(** The collaborators outside the module.  [requests_post] receives the
    requests made so far, so the service may answer the same request
    differently each time; it raises on a transport failure. *)
Record Env : Type := mkEnv {
  API_KEY : string;
  requests_post : list Request -> Request -> result Response;
  profanity_contains_profanity : string -> bool;
  json_loads : string -> result JValue;
  repr : JValue -> string
}.

Definition API_URL : string :=
  "https://generativelanguage.googleapis.com/v1/models/gemini-2.0-flash:generateContent".

(** [d[k]] on a decoded object of the response schema. *)
Definition field {A} (k : string) (o : option A) : result A :=
  match o with
  | Some a => ok a
  | None => raise (KeyError (PyStr.sq ++ k ++ PyStr.sq))
  end.

(** [l[0]]. *)
Definition first {A} (l : list A) : result A :=
  match l with
  | x :: _ => ok x
  | [] => raise (IndexError "list index out of range")
  end.

(** [body['candidates'][0]['content']['parts'][0]['text']]. *)
Definition first_text (body : Body) : result JValue :=
  cs <- field "candidates" (body_candidates body) ;;
  c <- first cs ;;
  ct <- field "content" (candidate_content c) ;;
  ps <- field "parts" (content_parts ct) ;;
  p <- first ps ;;
  field "text" (part_text p).

(** ** Rendering of a message in the chat pane *)

(** The tags of [setup_tags]; [tag_none] is an insert without a tag. *)
Inductive Tag : Type :=
| tag_none
| tag_timestamp
| tag_user
| tag_bot
| tag_message
| tag_error
| tag_bold
| tag_heading
| tag_bullet
| tag_code.

(** One [chat_display.insert("end", text, tag)]. *)
Definition Insert : Type := (string * Tag)%type.

(** [s.split('\n')]. *)
Fixpoint split_nl (s : string) : list string :=
  match s with
  | EmptyString => [EmptyString]
  | String c s' =>
      if Ascii.eqb c (ascii_of_nat 10) then EmptyString :: split_nl s'
      else
        match split_nl s' with
        | l :: ls => String c l :: ls
        | [] => [String c EmptyString]
        end
  end.

(** The text before and the text after the first occurrence of [sep], when
    there is one. *)
Fixpoint cut (sep s : string) : option (string * string) :=
  if prefix sep s then Some (EmptyString, drop (String.length sep) s)
  else
    match s with
    | EmptyString => None
    | String c s' =>
        match cut sep s' with
        | Some (a, b) => Some (String c a, b)
        | None => None
        end
    end.

(** [sep in s]. *)
Definition contains (sep s : string) : bool :=
  match cut sep s with
  | Some _ => true
  | None => false
  end.

(** [re.search] for a lazy group between two copies of a delimiter, as the
    three pieces the loop uses: [line[:start]], [group(1)] and [line[end:]].
    The match starts at the first delimiter that is followed by another one,
    which is the first delimiter of the line when there is a match at all,
    and the lazy group stops at the next delimiter after it. *)
Definition search (delim line : string) : option (string * string * string) :=
  match cut delim line with
  | Some (before, s1) =>
      match cut delim s1 with
      | Some (group, rest) => Some (before, group, rest)
      | None => None
      end
  | None => None
  end.

(** The [while] loop over one line and the insert that follows it; [fuel]
    bounds the number of times the loop condition is tested. *)
Fixpoint format_line (fuel : nat) (line : string) : option (list Insert) :=
  match fuel with
  | O => None
  | S fuel' =>
      if contains "**" line || contains "`" line then
        match search "**" line with
        | Some (before, group, rest) =>
            match format_line fuel' rest with
            | Some tl => Some ((before, tag_message) :: (group, tag_bold) :: tl)
            | None => None
            end
        | None =>
            match search "`" line with
            | Some (before, group, rest) =>
                match format_line fuel' rest with
                | Some tl => Some ((before, tag_message) :: (group, tag_code) :: tl)
                | None => None
                end
            | None => format_line fuel' line
            end
        end
      else Some [(line ++ PyStr.nl, tag_message)]
  end.

Definition bullet : string := "•".

(** The body of the [for] loop of [format_markdown] for one line. *)
Definition format_one (fuel : nat) (line : string) : option (list Insert) :=
  if PyStr.startswith line "###" then
    Some [(PyStr.strip (strip_chars ["#"] line) ++ PyStr.nl, tag_heading)]
  else if PyStr.startswith (PyStr.strip line) bullet then
    Some [ ("  ", tag_message);
           (bullet ++ " ", tag_bullet);
           (PyStr.strip (strip_chars [bullet; " "] line) ++ PyStr.nl, tag_message) ]
  else format_line fuel line.

Fixpoint format_lines (fuel : nat) (lines : list string) : option (list Insert) :=
  match lines with
  | [] => Some []
  | l :: ls =>
      match format_one fuel l with
      | Some a =>
          match format_lines fuel ls with
          | Some b => Some (a ++ b)%list
          | None => None
          end
      | None => None
      end
  end.

(** [format_markdown(text)]: the inserts it makes, or [None] when a loop
    has not finished within [fuel] tests. *)
Definition format_markdown (fuel : nat) (text : string) : option (list Insert) :=
  format_lines fuel (split_nl text).

(** Whether [format_markdown(text)] returns.  A loop that ends at all ends
    within as many tests as its line has bytes, plus one
    ([format_markdown_returns_iff]). *)
Definition returns (text : string) : bool :=
  match format_markdown (S (String.length text)) text with
  | Some _ => true
  | None => false
  end.

(** [add_message(sender, message, is_error)] on the text box, with the
    clock's [%H:%M] reading as argument. *)
Definition add_message_inserts (fuel : nat) (timestamp who message : string)
  (is_error : bool) : option (list Insert) :=
  let head :=
    [ ("[" ++ timestamp ++ "] ", tag_timestamp);
      (who ++ ": ", if String.eqb who "You" then tag_user else tag_bot);
      (PyStr.nl, tag_none) ] in
  if is_error then
    Some (head ++ [((message ++ PyStr.nl ++ PyStr.nl)%string, tag_error)])%list
  else
    match format_markdown fuel (message ++ PyStr.nl ++ PyStr.nl) with
    | Some body => Some (head ++ body)%list
    | None => None
    end.

(** The text a sequence of inserts puts in the text box. *)
Definition inserted_text (ins : list Insert) : string :=
  concat "" (map fst ins).

Fixpoint count_char (c : ascii) (s : string) : nat :=
  match s with
  | EmptyString => O
  | String d s' => (if Ascii.eqb d c then 1 else 0) + count_char c s'
  end.

(** The text that an insert stands for: a bold or code span with its
    delimiters put back. *)
Definition restore_one (i : Insert) : string :=
  match snd i with
  | tag_bold => "**" ++ fst i ++ "**"
  | tag_code => "`" ++ fst i ++ "`"
  | _ => fst i
  end.

Definition restore (ins : list Insert) : string :=
  concat "" (map restore_one ins).

Definition is_code (i : Insert) : bool :=
  match snd i with
  | tag_code => true
  | _ => false
  end.

(** A line that [format_markdown] hands to the loop: neither a heading nor a
    bullet. *)
Definition loop_line (line : string) : Prop :=
  PyStr.startswith line "###" = false /\
  PyStr.startswith (PyStr.strip line) bullet = false.

(** ** The program *)

Section Client.

Variable E : Env.

(** *** Remote model client *)

Definition request_data (prompt : string) : JValue :=
  JDict [("contents", JList [JDict [("parts", JList [JDict [("text", JStr prompt)]])]])].

Definition request_for (prompt : string) : Request :=
  {| req_url := API_URL ++ "?key=" ++ API_KEY E;
     req_headers := [("Content-Type", "application/json")];
     req_json := request_data prompt |}.

(** [call_gemini_api(prompt)]: the returned object, and the requests made so
    far extended with this one. *)
Definition call_gemini_api (net : list Request) (prompt : string)
  : JValue * list Request :=
  let rq := request_for prompt in
  let attempt : result JValue :=
    resp <- requests_post E net rq ;;
    if status_code resp =? 200 then
      body <- json resp ;;
      first_text body
    else
      ok (JStr ("Error " ++ PyStr.of_Z (status_code resp) ++ ": " ++ text resp))
  in
  (match attempt with
   | inr v => v
   | inl e => JStr ("Error: " ++ str_exn e)
   end,
   (net ++ [rq])%list).

Definition contains_profanity (t : string) : bool :=
  profanity_contains_profanity E t.

(** *** Company validator *)

Definition check_prompt (company_name : string) : string :=
  PyStr.block
    [ "Check if the company name " ++ PyStr.dq ++ company_name ++ PyStr.dq
        ++ " is recognized in the context";
      "of campus placements at St. Xavier's College, Mumbai.";
      "";
      "If yes, respond EXACTLY with " ++ PyStr.dq ++ "VALID" ++ PyStr.dq ++ ".";
      "Otherwise respond EXACTLY with " ++ PyStr.dq ++ "INVALID" ++ PyStr.dq ++ ".";
      "";
      "IMPORTANT: No extra text or explanation." ].

(** [gemini_check_company(company_name)]; [response.strip()] raises when the
    client returned an object that is not a text. *)
Definition gemini_check_company (net : list Request) (company_name : string)
  : result bool * list Request :=
  let (response, net') := call_gemini_api net (check_prompt company_name) in
  (s <- str_method "strip" response ;;
   ok (String.eqb (PyStr.lower (PyStr.strip s)) "valid"),
   net').

(** *** Question generator *)

Definition questions_prompt (role : string) : string :=
  PyStr.block
    [ "Generate exactly 5 technical interview questions and 5 behavioral interview questions";
      "for the role: " ++ PyStr.dq ++ role ++ PyStr.dq
        ++ " at St. Xavier's College campus placements.";
      "- If the role is IT/software related, include at least 2 coding or programming questions.";
      "Return ONLY valid JSON, with keys:";
      "  " ++ PyStr.dq ++ "technical_questions" ++ PyStr.dq ++ ": <array of 5 strings>,";
      "  " ++ PyStr.dq ++ "behavioral_questions" ++ PyStr.dq ++ ": <array of 5 strings>.";
      "No code fences, no extra commentary." ].

Definition default_tech : list string :=
  [ "Explain what OOP is.";
    "What is a database index?";
    "How does a binary search work?";
    "What is an API, and how do you use it?";
    "Describe how you would optimize a slow SQL query." ].

Definition default_beh : list string :=
  [ "Tell me about a challenge you overcame in a team.";
    "How do you handle tight deadlines?";
    "Describe a time you received critical feedback.";
    "What does work-life balance mean to you?";
    "What motivates you to succeed?" ].

(** The naive JSON capture: from the first opening brace to the last closing
    brace, stripped; empty when there is no such span. *)
Definition json_capture (raw_response : string) : string :=
  let start_idx := PyStr.find "{" raw_response in
  let end_idx := PyStr.rfind "}" raw_response in
  if negb (start_idx =? -1) && negb (end_idx =? -1) && (end_idx >? start_idx)
  then PyStr.strip (PyStr.slice raw_response start_idx (end_idx + 1))
  else "".

(** The body of the [try] block. *)
Definition parse_questions (json_str : string) : result (JValue * JValue) :=
  data <- json_loads E json_str ;;
  tech <- getitem_key data "technical_questions" ;;
  beh <- getitem_key data "behavioral_questions" ;;
  nt <- py_len tech ;;
  if negb (nt =? 5) then
    raise (ValueError "Did not receive exactly 5 technical and 5 behavioral questions.")
  else
    nb <- py_len beh ;;
    if negb (nb =? 5) then
      raise (ValueError "Did not receive exactly 5 technical and 5 behavioral questions.")
    else ok (tech, beh).

(** [gemini_generate_questions(role)]; [raw_response.find] stands before
    the [try] block and raises when the client returned an object that is
    not a text. *)
Definition gemini_generate_questions (net : list Request) (role : string)
  : result (JValue * JValue) * list Request :=
  let (raw_response, net') := call_gemini_api net (questions_prompt role) in
  (s <- str_method "find" raw_response ;;
   ok (match parse_questions (json_capture s) with
       | inr (tech, beh) => (tech, beh)
       | inl _ => (JList (map JStr default_tech), JList (map JStr default_beh))
       end),
   net').

(** *** Test manager *)

(** The fields of a [TestManager]; the five entries of [test_data] are
    fields of their own.  The question lists hold whatever the generator
    returned. *)
Record TestManager : Type := mkTestManager {
  in_test : bool;
  question_index : Z;
  company : string;
  role : string;
  technical_questions : JValue;
  behavioral_questions : JValue;
  user_answers : list string
}.

(** [TestManager()]. *)
Definition new_TestManager : TestManager :=
  {| in_test := false;
     question_index := 0;
     company := "";
     role := "";
     technical_questions := JList [];
     behavioral_questions := JList [];
     user_answers := [] |}.

Definition set_in_test (tm : TestManager) (b : bool) : TestManager :=
  mkTestManager b (question_index tm) (company tm) (role tm)
    (technical_questions tm) (behavioral_questions tm) (user_answers tm).

Definition set_question_index (tm : TestManager) (i : Z) : TestManager :=
  mkTestManager (in_test tm) i (company tm) (role tm)
    (technical_questions tm) (behavioral_questions tm) (user_answers tm).

Definition store_company (tm : TestManager) (name : string) : TestManager :=
  mkTestManager (in_test tm) (question_index tm) name (role tm)
    (technical_questions tm) (behavioral_questions tm) (user_answers tm).

Definition set_company (net : list Request) (name : string)
  : result bool * list Request :=
  gemini_check_company net name.

Definition set_role (tm : TestManager) (r : string) : TestManager :=
  mkTestManager (in_test tm) (question_index tm) (company tm) r
    (technical_questions tm) (behavioral_questions tm) (user_answers tm).

(** [generate_test_questions]: the manager with the two lists stored, or the
    exception of the generator. *)
Definition generate_test_questions (net : list Request) (tm : TestManager)
  : result TestManager * list Request :=
  let (generated, net') := gemini_generate_questions net (role tm) in
  (p <- generated ;;
   ok (mkTestManager (in_test tm) (question_index tm) (company tm) (role tm)
         (fst p) (snd p) (user_answers tm)),
   net').

(** [next_question]: the returned object ([JNull] is [None]) and the manager
    afterwards. *)
Definition next_question (tm : TestManager) : result (JValue * TestManager) :=
  total_tech <- py_len (technical_questions tm) ;;
  total_beh <- py_len (behavioral_questions tm) ;;
  q <- (if question_index tm <? total_tech then
          getitem_index (technical_questions tm) (question_index tm)
        else if question_index tm <? total_tech + total_beh then
          getitem_index (behavioral_questions tm) (question_index tm - total_tech)
        else ok JNull) ;;
  ok (q, if truthy q then set_question_index tm (question_index tm + 1) else tm).

Definition store_answer (tm : TestManager) (answer : string) : TestManager :=
  mkTestManager (in_test tm) (question_index tm) (company tm) (role tm)
    (technical_questions tm) (behavioral_questions tm)
    (user_answers tm ++ [answer])%list.

Definition all_answers_collected (tm : TestManager) : result bool :=
  nt <- py_len (technical_questions tm) ;;
  nb <- py_len (behavioral_questions tm) ;;
  ok (Z.of_nat (List.length (user_answers tm)) >=? nt + nb).

(** [f"{v}"]: a string is inserted as it is, any other object by its
    [repr]. *)
Definition format_value (v : JValue) : string :=
  match v with
  | JStr s => s
  | _ => repr E v
  end.

Definition evaluation_prompt (tm : TestManager) : string :=
  PyStr.block
    [ "Evaluate these interview answers for " ++ company tm ++ " (" ++ role tm ++ "):";
      "Technical Questions:";
      format_value (technical_questions tm);
      "Behavioral Questions:";
      format_value (behavioral_questions tm);
      "Answers:";
      format_value (JList (map JStr (user_answers tm)));
      "";
      "Give detailed feedback for each answer and a final (0-100%) 'placement probability'." ].

Definition evaluate_answers (net : list Request) (tm : TestManager)
  : JValue * list Request :=
  call_gemini_api net (evaluation_prompt tm).

(** *** Chat window *)

Definition COLLEGE_about : string :=
  "St. Xavier's College, Mumbai, is a leading institution offering a wide range of "
  ++ "undergraduate and postgraduate courses in Arts, Science, Commerce, and Management. "
  ++ "Known for its rich legacy and distinguished alumni, the college emphasizes "
  ++ "holistic student development.".

Definition COLLEGE_courses : list string :=
  [ "Bachelor of Arts (B.A.)";
    "Bachelor of Science (B.Sc.)";
    "Bachelor of Commerce (B.Com.)";
    "Bachelor of Management Studies (BMS)";
    "Bachelor of Mass Media (BMM)";
    "M.A. in Public Policy";
    "M.Sc. in Biotechnology";
    "PhD Programs in select disciplines" ].

Definition PLACEMENT_head : string := "Ms.Radhika Tendulkar".
Definition PLACEMENT_email : string := "radhika.tendulkar@xaviers.edu".
Definition PLACEMENT_highest_package_ever : Z := 24.
Definition PLACEMENT_latest_info : string :=
  "The 2023 placement season saw record participation from 55 companies, "
  ++ "with an average package of 8 LPA.".

Definition SYSTEM_PROMPT : string :=
  PyStr.block
    [ "You are JoSi, the official placement and academic guide chatbot for St. Xavier's College, Mumbai. ";
      "Use the following knowledge to answer queries precisely:";
      "";
      "**College Data**:";
      "About: " ++ COLLEGE_about;
      "Available Courses: " ++ PyStr.join ", " COLLEGE_courses;
      "";
      "**Placement Cell**:";
      "Head: " ++ PLACEMENT_head;
      "Email: " ++ PLACEMENT_email;
      "Highest Package Ever: " ++ PyStr.of_Z PLACEMENT_highest_package_ever ++ " LPA";
      "Latest Info: " ++ PLACEMENT_latest_info;
      "";
      "You can provide:";
      " - Placement guidance";
      " - Interview prep";
      " - Course suggestions";
      " - Info about the college’s history or academic programs";
      "";
      "**Important**:";
      "1. If a user’s text has profanity or offensive language, politely refuse to answer further.";
      "2. For the " ++ PyStr.dq ++ "Placement Test," ++ PyStr.dq
        ++ " ask 5 technical + 5 behavioral questions one-by-one. ";
      "   Collect each answer, then evaluate all at the end.";
      "3. Use short paragraphs and **Markdown** formatting (headings `###`, bullets, bold, etc.).";
      "4. Highest package is exactly 24 LPA, be precise if asked.";
      "";
      "NOTE: If you are returning data for a " ++ PyStr.dq ++ "company check," ++ PyStr.dq
        ++ " respond EXACTLY with " ++ PyStr.dq ++ "VALID" ++ PyStr.dq ++ " or "
        ++ PyStr.dq ++ "INVALID" ++ PyStr.dq ++ " and nothing else." ].

(** A message of the chat pane, as [add_message] receives it. *)
Record Message : Type := mkMessage {
  msg_sender : string;
  msg_text : string;
  msg_is_error : bool
}.

(** An entry of [conversation_history]. *)
Record Turn : Type := mkTurn {
  sender : string;
  turn_text : string
}.

(** The window: the attributes the message handling reads and writes, the
    chat pane as the sequence of the messages that [add_message] has
    finished inserting, and the requests made to the service so far. *)
Record GUI : Type := mkGUI {
  is_processing : bool;
  chat_display : list Message;
  conversation_history : list Turn;
  test_manager : TestManager;
  start_test_btn : bool;
  exit_test_btn : bool;
  network : list Request
}.

Definition with_processing (g : GUI) (b : bool) : GUI :=
  mkGUI b (chat_display g) (conversation_history g) (test_manager g)
    (start_test_btn g) (exit_test_btn g) (network g).

Definition with_history (g : GUI) (h : list Turn) : GUI :=
  mkGUI (is_processing g) (chat_display g) h (test_manager g)
    (start_test_btn g) (exit_test_btn g) (network g).

Definition with_test_manager (g : GUI) (tm : TestManager) : GUI :=
  mkGUI (is_processing g) (chat_display g) (conversation_history g) tm
    (start_test_btn g) (exit_test_btn g) (network g).

Definition with_buttons (g : GUI) (start_ exit_ : bool) : GUI :=
  mkGUI (is_processing g) (chat_display g) (conversation_history g) (test_manager g)
    start_ exit_ (network g).

Definition with_network (g : GUI) (net : list Request) : GUI :=
  mkGUI (is_processing g) (chat_display g) (conversation_history g) (test_manager g)
    (start_test_btn g) (exit_test_btn g) net.

(** The window once a message has been inserted in the chat pane. *)
Definition shown (g : GUI) (who message : string) (is_error : bool) : GUI :=
  mkGUI (is_processing g) (chat_display g ++ [mkMessage who message is_error])%list
    (conversation_history g) (test_manager g)
    (start_test_btn g) (exit_test_btn g) (network g).

(** How a call of a method of the window ends: it returns, it raises, or it
    never returns; in each case with the window as the call has left it. *)
Inductive Outcome : Type :=
| Returned (g : GUI)
| Raised (e : exn) (g : GUI)
| Hung (g : GUI).

Definition state_of (o : Outcome) : GUI :=
  match o with
  | Returned g => g
  | Raised _ g => g
  | Hung g => g
  end.

(** The statements that follow a call. *)
Definition and_then (o : Outcome) (k : GUI -> Outcome) : Outcome :=
  match o with
  | Returned g => k g
  | Raised e g => Raised e g
  | Hung g => Hung g
  end.

(** [add_message(sender, message, is_error)].  [message + "\n\n"] raises
    when the message is not a text; a text flagged as an error is inserted
    as it is; any other text goes through [format_markdown], and the call
    returns when that does. *)
Definition add_message (g : GUI) (who : string) (message : JValue) (is_error : bool)
  : Outcome :=
  match message with
  | JStr s =>
      if is_error then Returned (shown g who s true)
      else if returns (s ++ PyStr.nl ++ PyStr.nl) then Returned (shown g who s false)
      else Hung g
  | _ => Raised (no_concat message) g
  end.

Definition enable_input (g : GUI) : GUI := with_processing g false.

Definition welcome_text : string :=
  "### Welcome to JoSi! 👋" ++ PyStr.nl ++ PyStr.nl
  ++ "I’m your **placement & academic guide** at St. Xavier’s College, Mumbai." ++ PyStr.nl
  ++ "Ask about courses, highest package info, or the placement cell." ++ PyStr.nl
  ++ "I can assist with interview prep, career guidance, and more." ++ PyStr.nl ++ PyStr.nl
  ++ "**Disclaimer**: I'm an AI-generated chatbot. Information provided is for **reference only**."
  ++ PyStr.nl
  ++ "For official details, please contact the college placement cell." ++ PyStr.nl ++ PyStr.nl
  ++ "How can I help you today?".

(** The window before the welcome message. *)
Definition blank_GUI : GUI :=
  {| is_processing := false;
     chat_display := [];
     conversation_history := [];
     test_manager := new_TestManager;
     start_test_btn := true;
     exit_test_btn := false;
     network := [] |}.

(** [EnhancedChatbotGUI()]: the welcome message is rendered
    ([welcome_is_shown]). *)
Definition new_GUI : GUI := shown blank_GUI "JoSi" welcome_text false.

Definition start_text : string :=
  "Starting placement test!" ++ PyStr.nl
  ++ "Please enter a **company name** you believe visits St. Xavier's College for placements:".

Definition start_test (g : GUI) : Outcome :=
  let g1 := with_test_manager g (set_in_test (test_manager g) true) in
  and_then (add_message g1 "JoSi" (JStr start_text) false)
    (fun g2 => Returned (with_buttons g2 false true)).

Definition exit_text : string := "Exited test mode. How else can I help you?".

Definition exit_test (g : GUI) : Outcome :=
  let g1 := with_test_manager g new_TestManager in
  let g2 := with_buttons g1 true false in
  add_message g2 "JoSi" (JStr exit_text) false.

(** The text that shows a question under the number the manager holds. *)
Definition question_text (index : Z) (question : JValue) : string :=
  "**Q" ++ PyStr.of_Z index ++ ":** " ++ format_value question.

Definition ask_next_question (g : GUI) : Outcome :=
  match next_question (test_manager g) with
  | inl e => Raised e g
  | inr (question, tm') =>
      let g1 := with_test_manager g tm' in
      match question with
      | JNull =>
          let (res, net') := evaluate_answers (network g1) (test_manager g1) in
          and_then (add_message (with_network g1 net') "JoSi" res false) exit_test
      | _ =>
          add_message g1 "JoSi"
            (JStr (question_text (question_index (test_manager g1)) question)) false
      end
  end.

Definition not_recognized : string :=
  "That company is **NOT recognized** for campus placements (or the model isn't sure). "
  ++ "Please try another company name.".

Definition role_request (company_name : string) : string :=
  "Great! Now enter the role you're applying for at " ++ company_name ++ ":".

Definition first_question_notice : string :=
  "Excellent! Let's begin with the first question:".

Definition handle_test_flow (g : GUI) (user_input : string) : Outcome :=
  let tm := test_manager g in
  if String.eqb (company tm) "" then
    match set_company (network g) user_input with
    | (inl e, net') => Raised e (with_network g net')
    | (inr valid, net') =>
        let g1 := with_network g net' in
        if negb valid then add_message g1 "JoSi" (JStr not_recognized) false
        else
          let g2 := with_test_manager g1 (store_company tm user_input) in
          add_message g2 "JoSi" (JStr (role_request user_input)) false
    end
  else if String.eqb (role tm) "" then
    let tm1 := set_role tm user_input in
    match generate_test_questions (network g) tm1 with
    | (inl e, net') => Raised e (with_network (with_test_manager g tm1) net')
    | (inr tm2, net') =>
        let g1 := with_network (with_test_manager g tm2) net' in
        and_then (add_message g1 "JoSi" (JStr first_question_notice) false)
          ask_next_question
    end
  else
    let tm1 := store_answer tm user_input in
    let g1 := with_test_manager g tm1 in
    match all_answers_collected tm1 with
    | inl e => Raised e g1
    | inr true =>
        let (res, net') := evaluate_answers (network g1) tm1 in
        and_then (add_message (with_network g1 net') "JoSi" res false) exit_test
    | inr false => ask_next_question g1
    end.

Definition render_turn (msg : Turn) : string :=
  sender msg ++ ": " ++ turn_text msg.

Definition refusal : string := "I'm sorry, but I cannot respond to that.".

(** The prompt of a normal chat call, from the history as it stands. *)
Definition chat_prompt (history : list Turn) (prompt : string) : string :=
  let last_msgs := PyStr.join PyStr.nl (map render_turn (last_n 5 history)) in
  SYSTEM_PROMPT ++ PyStr.nl ++ PyStr.nl ++ last_msgs ++ PyStr.nl ++ "User: " ++ prompt.

Definition get_response (g : GUI) (prompt : string) : JValue * GUI :=
  if contains_profanity prompt then (JStr refusal, g)
  else
    let final_text := chat_prompt (conversation_history g) prompt in
    let (response, net') := call_gemini_api (network g) final_text in
    (response, with_network g net').

(** [process_test_message]: the worker of a message sent in test mode.  When
    the test flow never returns, neither handler runs. *)
Definition process_test_message (g : GUI) (user_text : string) : Outcome :=
  match handle_test_flow g user_text with
  | Returned g1 => Returned (enable_input g1)
  | Raised e g1 =>
      and_then (add_message g1 "JoSi" (JStr ("Error in test flow: " ++ str_exn e)) true)
        (fun g2 => Returned (enable_input g2))
  | Hung g1 => Hung g1
  end.

(** [process_normal_message]: the worker of a message sent in normal mode.
    [resp.startswith] raises when the reply is not a text, and the handler
    shows the message of the exception. *)
Definition process_normal_message (g : GUI) (user_text : string) : Outcome :=
  let (resp, g1) := get_response g user_text in
  match str_method "startswith" resp with
  | inr s =>
      let is_error := PyStr.startswith s "Error" in
      let g2 := with_history g1 (conversation_history g1 ++ [mkTurn "JoSi" s])%list in
      and_then (add_message g2 "JoSi" resp is_error)
        (fun g3 => Returned (enable_input g3))
  | inl e =>
      and_then (add_message g1 "JoSi" (JStr ("Error: " ++ str_exn e)) true)
        (fun g2 => Returned (enable_input g2))
  end.

Definition language_refusal : string := "Sorry, I can't respond to that language.".

(** [send_message], with the content of the input field as argument and the
    worker it starts run as far as it goes. *)
Definition send_message (g : GUI) (input_field : string) : Outcome :=
  if is_processing g then Returned g
  else
    let user_text := PyStr.strip input_field in
    if String.eqb user_text "" then Returned g
    else
      and_then (add_message g "You" (JStr user_text) false)
        (fun g1 =>
           if contains_profanity user_text then
             and_then (add_message g1 "JoSi" (JStr language_refusal) true)
               (fun g2 => Returned (enable_input g2))
           else
             let g2 := with_history g1
                         (conversation_history g1 ++ [mkTurn "user" user_text])%list in
             let g3 := with_processing g2 true in
             if in_test (test_manager g3) then process_test_message g3 user_text
             else process_normal_message g3 user_text).

(** *** Runs of the window *)

(** The three things a user can do.  The buttons are not consulted, and an
    event may follow a call that never returned: a run may start or exit a
    test at any time, which only adds runs to the ones the window allows. *)

Inductive Event : Type :=
| StartTest
| ExitTest
| Send (input_field : string).

Definition react (g : GUI) (ev : Event) : Outcome :=
  match ev with
  | StartTest => start_test g
  | ExitTest => exit_test g
  | Send i => send_message g i
  end.

Definition step (g : GUI) (ev : Event) : GUI := state_of (react g ev).

Definition run (g : GUI) (evs : list Event) : GUI := fold_left step evs g.

Inductive reachable : GUI -> Prop :=
| reach_new : reachable new_GUI
| reach_step : forall g ev, reachable g -> reachable (step g ev).

End Client.

(** ** Stubs of the collaborators, for the scenarios *)

(** [repr] for values whose strings need no escaping. *)
Fixpoint show (v : JValue) : string :=
  match v with
  | JNull => "None"
  | JBool b => if b then "True" else "False"
  | JInt z => PyStr.of_Z z
  | JFloat _ => "<float>"
  | JStr s => PyStr.sq ++ s ++ PyStr.sq
  | JList l => "[" ++ concat ", " (map show l) ++ "]"
  | JDict kv =>
      "{" ++ concat ", " (map (fun p => PyStr.sq ++ fst p ++ "': " ++ show (snd p)) kv) ++ "}"
  end.

(** A success body with one candidate made of one part whose text is the
    given object. *)
Definition body_of_value (v : JValue) : Body :=
  mkBody (Some [mkCandidate (Some (mkContent (Some [mkPart (Some v)])))]).

Definition body_of_text (t : string) : Body := body_of_value (JStr t).

(** A response with the given status and raw body, whose decoded form holds
    the text [t]. *)
Definition response_with (status : Z) (raw t : string) : Response :=
  mkResponse status raw (ok (body_of_text t)).

(** A decoder that knows one document. *)
Definition loads_only (doc : string) (value : JValue) (s : string) : result JValue :=
  if String.eqb s doc then ok value
  else raise (ValueError "Expecting value: line 1 column 1 (char 0)").

Definition stub_env
  (post : list Request -> Request -> result Response)
  (flag : string -> bool)
  (loads : string -> result JValue) : Env :=
  mkEnv "stub-key" post flag loads show.

Definition no_json (s : string) : result JValue :=
  raise (ValueError "Expecting value: line 1 column 1 (char 0)").

(** A service that fails with HTTP 500 and body [server error]. *)
Definition env_500 : Env :=
  stub_env
    (fun _ _ => ok (mkResponse 500 "server error"
                      (raise (ValueError "Expecting value: line 1 column 1 (char 0)"))))
    (fun _ => false) no_json.

(** A service that answers 201 Created with a well-formed body. *)
Definition env_201 : Env :=
  stub_env (fun _ _ => ok (response_with 201 "{...}" "hello")) (fun _ => false) no_json.

(** A service that answers 200 with the given text. *)
Definition env_say (t : string) : Env :=
  stub_env (fun _ _ => ok (response_with 200 "{...}" t)) (fun _ => false) no_json.

(** A service that answers 200 with a body whose text part is the given
    object. *)
Definition env_part (v : JValue) : Env :=
  stub_env (fun _ _ => ok (mkResponse 200 "{...}" (ok (body_of_value v))))
    (fun _ => false) no_json.

(** A service that answers the successive requests with the given texts,
    and with [rest] once they are used up. *)
Definition env_script (answers : list string) (rest : string)
  (loads : string -> result JValue) : Env :=
  stub_env
    (fun net _ => ok (response_with 200 "{...}" (nth (List.length net) answers rest)))
    (fun _ => false) loads.

(** A service that answers the successive requests with bodies whose text
    parts are the given objects, and with [rest] once they are used up. *)
Definition env_parts (answers : list JValue) (rest : JValue)
  (loads : string -> result JValue) : Env :=
  stub_env
    (fun net _ =>
       ok (mkResponse 200 "{...}" (ok (body_of_value (nth (List.length net) answers rest)))))
    (fun _ => false) loads.

Definition quoted (s : string) : string := PyStr.dq ++ s ++ PyStr.dq.

(** A JSON document with the two expected keys. *)
Definition questions_doc (tech beh : list string) : string :=
  "{" ++ quoted "technical_questions" ++ ": [" ++ PyStr.join ", " tech ++ "], "
  ++ quoted "behavioral_questions" ++ ": [" ++ PyStr.join ", " beh ++ "]}".

Definition five_t : list string := ["T1"; "T2"; "T3"; "T4"; "T5"].

Definition five_b : list string := ["B1"; "B2"; "B3"; "B4"; "B5"].

(** Five technical questions, each wrapped in an object. *)
Definition objects_doc : string :=
  questions_doc
    (map (fun t => "{" ++ quoted "question" ++ ": " ++ quoted t ++ "}") five_t)
    (map quoted five_b).

Definition objects_value : JValue :=
  JDict [ ("technical_questions",
           JList (map (fun t => JDict [("question", JStr t)]) five_t));
          ("behavioral_questions", JList (map JStr five_b)) ].

(** The service wraps [objects_doc] in prose. *)
Definition env_objects : Env :=
  env_script [] ("Here are the questions:" ++ PyStr.nl ++ objects_doc ++ PyStr.nl ++ "Good luck!")
    (loads_only objects_doc objects_value).

(** A service that says [Hello!], behind a filter that flags the texts in
    which one word occurs. *)
Definition env_flags_darn : Env :=
  stub_env (fun _ _ => ok (response_with 200 "{...}" "Hello!"))
    (fun t => contains "darn" t) no_json.

Definition blank_questions : list string := [""; "T2"; "T3"; "T4"; "T5"].

(** A manager whose first technical question is the empty string. *)
Definition blank_first : TestManager :=
  {| in_test := true;
     question_index := 0;
     company := "Acme Corp";
     role := "Developer";
     technical_questions := JList (map JStr blank_questions);
     behavioral_questions := JList (map JStr five_b);
     user_answers := [] |}.

(** The question document whose first technical question is empty. *)
Definition blank_doc : string :=
  questions_doc (map quoted blank_questions) (map quoted five_b).

Definition blank_value : JValue :=
  JDict [ ("technical_questions", JList (map JStr blank_questions));
          ("behavioral_questions", JList (map JStr five_b)) ].

(** A service that accepts the company, then sends [blank_doc], then
    praises. *)
Definition env_blank : Env :=
  env_script ["VALID"; blank_doc] "Well done." (loads_only blank_doc blank_value).

(** A whole test: company, role and ten answers. *)
Definition full_test : list Event :=
  [ StartTest; Send "Acme Corp"; Send "Developer";
    Send "a1"; Send "a2"; Send "a3"; Send "a4"; Send "a5";
    Send "a6"; Send "a7"; Send "a8"; Send "a9"; Send "a10" ].

(** A question document whose technical questions are an object of five
    entries instead of an array. *)
Definition object_doc : string :=
  "{" ++ quoted "technical_questions" ++ ": {"
  ++ PyStr.join ", " (map (fun k => quoted k ++ ": " ++ quoted "T") ["1"; "2"; "3"; "4"; "5"])
  ++ "}, " ++ quoted "behavioral_questions" ++ ": ["
  ++ PyStr.join ", " (map quoted five_b) ++ "]}".

Definition object_value : JValue :=
  JDict [ ("technical_questions",
           JDict (map (fun k => (k, JStr "T")) ["1"; "2"; "3"; "4"; "5"]));
          ("behavioral_questions", JList (map JStr five_b)) ].

(** A service that accepts the company and then sends [object_doc]. *)
Definition env_object : Env :=
  env_script ["VALID"; object_doc] "Well done." (loads_only object_doc object_value).

(** A well-formed question document. *)
Definition plain_doc : string :=
  questions_doc (map quoted five_t) (map quoted five_b).

Definition plain_value : JValue :=
  JDict [ ("technical_questions", JList (map JStr five_t));
          ("behavioral_questions", JList (map JStr five_b)) ].

(** A service that fails with HTTP 500 and sends [plain_doc] as the body of
    the failure. *)
Definition env_500_with_doc : Env :=
  stub_env
    (fun _ _ => ok (mkResponse 500 plain_doc (ok (mkBody None))))
    (fun _ => false) (loads_only plain_doc plain_value).

(** A feedback that opens a fenced code block. *)
Definition fenced_feedback : string :=
  "Answer 3 could read:" ++ PyStr.nl ++ "```python" ++ PyStr.nl
  ++ "print(1)" ++ PyStr.nl ++ "```" ++ PyStr.nl ++ "Placement probability: 70%".

(** A service that accepts the company, sends [plain_doc], and evaluates
    with [fenced_feedback]. *)
Definition env_fenced : Env :=
  env_script ["VALID"; plain_doc] fenced_feedback (loads_only plain_doc plain_value).

(** A service that accepts the company, sends [plain_doc], and praises. *)
Definition env_plain : Env :=
  env_script ["VALID"; plain_doc] "Well done." (loads_only plain_doc plain_value).

(** ** Notions used by the statements *)

(** A text made of characters of the given set, each given by its bytes. *)
Inductive made_of (chars : list string) : string -> Prop :=
| made_of_nil : made_of chars ""
| made_of_cons : forall t r, In t chars -> made_of chars r -> made_of chars (t ++ r).

(** A run of whitespace. *)
Definition all_space (s : string) : Prop := made_of PyStr.whitespace s.

Definition first_at (c : ascii) (s : string) (i : nat) : Prop :=
  String.get i s = Some c /\ forall k, (k < i)%nat -> String.get k s <> Some c.

Definition last_at (c : ascii) (s : string) (j : nat) : Prop :=
  String.get j s = Some c /\ forall k, (j < k)%nat -> String.get k s <> Some c.

(** The response is accepted: it decodes, both keys are there and both
    values have length 5. *)
Definition accepted (E : Env) (raw : string) (tech beh : JValue) : Prop :=
  exists data,
    json_loads E (json_capture raw) = ok data /\
    getitem_key data "technical_questions" = ok tech /\
    getitem_key data "behavioral_questions" = ok beh /\
    py_len tech = ok 5 /\ py_len beh = ok 5.

Definition default_questions : JValue * JValue :=
  (JList (map JStr default_tech), JList (map JStr default_beh)).

(** The questions the generator returns on a text. *)
Definition questions_of (E : Env) (raw : string) : JValue * JValue :=
  match parse_questions E (json_capture raw) with
  | inr (tech, beh) => (tech, beh)
  | inl _ => default_questions
  end.

(** The result the specification asks of the generator: a list of exactly
    five strings. *)
Definition five_strings (v : JValue) : Prop :=
  exists l : list string, v = JList (map JStr l) /\ List.length l = 5%nat.

(** Two managers that differ at most in [question_index]. *)
Definition same_session (tm tm' : TestManager) : Prop :=
  in_test tm' = in_test tm /\
  company tm' = company tm /\
  role tm' = role tm /\
  technical_questions tm' = technical_questions tm /\
  behavioral_questions tm' = behavioral_questions tm /\
  user_answers tm' = user_answers tm.

(** The questions shown in the chat pane, in order. *)
Definition asked (g : GUI) : list string :=
  filter (fun m => PyStr.startswith m "**Q") (map msg_text (chat_display g)).

(** The window is waiting for the answer to question [k + 1] of the ten
    questions [ts ++ bs]. *)
Definition awaiting_answer (g : GUI) (ts bs : list string) (k : nat) : Prop :=
  let tm := test_manager g in
  company tm <> "" /\ role tm <> "" /\
  technical_questions tm = JList (map JStr ts) /\
  behavioral_questions tm = JList (map JStr bs) /\
  List.length ts = 5%nat /\ List.length bs = 5%nat /\
  question_index tm = Z.of_nat (k + 1) /\
  List.length (user_answers tm) = k.

(** The message that shows question number [n]. *)
Definition question_message (n : nat) (q : string) : Message :=
  mkMessage "JoSi" ("**Q" ++ PyStr.of_Z (Z.of_nat n) ++ ":** " ++ q) false.

(** The messages that show the questions [qs], numbered from [n]. *)
Fixpoint numbered (n : nat) (qs : list string) : list Message :=
  match qs with
  | [] => []
  | q :: rest => question_message n q :: numbered (S n) rest
  end.

(** The two buttons agree with the mode: Exit is enabled in test mode, Start
    outside it. *)
Definition buttons_match (g : GUI) : Prop :=
  exit_test_btn g = in_test (test_manager g) /\
  start_test_btn g = negb (in_test (test_manager g)).

(** The bounds of the question index: between 0 and 10, still 0 while no
    role is set, and at most one ahead of the answers. *)
Definition index_inv (g : GUI) : Prop :=
  let tm := test_manager g in
  0 <= question_index tm <= 10 /\
  (role tm = "" -> question_index tm = 0) /\
  question_index tm <= Z.of_nat (List.length (user_answers tm)) + 1.

(** The message is one that [add_message] finishes inserting: it is flagged
    as an error, or [format_markdown] returns on it. *)
Definition displayed (message : string) (is_error : bool) : bool :=
  is_error || returns (message ++ PyStr.nl ++ PyStr.nl).

(** The validator has answered true for [name] at some point of the
    requests made so far. *)
Definition validated (E : Env) (net : list Request) (name : string) : Prop :=
  exists net0 rest,
    net = (net0 ++ request_for E (check_prompt name) :: rest)%list /\
    fst (gemini_check_company E net0 name) = ok true.

(** The service sends texts: whenever a response carries a text part, that
    part is a text. *)
Definition text_service (E : Env) : Prop :=
  forall net rq resp body v,
    requests_post E net rq = inr resp ->
    json resp = inr body ->
    first_text body = inr v ->
    exists s, v = JStr s.

(** The two question lists are as a new manager has them, with the index
    at 0, or both of length 5. *)
Definition lists_inv (tm : TestManager) : Prop :=
  (technical_questions tm = JList [] /\ behavioral_questions tm = JList [] /\
   question_index tm = 0) \/
  (py_len (technical_questions tm) = ok 5 /\ py_len (behavioral_questions tm) = ok 5).

(** The invariant of the test session carried by a window. *)
Definition session_inv (E : Env) (g : GUI) : Prop :=
  let tm := test_manager g in
  (company tm <> "" -> in_test tm = true /\ validated E (network g) (company tm)) /\
  (role tm <> "" ->
     company tm <> "" /\
     py_len (technical_questions tm) = ok 5 /\
     py_len (behavioral_questions tm) = ok 5) /\
  (List.length (user_answers tm) <= 10)%nat /\
  (List.length (user_answers tm) = 10%nat -> is_processing g = true).

(** The inputs fed to the test flow one after the other. *)
Definition answer_all (E : Env) (g : GUI) (answers : list string) : GUI :=
  fold_left (fun g0 u => state_of (handle_test_flow E g0 u)) answers g.

(** The window in which the worker of a message starts. *)
Definition dispatched (g : GUI) (user_text : string) : GUI :=
  with_processing
    (with_history (shown g "You" user_text false)
       (conversation_history g ++ [mkTurn "user" user_text])%list)
    true.

(** The bounds of the index together with the shape of the lists. *)
Definition flow_inv (g : GUI) : Prop :=
  index_inv g /\ lists_inv (test_manager g).

(** No character of the set is empty, and none is the beginning of
    another. *)
Definition well_formed (chars : list string) : bool :=
  forallb
    (fun t =>
       negb (String.eqb t "")
       && forallb (fun t' => implb (prefix t t') (String.eqb t t')) chars)
    chars.

(** * Properties *)

(** Proof steps shared by the lemmas on the window. *)

Ltac simpl_gui :=
  cbn [state_of and_then conversation_history is_processing chat_display network
       test_manager start_test_btn exit_test_btn shown enable_input dispatched
       with_network with_test_manager with_buttons with_history with_processing].

Ltac simpl_gui_in H :=
  cbn [state_of and_then conversation_history is_processing chat_display network
       test_manager start_test_btn exit_test_btn shown enable_input dispatched
       with_network with_test_manager with_buttons with_history with_processing] in H.

Ltac session_case :=
  first [ right; repeat split; reflexivity
        | left; repeat split; try reflexivity; try assumption;
          first [ left; reflexivity | right; eexists; reflexivity ] ].

Ltac ext_list :=
  first [ exists []; rewrite app_nil_r; reflexivity
        | eexists; reflexivity
        | eexists; rewrite <- !app_assoc; reflexivity ].

Ltac ext_bounded :=
  first [ exists []; split; [rewrite app_nil_r; reflexivity | simpl; lia]
        | eexists; split; [reflexivity | simpl; lia]
        | eexists; split; [rewrite <- !app_assoc; reflexivity | simpl; lia] ].

(** ** Text lemmas *)

Lemma string_app_assoc : forall a b c : string, (a ++ b) ++ c = a ++ b ++ c.
Proof. induction a; intros; simpl; [reflexivity | f_equal; auto]. Qed.

Lemma string_app_nil_r : forall a : string, a ++ "" = a.
Proof. induction a; simpl; [reflexivity | f_equal; auto]. Qed.

Lemma string_length_app : forall a b : string,
  String.length (a ++ b) = (String.length a + String.length b)%nat.
Proof. induction a; intros; simpl; [reflexivity | f_equal; auto]. Qed.

Lemma prefix_drop : forall sep s,
  prefix sep s = true -> s = sep ++ drop (String.length sep) s.
Proof.
  induction sep as [|c sep IH]; intros s H.
  - reflexivity.
  - destruct s as [|d s]; [discriminate|].
    cbn [prefix] in H.
    destruct (ascii_dec c d) as [e|]; [subst d|discriminate].
    simpl. f_equal. now apply IH.
Qed.

Lemma prefix_app : forall t r, prefix t (t ++ r) = true.
Proof.
  induction t as [|c t IH]; intros r.
  - destruct r; reflexivity.
  - cbn [append prefix]. destruct (ascii_dec c c); [apply IH | congruence].
Qed.

Lemma drop_app : forall t r, drop (String.length t) (t ++ r) = r.
Proof. induction t as [|c t IH]; intros r; [reflexivity | apply IH]. Qed.

(** Two prefixes of one text: one is a prefix of the other. *)
Lemma prefix_both : forall a b s,
  prefix a s = true -> prefix b s = true ->
  prefix a b = true \/ prefix b a = true.
Proof.
  induction a as [|c a IH]; intros b s Ha Hb.
  - left. destruct b; reflexivity.
  - destruct b as [|d b]; [right; reflexivity|].
    destruct s as [|e s]; [discriminate|].
    cbn [prefix] in *.
    destruct (ascii_dec c e); [subst e|discriminate].
    destruct (ascii_dec d c); [subst d|discriminate].
    destruct (ascii_dec c c); [|congruence].
    eauto.
Qed.

(** *** Stripping a set of characters *)

Lemma well_formed_nonempty : forall chars t,
  well_formed chars = true -> In t chars -> t <> "".
Proof.
  intros chars t H Hin. unfold well_formed in H.
  rewrite forallb_forall in H. apply H in Hin.
  apply andb_true_iff in Hin as [Hn _].
  apply negb_true_iff, String.eqb_neq in Hn. exact Hn.
Qed.

Lemma well_formed_prefix : forall chars t t',
  well_formed chars = true -> In t chars -> In t' chars ->
  prefix t t' = true -> t = t'.
Proof.
  intros chars t t' H Hin Hin' Hp. unfold well_formed in H.
  rewrite forallb_forall in H. apply H in Hin.
  apply andb_true_iff in Hin as [_ Hall].
  rewrite forallb_forall in Hall. apply Hall in Hin'.
  rewrite Hp in Hin'. simpl in Hin'. now apply String.eqb_eq.
Qed.

Lemma drop_one_of_some : forall chars s r,
  drop_one_of chars s = Some r -> exists t, In t chars /\ s = t ++ r.
Proof.
  induction chars as [|t ts IH]; intros s r H; [discriminate|].
  cbn [drop_one_of] in H. destruct (prefix t s) eqn:Hp.
  - injection H as <-. exists t. split; [now left | now apply prefix_drop].
  - destruct (IH s r H) as [t' [Hin Hs]]. exists t'. split; [now right | exact Hs].
Qed.

Lemma drop_one_of_none : forall chars s t,
  drop_one_of chars s = None -> In t chars -> prefix t s = false.
Proof.
  induction chars as [|t0 ts IH]; intros s t H Hin; [contradiction|].
  cbn [drop_one_of] in H. destruct (prefix t0 s) eqn:Hp; [discriminate|].
  destruct Hin as [<-|Hin]; [exact Hp | now apply IH].
Qed.

(** The character that is dropped is the one the text starts with. *)
Lemma drop_one_of_in : forall chars t r,
  well_formed chars = true -> In t chars ->
  drop_one_of chars (t ++ r) = Some r.
Proof.
  intros chars t r Hwf Hin.
  destruct (drop_one_of chars (t ++ r)) as [r'|] eqn:Hd.
  - destruct (drop_one_of_some _ _ _ Hd) as [t' [Hin' Hs]].
    assert (Ht : t = t').
    { assert (H1 : prefix t (t ++ r) = true) by apply prefix_app.
      assert (H2 : prefix t' (t ++ r) = true) by (rewrite Hs; apply prefix_app).
      destruct (prefix_both t t' _ H1 H2) as [H|H].
      - exact (well_formed_prefix chars t t' Hwf Hin Hin' H).
      - symmetry. exact (well_formed_prefix chars t' t Hwf Hin' Hin H). }
    subst t'. f_equal.
    assert (Hl : drop (String.length t) (t ++ r') = drop (String.length t) (t ++ r))
      by now rewrite Hs.
    now rewrite !drop_app in Hl.
  - pose proof (drop_one_of_none _ _ t Hd Hin) as H.
    now rewrite prefix_app in H.
Qed.

Lemma lstrip_chars_from_enough : forall chars n m s,
  well_formed chars = true ->
  (String.length s <= n)%nat -> (String.length s <= m)%nat ->
  lstrip_chars_from n chars s = lstrip_chars_from m chars s.
Proof.
  intros chars n. induction n as [|n IH]; intros m s Hwf Hn Hm.
  - destruct s; [|simpl in Hn; lia].
    destruct m; [reflexivity|]. cbn [lstrip_chars_from].
    destruct (drop_one_of chars "") as [r|] eqn:Hd; [|reflexivity].
    destruct (drop_one_of_some _ _ _ Hd) as [t [Hin Hs]].
    pose proof (well_formed_nonempty chars t Hwf Hin).
    destruct t; [congruence | discriminate].
  - cbn [lstrip_chars_from].
    destruct (drop_one_of chars s) as [r|] eqn:Hd.
    + destruct (drop_one_of_some _ _ _ Hd) as [t [Hin Hs]].
      pose proof (well_formed_nonempty chars t Hwf Hin) as Hne.
      assert (Hlen : (String.length r < String.length s)%nat).
      { subst s. rewrite string_length_app. destruct t; [congruence|simpl; lia]. }
      destruct m as [|m]; [lia|].
      cbn [lstrip_chars_from]. rewrite Hd. apply IH; [exact Hwf | lia | lia].
    + destruct m; [reflexivity|]. cbn [lstrip_chars_from]. now rewrite Hd.
Qed.

Lemma lstrip_chars_some : forall chars s r,
  well_formed chars = true ->
  drop_one_of chars s = Some r -> lstrip_chars chars s = lstrip_chars chars r.
Proof.
  intros chars s r Hwf Hd. unfold lstrip_chars.
  destruct (drop_one_of_some _ _ _ Hd) as [t [Hin Hs]].
  pose proof (well_formed_nonempty chars t Hwf Hin) as Hne.
  assert (Hlen : (String.length r < String.length s)%nat).
  { subst s. rewrite string_length_app. destruct t; [congruence|simpl; lia]. }
  destruct (String.length s) as [|n] eqn:Hn; [lia|].
  cbn [lstrip_chars_from]. rewrite Hd.
  apply lstrip_chars_from_enough; [exact Hwf | lia | lia].
Qed.

Lemma lstrip_chars_none : forall chars s,
  drop_one_of chars s = None -> lstrip_chars chars s = s.
Proof.
  intros chars s Hd. unfold lstrip_chars.
  destruct (String.length s); [reflexivity|].
  cbn [lstrip_chars_from]. now rewrite Hd.
Qed.

(** A run of characters of the set in front of a text is stripped with
    it. *)
Lemma lstrip_chars_made_of : forall chars pre s,
  well_formed chars = true -> made_of chars pre ->
  lstrip_chars chars (pre ++ s) = lstrip_chars chars s.
Proof.
  intros chars pre s Hwf Hpre. induction Hpre as [|t r Hin Hr IH].
  - reflexivity.
  - rewrite string_app_assoc.
    rewrite (lstrip_chars_some chars _ (r ++ s) Hwf); [exact IH|].
    now apply drop_one_of_in.
Qed.

(** What [lstrip] removes is a run of characters of the set, and what it
    leaves starts with none of them. *)
Lemma lstrip_chars_split : forall chars s,
  well_formed chars = true ->
  exists pre,
    made_of chars pre /\ s = pre ++ lstrip_chars chars s /\
    drop_one_of chars (lstrip_chars chars s) = None.
Proof.
  intros chars s Hwf.
  remember (String.length s) as n eqn:Hn.
  revert s Hn. induction n as [n IH] using lt_wf_ind. intros s Hn.
  destruct (drop_one_of chars s) as [r|] eqn:Hd.
  - destruct (drop_one_of_some _ _ _ Hd) as [t [Hin Hs]].
    pose proof (well_formed_nonempty chars t Hwf Hin) as Hne.
    assert (Hlen : (String.length r < n)%nat).
    { subst n s. rewrite string_length_app. destruct t; [congruence|simpl; lia]. }
    destruct (IH _ Hlen r eq_refl) as [pre [Hpre [Hr Hnone]]].
    rewrite (lstrip_chars_some chars s r Hwf Hd).
    exists (t ++ pre). split; [now constructor|]. split; [|exact Hnone].
    rewrite string_app_assoc, <- Hr. exact Hs.
  - rewrite (lstrip_chars_none chars s Hd).
    exists "". split; [constructor|]. split; [reflexivity | exact Hd].
Qed.

Lemma rev_string_app : forall a b,
  rev_string (a ++ b) = rev_string b ++ rev_string a.
Proof.
  induction a as [|c a IH]; intros b; simpl.
  - now rewrite string_app_nil_r.
  - now rewrite IH, string_app_assoc.
Qed.

Lemma rev_string_involutive : forall s, rev_string (rev_string s) = s.
Proof.
  induction s as [|c s IH]; simpl; [reflexivity|].
  now rewrite rev_string_app, IH.
Qed.

Lemma made_of_app : forall chars a b,
  made_of chars a -> made_of chars b -> made_of chars (a ++ b).
Proof.
  intros chars a b Ha Hb. induction Ha as [|t r Hin Hr IH]; [exact Hb|].
  rewrite string_app_assoc. now constructor.
Qed.

Lemma made_of_one : forall chars t, In t chars -> made_of chars t.
Proof.
  intros chars t Hin. rewrite <- (string_app_nil_r t). constructor; [exact Hin|constructor].
Qed.

Lemma made_of_rev : forall chars s,
  made_of chars s -> made_of (map rev_string chars) (rev_string s).
Proof.
  intros chars s H. induction H as [|t r Hin Hr IH]; [constructor|].
  rewrite rev_string_app. apply made_of_app; [exact IH|].
  apply made_of_one. now apply in_map.
Qed.

Lemma made_of_unrev : forall chars s,
  made_of (map rev_string chars) s -> made_of chars (rev_string s).
Proof.
  intros chars s H. induction H as [|t r Hin Hr IH]; [constructor|].
  rewrite rev_string_app. apply made_of_app; [exact IH|].
  apply made_of_one. apply in_map_iff in Hin as [t0 [<- Hin]].
  now rewrite rev_string_involutive.
Qed.

(** What [rstrip] removes is a run of characters of the set, and what it
    leaves ends with none of them. *)
Lemma rstrip_chars_split : forall chars s,
  well_formed (map rev_string chars) = true ->
  exists post,
    made_of chars post /\ s = rstrip_chars chars s ++ post /\
    drop_one_of (map rev_string chars) (rev_string (rstrip_chars chars s)) = None.
Proof.
  intros chars s Hwf. unfold rstrip_chars.
  destruct (lstrip_chars_split (map rev_string chars) (rev_string s) Hwf)
    as [pre [Hpre [Hs Hnone]]].
  exists (rev_string pre). split; [now apply made_of_unrev|]. split.
  - rewrite <- rev_string_app, <- Hs. now rewrite rev_string_involutive.
  - now rewrite rev_string_involutive.
Qed.

Lemma rstrip_chars_made_of : forall chars s post,
  well_formed (map rev_string chars) = true -> made_of chars post ->
  rstrip_chars chars (s ++ post) = rstrip_chars chars s.
Proof.
  intros chars s post Hwf Hpost. unfold rstrip_chars.
  rewrite rev_string_app, lstrip_chars_made_of; [reflexivity | exact Hwf|].
  now apply made_of_rev.
Qed.

(** A text that neither starts nor ends with a character of the set is what
    remains of it between two runs of such characters. *)
Lemma strip_chars_core : forall chars pre core post,
  well_formed chars = true -> well_formed (map rev_string chars) = true ->
  made_of chars pre -> made_of chars post ->
  drop_one_of chars (core ++ post) = None ->
  drop_one_of (map rev_string chars) (rev_string core) = None ->
  strip_chars chars (pre ++ core ++ post) = core.
Proof.
  intros chars pre core post Hwf Hwr Hpre Hpost Hl Hr. unfold strip_chars.
  rewrite (lstrip_chars_made_of chars pre _ Hwf Hpre).
  rewrite (lstrip_chars_none chars _ Hl).
  rewrite (rstrip_chars_made_of chars core post Hwr Hpost).
  unfold rstrip_chars. rewrite (lstrip_chars_none _ _ Hr).
  apply rev_string_involutive.
Qed.

(** *** Whitespace *)

Lemma whitespace_well_formed : well_formed PyStr.whitespace = true.
Proof. vm_compute. reflexivity. Qed.

Lemma whitespace_rev_well_formed :
  well_formed (map rev_string PyStr.whitespace) = true.
Proof. vm_compute. reflexivity. Qed.

(** [strip] removes a run of whitespace at each end and nothing else. *)
Lemma strip_split : forall s,
  exists pre post,
    s = pre ++ PyStr.strip s ++ post /\ all_space pre /\ all_space post.
Proof.
  intros s. unfold PyStr.strip, PyStr.rstrip, PyStr.lstrip.
  destruct (lstrip_chars_split PyStr.whitespace s whitespace_well_formed)
    as [pre [Hpre [Hs _]]].
  destruct (rstrip_chars_split PyStr.whitespace (lstrip_chars PyStr.whitespace s)
              whitespace_rev_well_formed) as [post [Hpost [Hl _]]].
  exists pre, post. split; [|split; assumption].
  rewrite <- Hl. exact Hs.
Qed.

(** What [strip] leaves neither starts nor ends with whitespace. *)
Lemma strip_ends : forall s,
  drop_one_of PyStr.whitespace (PyStr.strip s) = None /\
  drop_one_of (map rev_string PyStr.whitespace) (rev_string (PyStr.strip s)) = None.
Proof.
  intros s. unfold PyStr.strip, PyStr.rstrip, PyStr.lstrip.
  destruct (lstrip_chars_split PyStr.whitespace s whitespace_well_formed)
    as [pre [Hpre [Hs Hnone]]].
  set (l := lstrip_chars PyStr.whitespace s) in *.
  destruct (rstrip_chars_split PyStr.whitespace l whitespace_rev_well_formed)
    as [post [Hpost [Hl Hr]]].
  split; [|exact Hr].
  destruct (drop_one_of PyStr.whitespace (rstrip_chars PyStr.whitespace l))
    as [r|] eqn:Hd; [|reflexivity].
  destruct (drop_one_of_some _ _ _ Hd) as [t [Hin Ht]].
  rewrite Hl, Ht, string_app_assoc in Hnone.
  rewrite (drop_one_of_in PyStr.whitespace t _ whitespace_well_formed Hin) in Hnone.
  discriminate.
Qed.

Lemma strip_core : forall pre core post,
  all_space pre -> all_space post ->
  drop_one_of PyStr.whitespace (core ++ post) = None ->
  drop_one_of (map rev_string PyStr.whitespace) (rev_string core) = None ->
  PyStr.strip (pre ++ core ++ post) = core.
Proof.
  intros pre core post Hpre Hpost Hl Hr.
  exact (strip_chars_core PyStr.whitespace pre core post
           whitespace_well_formed whitespace_rev_well_formed Hpre Hpost Hl Hr).
Qed.

(** A run of whitespace is stripped to nothing. *)
Lemma strip_all_space : forall s, all_space s -> PyStr.strip s = "".
Proof.
  intros s H. rewrite <- (string_app_nil_r s).
  change (s ++ "") with (s ++ "" ++ ""). rewrite <- (string_app_nil_r (s ++ "" ++ "")).
  rewrite string_app_assoc. simpl.
  change (s ++ "") with (s ++ "" ++ "").
  apply strip_core; [exact H | constructor | reflexivity | reflexivity].
Qed.

(** A text is stripped to nothing only when it is a run of whitespace. *)
Lemma strip_empty_all_space : forall s, PyStr.strip s = "" -> all_space s.
Proof.
  intros s H. destruct (strip_split s) as [pre [post [Hs [Hp Hq]]]].
  rewrite H in Hs. simpl in Hs. rewrite Hs. now apply made_of_app.
Qed.

(** Lengths and indices count characters, and [strip] removes the
    whitespace outside the ASCII range as well. *)
Lemma text_counts_characters :
  py_len (JStr "héllo") = ok 5 /\
  py_len (JStr "éabc") = ok 4 /\
  getitem_index (JStr "héllo") 1 = ok (JStr "é") /\
  PyStr.strip (PyStr.utf8 [194; 160]%nat ++ "VALID" ++ PyStr.utf8 [226; 128; 131]%nat)
    = "VALID".
Proof. repeat split; vm_compute; reflexivity. Qed.






(** *** Searching and slicing *)

Lemma get_some_lt : forall s k c,
  String.get k s = Some c -> (k < String.length s)%nat.
Proof.
  induction s as [|d s IH]; intros k c H; simpl in *.
  - destruct k; discriminate.
  - destruct k as [|k]; [lia|]. apply IH in H. lia.
Qed.

Lemma find_from_spec : forall c s i,
  (PyStr.find_from c s i = -1 /\ forall k, String.get k s <> Some c) \/
  (exists k, PyStr.find_from c s i = i + Z.of_nat k /\ first_at c s k).
Proof.
  intros c s. induction s as [|d s IH]; intros i; simpl.
  - left. split; [reflexivity|]. intros k; destruct k; discriminate.
  - destruct (Ascii.eqb d c) eqn:Hd.
    + apply Ascii.eqb_eq in Hd. subst d. right. exists 0%nat.
      split; [lia|]. split; [reflexivity|]. intros k Hk; lia.
    + apply Ascii.eqb_neq in Hd.
      destruct (IH (i + 1)) as [[Hf Hn] | [k [Hf [Hg Hlt]]]].
      * left. split; [assumption|].
        intros [|k]; simpl; [congruence | apply Hn].
      * right. exists (S k). split; [lia|]. split; [exact Hg|].
        intros [|j] Hj; simpl; [congruence | apply Hlt; lia].
Qed.

Lemma rfind_from_spec : forall c s i seen,
  (PyStr.rfind_from c s i seen = seen /\ forall k, String.get k s <> Some c) \/
  (exists k, PyStr.rfind_from c s i seen = i + Z.of_nat k /\ last_at c s k).
Proof.
  intros c s. induction s as [|d s IH]; intros i seen; simpl.
  - left. split; [reflexivity|]. intros k; destruct k; discriminate.
  - destruct (IH (i + 1) (if Ascii.eqb d c then i else seen))
      as [[Hf Hn] | [k [Hf [Hg Hlt]]]].
    + destruct (Ascii.eqb d c) eqn:Hd.
      * apply Ascii.eqb_eq in Hd. subst d. right. exists 0%nat.
        split; [lia|]. split; [reflexivity|].
        intros [|k] Hk; simpl; [lia | apply Hn].
      * apply Ascii.eqb_neq in Hd. left. split; [assumption|].
        intros [|k]; simpl; [congruence | apply Hn].
    + right. exists (S k). split; [lia|]. split; [exact Hg|].
      intros [|j] Hj; simpl; [lia | apply Hlt; lia].
Qed.

(** [find] gives the first occurrence, or -1 when there is none. *)
Lemma find_spec : forall c s,
  (PyStr.find c s = -1 /\ forall k, String.get k s <> Some c) \/
  (exists k, PyStr.find c s = Z.of_nat k /\ first_at c s k).
Proof.
  intros c s. unfold PyStr.find.
  destruct (find_from_spec c s 0) as [H | [k [Hf Hk]]]; [left; exact H|].
  right. exists k. split; [lia | exact Hk].
Qed.

(** [rfind] gives the last occurrence, or -1 when there is none. *)
Lemma rfind_spec : forall c s,
  (PyStr.rfind c s = -1 /\ forall k, String.get k s <> Some c) \/
  (exists k, PyStr.rfind c s = Z.of_nat k /\ last_at c s k).
Proof.
  intros c s. unfold PyStr.rfind.
  destruct (rfind_from_spec c s 0 (-1)) as [H | [k [Hf Hk]]]; [left; exact H|].
  right. exists k. split; [lia | exact Hk].
Qed.

Lemma slice_inside : forall s i j,
  (i <= j)%nat -> (j < String.length s)%nat ->
  PyStr.slice s (Z.of_nat i) (Z.of_nat j + 1) = substring i (j - i + 1) s.
Proof.
  intros s i j Hij Hj. unfold PyStr.slice, PyStr.clamp.
  destruct (Z.ltb_spec (Z.of_nat i) 0); [lia|].
  destruct (Z.ltb_spec (Z.of_nat j + 1) 0); [lia|].
  rewrite !Z.min_l by lia.
  f_equal; lia.
Qed.

(** The captured text runs from the first opening brace to the last closing
    brace, when the latter comes after the former; otherwise nothing is
    captured. *)
Lemma json_capture_spec : forall raw,
  (exists i j, (i < j)%nat /\ first_at "{" raw i /\ last_at "}" raw j /\
     json_capture raw = PyStr.strip (substring i (j - i + 1) raw)) \/
  (json_capture raw = "" /\
   forall i j, String.get i raw = Some "{"%char -> String.get j raw = Some "}"%char ->
     (j <= i)%nat).
Proof.
  intros raw. unfold json_capture.
  destruct (find_spec "{" raw) as [[Hf Hn] | [i [Hf Hi]]];
    destruct (rfind_spec "}" raw) as [[Hr Hm] | [j [Hr Hj]]];
    rewrite Hf, Hr.
  - right. split; [reflexivity|]. intros i j Hi _. now apply Hn in Hi.
  - right. split; [reflexivity|]. intros i' j' Hi _. now apply Hn in Hi.
  - right. split.
    + simpl. now rewrite andb_false_r.
    + intros i' j' _ Hj'. now apply Hm in Hj'.
  - destruct (Z.gtb_spec (Z.of_nat j) (Z.of_nat i)) as [Hgt | Hle].
    + left. exists i, j. split; [lia|]. split; [exact Hi|]. split; [exact Hj|].
      replace (negb (Z.of_nat i =? -1)) with true
        by (symmetry; apply negb_true_iff, Z.eqb_neq; lia).
      replace (negb (Z.of_nat j =? -1)) with true
        by (symmetry; apply negb_true_iff, Z.eqb_neq; lia).
      cbn [andb]. rewrite slice_inside; [reflexivity | lia |].
      destruct Hj as [Hj _]. now apply get_some_lt in Hj.
    + right. split.
      * now rewrite andb_false_r.
      * intros i' j' Hi' Hj'.
        destruct Hi as [_ Hi]. destruct Hj as [_ Hj].
        destruct (Nat.le_gt_cases j' i') as [|Hlt]; [assumption|].
        assert (i <= i')%nat.
        { destruct (Nat.le_gt_cases i i') as [|C]; [assumption|].
          now apply Hi in C. }
        assert (j' <= j)%nat.
        { destruct (Nat.le_gt_cases j' j) as [|C]; [assumption|].
          now apply Hj in C. }
        lia.
Qed.

(** ** Remote model client *)

Lemma first_text_path : forall body c cs ct p ps t,
  body_candidates body = Some (c :: cs) ->
  candidate_content c = Some ct ->
  content_parts ct = Some (p :: ps) ->
  part_text p = Some t ->
  first_text body = ok t.
Proof.
  intros body c cs ct p ps t H1 H2 H3 H4.
  unfold first_text. rewrite H1. simpl. rewrite H2. simpl. rewrite H3. simpl.
  rewrite H4. reflexivity.
Qed.

Lemma call_gemini_api_eta : forall E net prompt,
  call_gemini_api E net prompt
  = (fst (call_gemini_api E net prompt), (net ++ [request_for E prompt])%list).
Proof. reflexivity. Qed.

(** C4, as the code has it: the client makes one request and never raises.
    With status 200 exactly it returns the first text part of the first
    candidate; with any other status, the other 2xx codes included, it
    returns [Error <status>: ] followed by the raw body; when the transport,
    the decoding of the body or the walk to the text part raises, it returns
    [Error: ] followed by the message of the exception. *)
Theorem call_gemini_api_contract : forall E net prompt,
  let r := fst (call_gemini_api E net prompt) in
  snd (call_gemini_api E net prompt) = (net ++ [request_for E prompt])%list /\
  (forall e, requests_post E net (request_for E prompt) = inl e ->
     r = JStr ("Error: " ++ str_exn e)) /\
  (forall resp, requests_post E net (request_for E prompt) = inr resp ->
     (status_code resp <> 200 ->
        r = JStr ("Error " ++ PyStr.of_Z (status_code resp) ++ ": " ++ text resp)) /\
     (status_code resp = 200 ->
        (forall e, json resp = inl e -> r = JStr ("Error: " ++ str_exn e)) /\
        (forall body, json resp = inr body ->
           (forall e, first_text body = inl e -> r = JStr ("Error: " ++ str_exn e)) /\
           (forall c cs ct p ps t,
              body_candidates body = Some (c :: cs) ->
              candidate_content c = Some ct ->
              content_parts ct = Some (p :: ps) ->
              part_text p = Some t ->
              r = t)))).
Proof.
  intros E net prompt r. subst r. unfold call_gemini_api. simpl.
  split; [reflexivity|]. split.
  - intros e He. rewrite He. reflexivity.
  - intros resp Hr. rewrite Hr. simpl. split.
    + intros Hs. apply Z.eqb_neq in Hs. rewrite Hs. reflexivity.
    + intros Hs. apply Z.eqb_eq in Hs. rewrite Hs. split.
      * intros e He. rewrite He. reflexivity.
      * intros body Hb. rewrite Hb. simpl. split.
        -- intros e He. rewrite He. reflexivity.
        -- intros c cs ct p ps t H1 H2 H3 H4.
           rewrite (first_text_path _ _ _ _ _ _ _ H1 H2 H3 H4). reflexivity.
Qed.

(** Scenario 3 at the client: HTTP 500 with body [server error]. *)
Lemma call_gemini_api_contract_witness :
  fst (call_gemini_api env_500 [] "hi") = JStr "Error 500: server error".
Proof.
  destruct (call_gemini_api_contract env_500 [] "hi") as [_ [_ H]].
  destruct (H (mkResponse 500 "server error"
                 (raise (ValueError "Expecting value: line 1 column 1 (char 0)")))
              eq_refl) as [H500 _].
  apply H500. simpl. lia.
Defined.

(** C4 as stated fails for a success status other than 200: a 201 response
    that carries a text part is answered with the error sentinel, not with
    the text. *)
Lemma call_gemini_api_201_is_error :
  let resp := response_with 201 "{...}" "hello" in
  requests_post env_201 [] (request_for env_201 "hi") = inr resp /\
  (200 <=? status_code resp) && (status_code resp <? 300) = true /\
  (resp_json <- json resp ;; first_text resp_json) = ok (JStr "hello") /\
  fst (call_gemini_api env_201 [] "hi") = JStr "Error 201: {...}" /\
  fst (call_gemini_api env_201 [] "hi") <> JStr "hello".
Proof.
  repeat split. vm_compute. discriminate.
Qed.

(** Every failure of the client can be told by the prefix test the callers
    use: unless the response has status 200 and carries a text part, which is
    then returned, the returned value is a text that starts with [Error]. *)
Theorem call_gemini_api_failures_start_with_error : forall E net prompt,
  let r := fst (call_gemini_api E net prompt) in
  (exists resp body,
     requests_post E net (request_for E prompt) = inr resp /\
     status_code resp = 200 /\
     json resp = inr body /\
     first_text body = ok r) \/
  (exists s, r = JStr s /\ PyStr.startswith s "Error" = true).
Proof.
  intros E net prompt. cbv zeta. unfold call_gemini_api. cbn [fst].
  destruct (requests_post E net (request_for E prompt)) as [e|resp] eqn:Hp;
    cbn [rbind]; [right; eexists; split; reflexivity|].
  destruct (Z.eqb_spec (status_code resp) 200) as [Hs|Hs];
    [|right; eexists; split; reflexivity].
  destruct (json resp) as [e|body] eqn:Hj; cbn [rbind];
    [right; eexists; split; reflexivity|].
  destruct (first_text body) as [e|t] eqn:Ht; [right; eexists; split; reflexivity|].
  left. exists resp, body. repeat split; assumption.
Qed.

(** ** Company validator *)

Lemma gemini_check_company_text : forall E net name response,
  fst (call_gemini_api E net (check_prompt name)) = JStr response ->
  gemini_check_company E net name
  = (ok (String.eqb (PyStr.lower (PyStr.strip response)) "valid"),
     (net ++ [request_for E (check_prompt name)])%list).
Proof.
  intros E net name response H. unfold gemini_check_company.
  rewrite call_gemini_api_eta, H. reflexivity.
Qed.

(** An object that is not a text makes the validator raise. *)
Lemma gemini_check_company_not_text : forall E net name,
  let response := fst (call_gemini_api E net (check_prompt name)) in
  (forall s, response <> JStr s) ->
  gemini_check_company E net name
  = (raise (no_attribute response "strip"),
     (net ++ [request_for E (check_prompt name)])%list).
Proof.
  intros E net name response H. subst response. unfold gemini_check_company.
  rewrite call_gemini_api_eta.
  destruct (fst (call_gemini_api E net (check_prompt name))) eqn:Hr;
    try reflexivity.
  exfalso. exact (H s eq_refl).
Qed.



(** ** Question generator *)

Lemma parse_questions_ok : forall E s tech beh,
  parse_questions E s = ok (tech, beh) <->
  exists data,
    json_loads E s = ok data /\
    getitem_key data "technical_questions" = ok tech /\
    getitem_key data "behavioral_questions" = ok beh /\
    py_len tech = ok 5 /\ py_len beh = ok 5.
Proof.
  intros E s tech beh. unfold parse_questions. split.
  - intros H.
    destruct (json_loads E s) as [?|data] eqn:H1; [discriminate|]. simpl in H.
    destruct (getitem_key data "technical_questions") as [?|t] eqn:H2;
      [discriminate|]. simpl in H.
    destruct (getitem_key data "behavioral_questions") as [?|b] eqn:H3;
      [discriminate|]. simpl in H.
    destruct (py_len t) as [?|nt] eqn:H4; [discriminate|]. simpl in H.
    destruct (Z.eqb_spec nt 5); [|discriminate]. simpl in H.
    destruct (py_len b) as [?|nb] eqn:H5; [discriminate|]. simpl in H.
    destruct (Z.eqb_spec nb 5); [|discriminate]. simpl in H.
    injection H as <- <-. subst. exists data. repeat split; assumption.
  - intros [data [H1 [H2 [H3 [H4 H5]]]]].
    rewrite H1. simpl. rewrite H2. simpl. rewrite H3. simpl. rewrite H4. simpl.
    rewrite H5. reflexivity.
Qed.

Lemma five_strings_default :
  five_strings (fst default_questions) /\ five_strings (snd default_questions).
Proof. split; eexists; split; reflexivity. Qed.

Lemma gemini_generate_questions_text : forall E net role raw,
  fst (call_gemini_api E net (questions_prompt role)) = JStr raw ->
  gemini_generate_questions E net role
  = (ok (questions_of E raw), (net ++ [request_for E (questions_prompt role)])%list).
Proof.
  intros E net role raw H. unfold gemini_generate_questions.
  rewrite call_gemini_api_eta, H. reflexivity.
Qed.

Lemma gemini_generate_questions_not_text : forall E net role,
  let raw := fst (call_gemini_api E net (questions_prompt role)) in
  (forall s, raw <> JStr s) ->
  gemini_generate_questions E net role
  = (raise (no_attribute raw "find"),
     (net ++ [request_for E (questions_prompt role)])%list).
Proof.
  intros E net role raw H. subst raw. unfold gemini_generate_questions.
  rewrite call_gemini_api_eta.
  destruct (fst (call_gemini_api E net (questions_prompt role))) eqn:Hr;
    try reflexivity.
  exfalso. exact (H s eq_refl).
Qed.

Lemma questions_of_lengths : forall E raw,
  py_len (fst (questions_of E raw)) = ok 5 /\
  py_len (snd (questions_of E raw)) = ok 5.
Proof.
  intros E raw. unfold questions_of.
  destruct (parse_questions E (json_capture raw)) as [e|[t b]] eqn:Hp.
  - split; reflexivity.
  - apply parse_questions_ok in Hp as [data [_ [_ [_ [H4 H5]]]]].
    split; assumption.
Qed.

(** Whatever the generator returns has two parts of length 5, and one
    request is made whether it returns or raises. *)
Lemma gemini_generate_questions_lengths : forall E net role,
  snd (gemini_generate_questions E net role)
    = (net ++ [request_for E (questions_prompt role)])%list /\
  forall out, fst (gemini_generate_questions E net role) = ok out ->
    py_len (fst out) = ok 5 /\ py_len (snd out) = ok 5.
Proof.
  intros E net role. unfold gemini_generate_questions.
  rewrite call_gemini_api_eta. cbv zeta iota beta. split; [reflexivity|].
  intros out H. cbn [fst] in H.
  destruct (fst (call_gemini_api E net (questions_prompt role))); try discriminate H.
  cbn [str_method rbind ok] in H. injection H as <-.
  apply questions_of_lengths.
Qed.

(** C3, as the code has it: the generator makes one request.  When the
    client returns an object that is not a text it raises, the search for
    the braces being placed before the [try] block.  On a text it returns
    two values of length 5: it decodes the text captured between the first
    opening and the last closing brace; when that decodes to an object
    holding both keys with values of length 5 it returns those two values
    as decoded, without looking at their elements, and in every other case
    it returns the ten default questions.  The values are lists of five
    strings whenever they are lists of strings. *)
Theorem gemini_generate_questions_contract : forall E net role,
  let raw := fst (call_gemini_api E net (questions_prompt role)) in
  let out := fst (gemini_generate_questions E net role) in
  snd (gemini_generate_questions E net role)
    = (net ++ [request_for E (questions_prompt role)])%list /\
  ((forall s, raw <> JStr s) -> out = raise (no_attribute raw "find")) /\
  (forall s, raw = JStr s ->
     exists tech beh,
       out = ok (tech, beh) /\
       py_len tech = ok 5 /\ py_len beh = ok 5 /\
       (accepted E s tech beh \/
        ((tech, beh) = default_questions /\ forall t b, ~ accepted E s t b)) /\
       ((tech, beh) = default_questions -> five_strings tech /\ five_strings beh) /\
       (forall l, tech = JList (map JStr l) -> five_strings tech) /\
       (forall l, beh = JList (map JStr l) -> five_strings beh) /\
       ((exists i j, (i < j)%nat /\ first_at "{" s i /\ last_at "}" s j /\
           json_capture s = PyStr.strip (substring i (j - i + 1) s)) \/
        (json_capture s = "" /\
         forall i j, String.get i s = Some "{"%char -> String.get j s = Some "}"%char ->
           (j <= i)%nat))).
Proof.
  intros E net role raw out.
  split; [apply gemini_generate_questions_lengths|]. split.
  - intros H. subst out.
    now rewrite (gemini_generate_questions_not_text E net role H).
  - intros s Hs. subst out.
    rewrite (gemini_generate_questions_text E net role s Hs). cbn [fst].
    destruct (questions_of_lengths E s) as [Ht Hb].
    exists (fst (questions_of E s)), (snd (questions_of E s)).
    rewrite <- surjective_pairing.
    split; [reflexivity|]. split; [exact Ht|]. split; [exact Hb|].
    split; [|split; [|split; [|split; [|exact (json_capture_spec s)]]]].
    + unfold questions_of.
      destruct (parse_questions E (json_capture s)) as [e|[t b]] eqn:Hp.
      * right. split; [reflexivity|]. intros tech beh Ha.
        apply parse_questions_ok in Ha. rewrite Hp in Ha. discriminate.
      * left. apply parse_questions_ok in Hp. exact Hp.
    + intros ->. exact five_strings_default.
    + intros l Hl. exists l. split; [exact Hl|].
      rewrite Hl in Ht. simpl in Ht. rewrite length_map in Ht.
      injection Ht as Ht. lia.
    + intros l Hl. exists l. split; [exact Hl|].
      rewrite Hl in Hb. simpl in Hb. rewrite length_map in Hb.
      injection Hb as Hb. lia.
Qed.

(** Undecodable text falls back to the defaults. *)
Lemma gemini_generate_questions_contract_witness :
  fst (gemini_generate_questions (env_say "no json here") [] "Analyst")
  = ok default_questions.
Proof.
  destruct (gemini_generate_questions_contract (env_say "no json here") [] "Analyst")
    as [_ [_ H]].
  destruct (H "no json here" eq_refl) as [tech [beh [Hout [_ [_ [Hacc _]]]]]].
  rewrite Hout. destruct Hacc as [[data [Hd _]] | [Hdef _]].
  - vm_compute in Hd. discriminate.
  - now rewrite Hdef.
Defined.

(** C3 as stated fails in two ways.  When the decoded arrays do not hold
    strings, five question objects are returned as they are; and when the
    text part of the response is not a text, the generator raises. *)
Lemma gemini_generate_questions_not_strings :
  json_capture ("Here are the questions:" ++ PyStr.nl ++ objects_doc ++ PyStr.nl
                ++ "Good luck!")
    = objects_doc /\
  fst (gemini_generate_questions env_objects [] "Software Engineer")
    = ok (JList (map (fun t => JDict [("question", JStr t)]) five_t),
          JList (map JStr five_b)) /\
  ~ five_strings (JList (map (fun t => JDict [("question", JStr t)]) five_t)) /\
  fst (call_gemini_api (env_part (JInt 5)) [] (questions_prompt "Analyst")) = JInt 5 /\
  fst (gemini_generate_questions (env_part (JInt 5)) [] "Analyst")
    = raise (AttributeError "'int' object has no attribute 'find'").
Proof.
  split; [vm_compute; reflexivity|].
  split; [vm_compute; reflexivity|].
  split; [|split; vm_compute; reflexivity].
  intros [l [Hl _]]. destruct l as [|x l]; simpl in Hl; discriminate.
Qed.

(** ** More on the generator *)

Lemma get_app_left : forall a b k,
  (k < String.length a)%nat -> String.get k (a ++ b) = String.get k a.
Proof.
  induction a as [|c a IH]; intros b k H; simpl in *; [lia|].
  destruct k as [|k]; [reflexivity|]. apply IH. lia.
Qed.

Lemma get_app_right : forall a b k,
  String.get (String.length a + k) (a ++ b) = String.get k b.
Proof. induction a as [|c a IH]; intros b k; simpl; [reflexivity | apply IH]. Qed.

Lemma count_zero_get : forall c s k,
  count_char c s = 0%nat -> String.get k s <> Some c.
Proof.
  intros c s. induction s as [|d s IH]; intros k H; simpl in *.
  - destruct k; discriminate.
  - destruct (Ascii.eqb d c) eqn:Hd; [discriminate|].
    apply Ascii.eqb_neq in Hd.
    destruct k as [|k]; [congruence | now apply IH].
Qed.

Lemma substring_app_skip : forall a s n,
  substring (String.length a) n (a ++ s) = substring 0 n s.
Proof. induction a as [|c a IH]; intros s n; simpl; [reflexivity | apply IH]. Qed.

Lemma substring_prefix : forall a b,
  substring 0 (String.length a) (a ++ b) = a.
Proof.
  induction a as [|c a IH]; intros b; simpl.
  - destruct b; reflexivity.
  - now rewrite IH.
Qed.

(** A document between braces is not changed by [strip]. *)
Lemma strip_braces : forall mid, PyStr.strip ("{" ++ mid ++ "}") = "{" ++ mid ++ "}".
Proof.
  intros mid.
  pose proof (strip_core "" ("{" ++ mid ++ "}") "") as H.
  rewrite string_app_nil_r in H. apply H.
  - constructor.
  - constructor.
  - reflexivity.
  - cbn [append rev_string]. rewrite rev_string_app. reflexivity.
Qed.

(** Prose without braces around a document that opens and closes with a
    brace does not change what is captured: the document itself. *)
Lemma json_capture_wrapped : forall pre mid post,
  count_char "{" pre = 0%nat -> count_char "}" pre = 0%nat ->
  count_char "{" post = 0%nat -> count_char "}" post = 0%nat ->
  json_capture (pre ++ ("{" ++ mid ++ "}") ++ post) = "{" ++ mid ++ "}".
Proof.
  intros pre mid post Hp1 Hp2 Hq1 Hq2.
  set (raw := pre ++ ("{" ++ mid ++ "}") ++ post).
  set (lp := String.length pre). set (lm := String.length mid).
  assert (Hopen : String.get lp raw = Some "{"%char).
  { unfold raw, lp. rewrite <- (Nat.add_0_r (String.length pre)), get_app_right.
    reflexivity. }
  assert (Hclose : String.get (lp + (1 + lm)) raw = Some "}"%char).
  { unfold raw, lp, lm. rewrite get_app_right. simpl.
    rewrite string_app_assoc, <- (Nat.add_0_r (String.length mid)), get_app_right.
    reflexivity. }
  assert (Hbefore : forall k c, (k < lp)%nat -> count_char c pre = 0%nat ->
                                String.get k raw <> Some c).
  { intros k c Hk Hc. unfold raw. rewrite get_app_left by exact Hk.
    now apply count_zero_get. }
  assert (Hafter : forall k c, (lp + (1 + lm) < k)%nat -> count_char c post = 0%nat ->
                               String.get k raw <> Some c).
  { intros k c Hk Hc. unfold raw.
    replace k with (String.length pre + (String.length ("{" ++ mid ++ "}")
                                         + (k - lp - (2 + lm))))%nat
      by (simpl; rewrite string_length_app; simpl; fold lp lm; lia).
    rewrite get_app_right, get_app_right. now apply count_zero_get. }
  destruct (json_capture_spec raw)
    as [[i [j [Hij [[Hi Hi'] [[Hj Hj'] Hcap]]]]] | [_ Hno]].
  - assert (i = lp).
    { destruct (Nat.lt_trichotomy i lp) as [H|[H|H]]; [|exact H|].
      - exfalso. exact (Hbefore i _ H Hp1 Hi).
      - exfalso. exact (Hi' lp H Hopen). }
    assert (j = (lp + (1 + lm))%nat).
    { destruct (Nat.lt_trichotomy j (lp + (1 + lm))) as [H0|[H0|H0]]; [|exact H0|].
      - exfalso. exact (Hj' _ H0 Hclose).
      - exfalso. exact (Hafter j _ H0 Hq2 Hj). }
    subst i j. rewrite Hcap.
    replace (lp + (1 + lm) - lp + 1)%nat with (String.length ("{" ++ mid ++ "}"))
      by (simpl; rewrite string_length_app; simpl; fold lm; lia).
    unfold raw, lp. rewrite substring_app_skip, substring_prefix.
    apply strip_braces.
  - specialize (Hno _ _ Hopen Hclose). lia.
Qed.

(** The generator accepts a well-formed document wherever it stands in the
    text the client returns, between any prose without braces. *)
Theorem wrapped_document_accepted : forall E net role pre mid post data tech beh,
  fst (call_gemini_api E net (questions_prompt role))
    = JStr (pre ++ ("{" ++ mid ++ "}") ++ post) ->
  count_char "{" pre = 0%nat -> count_char "}" pre = 0%nat ->
  count_char "{" post = 0%nat -> count_char "}" post = 0%nat ->
  json_loads E ("{" ++ mid ++ "}") = ok data ->
  getitem_key data "technical_questions" = ok tech ->
  getitem_key data "behavioral_questions" = ok beh ->
  py_len tech = ok 5 -> py_len beh = ok 5 ->
  fst (gemini_generate_questions E net role) = ok (tech, beh).
Proof.
  intros E net role pre mid post data tech beh Hraw Hp1 Hp2 Hq1 Hq2 Hd Ht Hb Lt Lb.
  rewrite (gemini_generate_questions_text E net role _ Hraw). cbn [fst].
  unfold questions_of.
  rewrite (json_capture_wrapped pre mid post Hp1 Hp2 Hq1 Hq2).
  assert (Hp : parse_questions E ("{" ++ mid ++ "}") = ok (tech, beh)).
  { apply parse_questions_ok. exists data. repeat split; assumption. }
  rewrite Hp. reflexivity.
Qed.

(** The document is accepted even inside the sentinel of a failed call: the
    generator does not look at the prefix. *)
Lemma wrapped_document_accepted_witness :
  fst (call_gemini_api env_500_with_doc [] (questions_prompt "Analyst"))
    = JStr ("Error 500: " ++ plain_doc) /\
  fst (gemini_generate_questions env_500_with_doc [] "Analyst")
    = ok (JList (map JStr five_t), JList (map JStr five_b)).
Proof.
  split; [reflexivity|].
  apply (wrapped_document_accepted env_500_with_doc [] "Analyst" "Error 500: "
           (substring 1 (String.length plain_doc - 2) plain_doc) "" plain_value);
    reflexivity.
Defined.

(** When the decoder rejects the empty text, as [json.loads] does, a text
    in which no closing brace comes after an opening brace gives the ten
    default questions; a sentinel without braces is such a text. *)
Theorem no_brace_pair_gives_defaults : forall E net role raw,
  (exists e, json_loads E "" = inl e) ->
  fst (call_gemini_api E net (questions_prompt role)) = JStr raw ->
  (forall i j,
     String.get i raw = Some "{"%char -> String.get j raw = Some "}"%char ->
     (j <= i)%nat) ->
  fst (gemini_generate_questions E net role) = ok default_questions.
Proof.
  intros E net role raw [e He] Hraw Hno.
  rewrite (gemini_generate_questions_text E net role raw Hraw). cbn [fst].
  unfold questions_of.
  destruct (json_capture_spec raw)
    as [[i [j [Hij [[Hi _] [[Hj _] _]]]]] | [Hcap _]].
  - specialize (Hno i j Hi Hj). lia.
  - rewrite Hcap. unfold parse_questions. rewrite He. reflexivity.
Qed.

(** The sentinel of a failed call holds no brace. *)
Lemma no_brace_pair_gives_defaults_witness :
  fst (gemini_generate_questions env_500 [] "Analyst") = ok default_questions.
Proof.
  apply (no_brace_pair_gives_defaults env_500 [] "Analyst" "Error 500: server error").
  - eexists. reflexivity.
  - reflexivity.
  - intros i j Hi _. exfalso.
    destruct (find_spec "{" "Error 500: server error") as [[_ Hn] | [k [Hk _]]].
    + exact (Hn i Hi).
    + vm_compute in Hk. destruct k; discriminate.
Defined.

(** ** Rendering *)

(** [cut] splits the text around an occurrence of the separator. *)
Lemma cut_spec : forall sep s a b,
  cut sep s = Some (a, b) -> s = a ++ sep ++ b.
Proof.
  intros sep s. induction s as [|c s IH]; intros a b H.
  - cbn [cut] in H. destruct (prefix sep "") eqn:Hp; [|discriminate].
    injection H as <- <-. simpl. now apply prefix_drop.
  - cbn [cut] in H.
    destruct (prefix sep (String c s)) eqn:Hp.
    + injection H as <- <-. simpl. now apply prefix_drop.
    + destruct (cut sep s) as [[a' b']|] eqn:Hc; [|discriminate].
      injection H as <- <-. simpl. f_equal. now apply IH.
Qed.

Lemma search_spec : forall delim line before group rest,
  search delim line = Some (before, group, rest) ->
  line = before ++ delim ++ group ++ delim ++ rest.
Proof.
  intros delim line before group rest H. unfold search in H.
  destruct (cut delim line) as [[a s1]|] eqn:H1; [|discriminate].
  destruct (cut delim s1) as [[g r]|] eqn:H2; [|discriminate].
  injection H as <- <- <-.
  apply cut_spec in H1. apply cut_spec in H2. subst. reflexivity.
Qed.

Lemma search_shrinks : forall delim line before group rest,
  search delim line = Some (before, group, rest) ->
  (String.length rest + 2 * String.length delim <= String.length line)%nat.
Proof.
  intros delim line before group rest H. apply search_spec in H. subst line.
  rewrite !string_length_app. lia.
Qed.

(** A line that still holds a marker but matches neither pattern keeps the
    loop running for ever. *)
Lemma stuck_line_diverges : forall line,
  contains "**" line || contains "`" line = true ->
  search "**" line = None ->
  search "`" line = None ->
  forall fuel, format_line fuel line = None.
Proof.
  intros line Hc Hb Hk fuel. induction fuel as [|f IH]; [reflexivity|].
  simpl. rewrite Hc, Hb, Hk. exact IH.
Qed.

(** A result obtained with some fuel is obtained with any fuel above the
    length of the line. *)
Lemma format_line_more_fuel : forall fuel line out,
  format_line fuel line = Some out ->
  forall n, (String.length line < n)%nat -> format_line n line = Some out.
Proof.
  induction fuel as [|f IH]; intros line out H n Hn; [discriminate|].
  destruct n as [|n]; [lia|].
  simpl in H |- *.
  destruct (contains "**" line || contains "`" line) eqn:Hcond; [|exact H].
  destruct (search "**" line) as [[[b g] r]|] eqn:Hb.
  - apply search_shrinks in Hb. simpl in Hb.
    destruct (format_line f r) as [tl|] eqn:Hr; [|discriminate].
    rewrite (IH r tl Hr n) by lia. exact H.
  - destruct (search "`" line) as [[[b g] r]|] eqn:Hk.
    + apply search_shrinks in Hk. simpl in Hk.
      destruct (format_line f r) as [tl|] eqn:Hr; [|discriminate].
      rewrite (IH r tl Hr n) by lia. exact H.
    + rewrite (stuck_line_diverges line Hcond Hb Hk f) in H. discriminate.
Qed.

(** Whether the loop over a line ever ends is settled within as many tests
    as the line has characters, plus one: if it has not ended by then it
    never will. *)
Theorem format_line_halts_within_length : forall line,
  ((exists fuel out, format_line fuel line = Some out) <->
   (exists out, format_line (S (String.length line)) line = Some out)) /\
  ((forall fuel, format_line fuel line = None) <->
   format_line (S (String.length line)) line = None).
Proof.
  intros line.
  assert (Hiff : (exists fuel out, format_line fuel line = Some out) <->
                 (exists out, format_line (S (String.length line)) line = Some out)).
  { split.
    - intros [fuel [out H]]. exists out.
      apply (format_line_more_fuel fuel line out H). lia.
    - intros [out H]. eauto. }
  split; [exact Hiff|]. split.
  - intros H. apply H.
  - intros H fuel. destruct (format_line fuel line) as [out|] eqn:Hf; [|reflexivity].
    destruct Hiff as [Hiff _]. destruct Hiff as [out' Ho]; [eauto|congruence].
Qed.

Lemma count_char_app : forall c a b,
  count_char c (a ++ b) = (count_char c a + count_char c b)%nat.
Proof.
  intros c a b. induction a as [|d a IH]; simpl; [reflexivity|].
  rewrite IH. lia.
Qed.

Lemma cut_char : forall c s,
  match cut (String c "") s with
  | None => count_char c s = 0%nat
  | Some (a, b) =>
      s = a ++ String c b /\ count_char c a = 0%nat /\
      count_char c s = S (count_char c b)
  end.
Proof.
  intros c s. induction s as [|d s IH].
  - reflexivity.
  - cbn [cut prefix count_char].
    destruct (ascii_dec c d) as [e|n].
    + subst d. destruct s; simpl; rewrite Ascii.eqb_refl; repeat split.
    + assert (Hd : Ascii.eqb d c = false) by (apply Ascii.eqb_neq; congruence).
      rewrite Hd.
      destruct (cut (String c "") s) as [[a b]|].
      * destruct IH as [Hs [Ha Hc]]. simpl. rewrite Hd.
        repeat split; [now f_equal | assumption | assumption].
      * exact IH.
Qed.

Lemma no_star_no_bold : forall line,
  count_char "*" line = 0%nat -> cut "**" line = None.
Proof.
  intros line H. destruct (cut "**" line) as [[a b]|] eqn:Hc; [|reflexivity].
  apply cut_spec in Hc. subst line.
  rewrite count_char_app in H. simpl in H. lia.
Qed.

Lemma odd_backticks_diverge : forall fuel line,
  count_char "*" line = 0%nat ->
  Nat.even (count_char "`" line) = false ->
  format_line fuel line = None.
Proof.
  induction fuel as [|f IH]; intros line Hs Ho; [reflexivity|].
  simpl. unfold contains, search. rewrite (no_star_no_bold line Hs).
  pose proof (cut_char "`" line) as H1.
  destruct (cut "`" line) as [[a s1]|].
  - destruct H1 as [Hl [Ha Hc]]. simpl.
    pose proof (cut_char "`" s1) as H2.
    destruct (cut "`" s1) as [[g r]|].
    + destruct H2 as [Hl2 [Hg Hc2]].
      rewrite (IH r); [reflexivity | |].
      * subst line s1. rewrite !count_char_app in Hs. simpl in Hs.
        rewrite count_char_app in Hs. simpl in Hs. lia.
      * rewrite Hc, Hc2 in Ho. exact Ho.
    + now apply IH.
  - rewrite H1 in Ho. discriminate.
Qed.

Lemma format_line_step : forall fuel line,
  format_line (S fuel) line
  = if contains "**" line || contains "`" line then
      match search "**" line with
      | Some (before, group, rest) =>
          match format_line fuel rest with
          | Some tl => Some ((before, tag_message) :: (group, tag_bold) :: tl)
          | None => None
          end
      | None =>
          match search "`" line with
          | Some (before, group, rest) =>
              match format_line fuel rest with
              | Some tl => Some ((before, tag_message) :: (group, tag_code) :: tl)
              | None => None
              end
          | None => format_line fuel line
          end
      end
    else Some [(line ++ PyStr.nl, tag_message)].
Proof. reflexivity. Qed.

Lemma even_backticks_halt : forall n line,
  count_char "*" line = 0%nat ->
  count_char "`" line = (2 * n)%nat ->
  exists out,
    format_line (S n) line = Some out /\
    List.length (filter is_code out) = n.
Proof.
  induction n as [|n IH]; intros line Hs Hc.
  - simpl. unfold contains. rewrite (no_star_no_bold line Hs).
    pose proof (cut_char "`" line) as H1.
    destruct (cut "`" line) as [[a s1]|].
    + destruct H1 as [_ [_ H1]]. lia.
    + simpl. eexists. split; reflexivity.
  - rewrite format_line_step. unfold contains, search.
    rewrite (no_star_no_bold line Hs).
    pose proof (cut_char "`" line) as H1.
    destruct (cut "`" line) as [[a s1]|]; [|lia].
    destruct H1 as [Hl [Ha H1]].
    pose proof (cut_char "`" s1) as H2.
    destruct (cut "`" s1) as [[g r]|]; [|lia].
    destruct H2 as [Hl2 [Hg H2]].
    destruct (IH r) as [tl [Htl Hn]].
    + subst line s1. rewrite !count_char_app in Hs. simpl in Hs.
      rewrite count_char_app in Hs. simpl in Hs. lia.
    + lia.
    + rewrite orb_true_r. rewrite Htl. eexists. split; [reflexivity|].
      simpl. now f_equal.
Qed.

(** On a line without asterisks the loop ends exactly when the number of
    backticks is even, and then every pair of backticks gives one code span;
    with an odd number it runs for ever. *)
Theorem backtick_parity : forall line,
  count_char "*" line = 0%nat ->
  let k := count_char "`" line in
  (Nat.even k = true ->
     exists out,
       format_line (S (Nat.div2 k)) line = Some out /\
       List.length (filter is_code out) = Nat.div2 k) /\
  (Nat.even k = false -> forall fuel, format_line fuel line = None).
Proof.
  intros line Hs k. split.
  - intros He. apply even_backticks_halt; [exact Hs|].
    fold k. rewrite (Nat.div2_odd k) at 1.
    rewrite <- Nat.negb_even, He. simpl. lia.
  - intros Ho fuel. now apply odd_backticks_diverge.
Qed.

(** Two code spans on one line, and the opening line of a fence. *)
Lemma backtick_parity_witness :
  (exists out,
     format_line 3 "Use `pip` and `venv`." = Some out /\
     List.length (filter is_code out) = 2%nat) /\
  format_line 100 "```python" = None.
Proof.
  split.
  - apply (backtick_parity "Use `pip` and `venv`." eq_refl). reflexivity.
  - apply (backtick_parity "```python" eq_refl). reflexivity.
Defined.

Lemma split_nl_cons : forall s, exists l ls, split_nl s = l :: ls.
Proof.
  induction s as [|c s [l [ls IH]]]; simpl.
  - eauto.
  - destruct (Ascii.eqb c (ascii_of_nat 10)); [eauto|]. rewrite IH. eauto.
Qed.

(** A newline separates the lines before it from the lines after it. *)
Lemma split_nl_app : forall a b,
  split_nl (a ++ PyStr.nl ++ b) = (split_nl a ++ split_nl b)%list.
Proof.
  induction a as [|c a IH]; intros b.
  - reflexivity.
  - cbn [append split_nl]. rewrite IH.
    destruct (Ascii.eqb c (ascii_of_nat 10)); [reflexivity|].
    destruct (split_nl_cons a) as [l [ls Ha]]. rewrite Ha. reflexivity.
Qed.

Lemma format_lines_none : forall fuel lines line,
  In line lines -> format_one fuel line = None -> format_lines fuel lines = None.
Proof.
  induction lines as [|l ls IH]; intros line Hin Hn; [contradiction|].
  simpl. destruct Hin as [->|Hin].
  - now rewrite Hn.
  - destruct (format_one fuel l); [|reflexivity].
    now rewrite (IH line Hin Hn).
Qed.

Lemma format_one_more_fuel : forall fuel line out,
  format_one fuel line = Some out ->
  forall n, (String.length line < n)%nat -> format_one n line = Some out.
Proof.
  intros fuel line out H n Hn. unfold format_one in *.
  destruct (PyStr.startswith line "###"); [exact H|].
  destruct (PyStr.startswith (PyStr.strip line) bullet); [exact H|].
  now apply (format_line_more_fuel fuel).
Qed.

Lemma format_lines_more_fuel : forall fuel lines out,
  format_lines fuel lines = Some out ->
  forall n, (forall l, In l lines -> (String.length l < n)%nat) ->
  format_lines n lines = Some out.
Proof.
  intros fuel lines. induction lines as [|l ls IH]; intros out H n Hn.
  - exact H.
  - cbn [format_lines] in H |- *.
    destruct (format_one fuel l) as [a|] eqn:Ha; [|discriminate].
    destruct (format_lines fuel ls) as [b|] eqn:Hb; [|discriminate].
    rewrite (format_one_more_fuel fuel l a Ha n) by (apply Hn; now left).
    rewrite (IH b eq_refl n) by (intros l' Hl'; apply Hn; now right).
    exact H.
Qed.

Lemma split_nl_length : forall s l,
  In l (split_nl s) -> (String.length l <= String.length s)%nat.
Proof.
  induction s as [|c s IH]; intros l H.
  - destruct H as [<-|[]]. simpl. lia.
  - cbn [split_nl] in H.
    destruct (Ascii.eqb c (ascii_of_nat 10)).
    + destruct H as [<-|H]; [simpl; lia|]. apply IH in H. simpl. lia.
    + destruct (split_nl_cons s) as [l0 [ls Hs]]. rewrite Hs in H, IH.
      destruct H as [<-|H].
      * simpl. specialize (IH l0 (or_introl eq_refl)). lia.
      * specialize (IH l (or_intror H)). simpl. lia.
Qed.

(** [returns] decides whether [format_markdown] returns: it does exactly
    when some number of tests is enough for every line, and otherwise no
    number is. *)
Lemma format_markdown_returns_iff : forall text,
  (returns text = true <-> exists fuel out, format_markdown fuel text = Some out) /\
  (returns text = false <-> forall fuel, format_markdown fuel text = None).
Proof.
  intros text.
  assert (Hup : forall fuel out, format_markdown fuel text = Some out ->
                  returns text = true).
  { intros fuel out H. unfold returns, format_markdown in *.
    rewrite (format_lines_more_fuel fuel _ out H); [reflexivity|].
    intros l Hl. apply split_nl_length in Hl. lia. }
  split; split.
  - intros H. unfold returns in H.
    destruct (format_markdown (S (String.length text)) text) as [out|] eqn:Hf;
      [eauto | discriminate].
  - intros [fuel [out H]]. exact (Hup fuel out H).
  - intros H fuel. destruct (format_markdown fuel text) as [out|] eqn:Hf; [|reflexivity].
    rewrite (Hup fuel out Hf) in H. discriminate.
  - intros H. unfold returns. now rewrite H.
Qed.

Lemma loop_line_never_returns : forall message line,
  In line (split_nl message) ->
  loop_line line ->
  format_line (S (String.length line)) line = None ->
  forall fuel, format_markdown fuel (message ++ PyStr.nl ++ PyStr.nl) = None.
Proof.
  intros message line Hin [Hh Hb] Hn fuel. unfold format_markdown.
  rewrite split_nl_app.
  rewrite (format_lines_none fuel _ line); [reflexivity | |].
  - apply in_or_app. now left.
  - unfold format_one. rewrite Hh, Hb.
    destruct (format_line fuel line) as [out|] eqn:Hf; [|reflexivity].
    rewrite (format_line_more_fuel fuel line out Hf (S (String.length line))) in Hn
      by lia.
    discriminate.
Qed.

(** [add_message] never returns on a message, not flagged as an error, one
    of whose lines goes to the loop and does not leave it: no number of
    tests gives the inserts, and the call on the window is one that never
    returns.  Flagged as an error the same message is inserted as it is. *)
Theorem add_message_never_returns : forall g timestamp who message line,
  In line (split_nl message) ->
  loop_line line ->
  format_line (S (String.length line)) line = None ->
  (forall fuel, add_message_inserts fuel timestamp who message false = None) /\
  add_message g who (JStr message) false = Hung g /\
  (forall fuel,
     exists head,
       add_message_inserts fuel timestamp who message true
       = Some (head ++ [((message ++ PyStr.nl ++ PyStr.nl)%string, tag_error)])%list) /\
  add_message g who (JStr message) true = Returned (shown g who message true).
Proof.
  intros g timestamp who message line Hin Hl Hn.
  pose proof (loop_line_never_returns message line Hin Hl Hn) as Hnone.
  split; [|split; [|split]].
  - intros fuel. unfold add_message_inserts. now rewrite Hnone.
  - unfold add_message.
    replace (returns (message ++ PyStr.nl ++ PyStr.nl)) with false; [reflexivity|].
    symmetry. now apply format_markdown_returns_iff.
  - intros fuel. unfold add_message_inserts. eexists. reflexivity.
  - reflexivity.
Qed.

(** A reply with a fenced code block, and a sum written with one [**]; a
    line that opens with a no-break space and a bullet is a bullet line and
    is inserted whatever follows. *)
Lemma add_message_never_returns_witness :
  add_message new_GUI "JoSi"
    (JStr ("Try this:" ++ PyStr.nl ++ "```python" ++ PyStr.nl ++ "print(1)" ++ PyStr.nl ++ "```"))
    false = Hung new_GUI /\
  add_message new_GUI "You" (JStr "what is 2 ** 3?") false = Hung new_GUI /\
  add_message new_GUI "JoSi" (JStr (PyStr.utf8 [194; 160]%nat ++ bullet ++ " `x")) false
  = Returned (shown new_GUI "JoSi" (PyStr.utf8 [194; 160]%nat ++ bullet ++ " `x") false).
Proof.
  split; [|split].
  - apply (add_message_never_returns new_GUI "12:00" "JoSi" _ "```python").
    + vm_compute. tauto.
    + split; reflexivity.
    + reflexivity.
  - apply (add_message_never_returns new_GUI "12:00" "You" _ "what is 2 ** 3?").
    + vm_compute. tauto.
    + split; reflexivity.
    + reflexivity.
  - reflexivity.
Defined.

Lemma concat_empty_cons : forall x xs, concat "" (x :: xs) = x ++ concat "" xs.
Proof.
  intros x xs. destruct xs as [|y ys]; simpl.
  - now rewrite string_app_nil_r.
  - reflexivity.
Qed.

Lemma restore_cons : forall i ins, restore (i :: ins) = restore_one i ++ restore ins.
Proof. intros. unfold restore. simpl map. apply concat_empty_cons. Qed.

Lemma restore_app : forall a b, restore (a ++ b) = restore a ++ restore b.
Proof.
  induction a as [|i a IH]; intros b.
  - reflexivity.
  - cbn [app]. rewrite !restore_cons, IH, string_app_assoc. reflexivity.
Qed.

(** The loop drops nothing but the delimiters of the spans it finds. *)
Lemma format_line_restore : forall fuel line out,
  format_line fuel line = Some out -> restore out = line ++ PyStr.nl.
Proof.
  induction fuel as [|f IH]; intros line out H; [discriminate|].
  rewrite format_line_step in H.
  destruct (contains "**" line || contains "`" line).
  - destruct (search "**" line) as [[[b g] r]|] eqn:Hb.
    + destruct (format_line f r) as [tl|] eqn:Hr; [|discriminate].
      injection H as <-. apply search_spec in Hb. subst line.
      rewrite !restore_cons, (IH r tl Hr). unfold restore_one. simpl fst. simpl snd.
      rewrite !string_app_assoc. reflexivity.
    + destruct (search "`" line) as [[[b g] r]|] eqn:Hk.
      * destruct (format_line f r) as [tl|] eqn:Hr; [|discriminate].
        injection H as <-. apply search_spec in Hk. subst line.
        rewrite !restore_cons, (IH r tl Hr). unfold restore_one. simpl fst. simpl snd.
        rewrite !string_app_assoc. reflexivity.
      * now apply IH.
  - injection H as <-. unfold restore. simpl. reflexivity.
Qed.

Lemma split_nl_lines : forall s,
  concat "" (map (fun l => l ++ PyStr.nl) (split_nl s)) = s ++ PyStr.nl.
Proof.
  induction s as [|c s IH].
  - reflexivity.
  - cbn [split_nl].
    destruct (Ascii.eqb c (ascii_of_nat 10)) eqn:Hc.
    + apply Ascii.eqb_eq in Hc. subst c.
      cbn [map]. rewrite concat_empty_cons, IH. reflexivity.
    + destruct (split_nl_cons s) as [l [ls Hs]]. rewrite Hs in IH |- *.
      cbn [map] in IH |- *. rewrite concat_empty_cons in IH |- *.
      simpl. f_equal. exact IH.
Qed.

Lemma format_lines_restore : forall fuel lines out,
  Forall loop_line lines ->
  format_lines fuel lines = Some out ->
  restore out = concat "" (map (fun l => l ++ PyStr.nl) lines).
Proof.
  induction lines as [|l ls IH]; intros out Hall H.
  - injection H as <-. reflexivity.
  - inversion Hall as [|? ? [Hh Hb] Hall']; subst.
    cbn [format_lines] in H. unfold format_one in H. rewrite Hh, Hb in H.
    destruct (format_line fuel l) as [a|] eqn:Ha; [|discriminate].
    destruct (format_lines fuel ls) as [b|] eqn:Hbs; [|discriminate].
    injection H as <-.
    cbn [map]. rewrite concat_empty_cons, restore_app.
    rewrite (format_line_restore fuel l a Ha), (IH b Hall' eq_refl). reflexivity.
Qed.

(** When no line of a text is a heading or a bullet, what [format_markdown]
    inserts is the text itself and one more newline, once the delimiters of
    the bold and code spans are put back: nothing else is dropped, added or
    reordered. *)
Theorem format_markdown_restore : forall fuel text out,
  Forall loop_line (split_nl text) ->
  format_markdown fuel text = Some out ->
  restore out = text ++ PyStr.nl.
Proof.
  intros fuel text out Hall H. unfold format_markdown in H.
  rewrite (format_lines_restore fuel _ out Hall H). apply split_nl_lines.
Qed.

(** A bold span and a code span on the first of two lines. *)
Lemma format_markdown_restore_witness :
  let text := "Use **pip** or `venv`." ++ PyStr.nl ++ "Done." in
  exists out,
    format_markdown 5 text = Some out /\
    map snd out = [tag_message; tag_bold; tag_message; tag_code; tag_message; tag_message] /\
    restore out = text ++ PyStr.nl.
Proof.
  intros text. eexists. split; [vm_compute; reflexivity|]. split; [reflexivity|].
  apply (format_markdown_restore 5 text).
  - repeat constructor.
  - vm_compute. reflexivity.
Defined.

(** ** Messages in the chat pane *)

(** A text that is displayed is inserted, and the call returns. *)
Lemma add_message_displayed : forall g who s is_error,
  displayed s is_error = true ->
  add_message g who (JStr s) is_error = Returned (shown g who s is_error).
Proof.
  intros g who s is_error H. unfold add_message, displayed in *.
  destruct is_error; [reflexivity|]. cbn [orb] in H. now rewrite H.
Qed.

(** A text that is not displayed is one on which the call never returns. *)
Lemma add_message_not_displayed : forall g who s is_error,
  displayed s is_error = false ->
  add_message g who (JStr s) is_error = Hung g.
Proof.
  intros g who s is_error H. unfold add_message, displayed in *.
  destruct is_error; [discriminate|]. cbn [orb] in H. now rewrite H.
Qed.

Lemma add_message_text_cases : forall g who s is_error,
  add_message g who (JStr s) is_error = Returned (shown g who s is_error) \/
  add_message g who (JStr s) is_error = Hung g.
Proof.
  intros g who s is_error. destruct (displayed s is_error) eqn:H.
  - left. now apply add_message_displayed.
  - right. now apply add_message_not_displayed.
Qed.

(** The three ways a call of [add_message] ends. *)
Lemma add_message_cases : forall g who m is_error,
  (exists s, m = JStr s /\ add_message g who m is_error = Returned (shown g who s is_error)) \/
  add_message g who m is_error = Hung g \/
  (exists e, add_message g who m is_error = Raised e g).
Proof.
  intros g who m is_error.
  destruct m; try (right; right; eexists; reflexivity).
  destruct (add_message_text_cases g who s is_error) as [H|H].
  - left. exists s. split; [reflexivity | exact H].
  - right. left. exact H.
Qed.

(** The texts of the program itself are displayed. *)
Lemma welcome_is_shown :
  add_message blank_GUI "JoSi" (JStr welcome_text) false = Returned new_GUI.
Proof. apply add_message_displayed. vm_compute. reflexivity. Qed.

Lemma start_test_returns : forall g,
  start_test g
  = Returned
      (with_buttons
         (shown (with_test_manager g (set_in_test (test_manager g) true))
            "JoSi" start_text false)
         false true).
Proof.
  intros g. unfold start_test.
  rewrite add_message_displayed; [reflexivity | vm_compute; reflexivity].
Qed.

Lemma exit_test_returns : forall g,
  exit_test g
  = Returned
      (shown (with_buttons (with_test_manager g new_TestManager) true false)
         "JoSi" exit_text false).
Proof.
  intros g. unfold exit_test.
  rewrite add_message_displayed; [reflexivity | vm_compute; reflexivity].
Qed.

Lemma not_recognized_displayed : displayed not_recognized false = true.
Proof. vm_compute. reflexivity. Qed.

Lemma first_question_notice_displayed : displayed first_question_notice false = true.
Proof. vm_compute. reflexivity. Qed.

(** ** Message handling *)

Lemma last_n_snoc : forall (A : Type) (h : list A) (x : A),
  last_n 5 (h ++ [x]) = (last_n 4 h ++ [x])%list.
Proof.
  intros A h x. unfold last_n. rewrite length_app. simpl.
  replace (List.length h + 1 - 5)%nat with (List.length h - 4)%nat by lia.
  rewrite skipn_app.
  replace (List.length h - 4 - List.length h)%nat with 0%nat by lia.
  reflexivity.
Qed.

Lemma last_n_length : forall (A : Type) (n : nat) (h : list A),
  (List.length (last_n n h) <= n)%nat.
Proof. intros A n h. unfold last_n. rewrite length_skipn. lia. Qed.

Lemma last_n_suffix : forall (A : Type) (n : nat) (h : list A),
  h = (firstn (List.length h - n) h ++ last_n n h)%list.
Proof. intros A n h. unfold last_n. symmetry. apply firstn_skipn. Qed.

(** An input is ignored while a message is being processed, and when it is
    blank. *)
Lemma send_message_ignored : forall E g input,
  is_processing g = true \/ PyStr.strip input = "" ->
  send_message E g input = Returned g.
Proof.
  intros E g input H. unfold send_message.
  destruct (is_processing g); [reflexivity|].
  destruct H as [H|H]; [discriminate|]. now rewrite H.
Qed.

(** When the echo of the text is not displayed, [send_message] never
    returns and nothing has been done. *)
Lemma send_message_echo_hangs : forall E g input,
  is_processing g = false ->
  PyStr.strip input <> "" ->
  displayed (PyStr.strip input) false = false ->
  send_message E g input = Hung g.
Proof.
  intros E g input Hp Hne Hd. unfold send_message. rewrite Hp.
  apply String.eqb_neq in Hne. rewrite Hne.
  now rewrite (add_message_not_displayed g "You" _ false Hd).
Qed.

(** What [send_message] does with a flagged input whose echo is
    displayed. *)
Lemma send_message_flagged : forall E g input,
  is_processing g = false ->
  PyStr.strip input <> "" ->
  displayed (PyStr.strip input) false = true ->
  contains_profanity E (PyStr.strip input) = true ->
  send_message E g input
  = Returned
      (enable_input
         (shown (shown g "You" (PyStr.strip input) false)
            "JoSi" language_refusal true)).
Proof.
  intros E g input Hp Hne Hd Hf. unfold send_message. rewrite Hp.
  apply String.eqb_neq in Hne. rewrite Hne.
  rewrite (add_message_displayed g "You" _ false Hd). cbn [and_then].
  rewrite Hf. reflexivity.
Qed.

(** What [send_message] does with an input that is not flagged and whose
    echo is displayed: the worker of the mode is started. *)
Lemma send_message_dispatch : forall E g input,
  is_processing g = false ->
  PyStr.strip input <> "" ->
  displayed (PyStr.strip input) false = true ->
  contains_profanity E (PyStr.strip input) = false ->
  send_message E g input
  = if in_test (test_manager g)
    then process_test_message E (dispatched g (PyStr.strip input)) (PyStr.strip input)
    else process_normal_message E (dispatched g (PyStr.strip input)) (PyStr.strip input).
Proof.
  intros E g input Hp Hne Hd Hf. unfold send_message. rewrite Hp.
  apply String.eqb_neq in Hne. rewrite Hne.
  rewrite (add_message_displayed g "You" _ false Hd). cbn [and_then].
  rewrite Hf. reflexivity.
Qed.

(** The normal worker on a reply that is a text: the reply is recorded, and
    then shown. *)
Lemma process_normal_message_text : forall E g user_text resp,
  contains_profanity E user_text = false ->
  fst (call_gemini_api E (network g)
         (chat_prompt (conversation_history g) user_text)) = JStr resp ->
  let g2 := with_history
              (with_network g
                 (network g
                  ++ [request_for E (chat_prompt (conversation_history g) user_text)])%list)
              (conversation_history g ++ [mkTurn "JoSi" resp])%list in
  process_normal_message E g user_text
  = and_then (add_message g2 "JoSi" (JStr resp) (PyStr.startswith resp "Error"))
      (fun g3 => Returned (enable_input g3)).
Proof.
  intros E g user_text resp Hf Hr. cbv zeta.
  unfold process_normal_message, get_response. rewrite Hf.
  rewrite call_gemini_api_eta, Hr. reflexivity.
Qed.

(** The normal worker on a reply that is not a text: the exception of the
    prefix test is shown, and no turn is recorded. *)
Lemma process_normal_message_not_text : forall E g user_text,
  contains_profanity E user_text = false ->
  let resp := fst (call_gemini_api E (network g)
                     (chat_prompt (conversation_history g) user_text)) in
  (forall s, resp <> JStr s) ->
  process_normal_message E g user_text
  = Returned
      (enable_input
         (shown
            (with_network g
               (network g
                ++ [request_for E (chat_prompt (conversation_history g) user_text)])%list)
            "JoSi" ("Error: " ++ str_exn (no_attribute resp "startswith")) true)).
Proof.
  intros E g user_text Hf resp Hr. subst resp.
  unfold process_normal_message, get_response. rewrite Hf.
  rewrite call_gemini_api_eta.
  destruct (fst (call_gemini_api E (network g)
                   (chat_prompt (conversation_history g) user_text))) eqn:Hc;
    try reflexivity.
  exfalso. exact (Hr s eq_refl).
Qed.

(** C2, as the code has it: in normal chat mode a request is made once the
    text of the user has been displayed; a text on which the rendering does
    not end stops the window before anything is recorded or sent.  When the
    client returns a text, that text is returned unmodified and is appended
    to the history as a turn of [JoSi] in every case, the error sentinels
    included.  It is then shown, flagged as an error exactly when it starts
    with [Error], and the input is enabled again, provided it is displayed;
    an error sentinel always is. *)
Theorem normal_reply_always_recorded : forall E g input resp,
  is_processing g = false ->
  in_test (test_manager g) = false ->
  PyStr.strip input <> "" ->
  contains_profanity E (PyStr.strip input) = false ->
  let user_text := PyStr.strip input in
  let h := (conversation_history g ++ [mkTurn "user" user_text])%list in
  fst (call_gemini_api E (network g) (chat_prompt h user_text)) = JStr resp ->
  let is_error := PyStr.startswith resp "Error" in
  let o := send_message E g input in
  (forall g0, conversation_history g0 = h -> network g0 = network g ->
     fst (get_response E g0 user_text) = JStr resp) /\
  (displayed user_text false = false -> o = Hung g) /\
  (displayed user_text false = true ->
     network (state_of o) = (network g ++ [request_for E (chat_prompt h user_text)])%list /\
     conversation_history (state_of o) = (h ++ [mkTurn "JoSi" resp])%list /\
     (is_error = true -> displayed resp is_error = true) /\
     (displayed resp is_error = true ->
        exists g',
          o = Returned g' /\
          chat_display g'
            = (chat_display g ++ [mkMessage "You" user_text false;
                                  mkMessage "JoSi" resp is_error])%list /\
          conversation_history g' = (h ++ [mkTurn "JoSi" resp])%list /\
          is_processing g' = false) /\
     (displayed resp is_error = false ->
        (exists g', o = Hung g') /\ is_processing (state_of o) = true)).
Proof.
  intros E g input resp Hp Ht Hne Hf user_text h Hr is_error o.
  split; [|split].
  - intros g0 Hh Hn. unfold get_response. subst user_text. rewrite Hf.
    rewrite call_gemini_api_eta, Hh, Hn. exact Hr.
  - intros Hd. subst o. exact (send_message_echo_hangs E g input Hp Hne Hd).
  - intros Hd.
    assert (Ho : o = and_then
                       (add_message
                          (with_history
                             (with_network (dispatched g user_text)
                                (network g ++ [request_for E (chat_prompt h user_text)])%list)
                             (h ++ [mkTurn "JoSi" resp])%list)
                          "JoSi" (JStr resp) is_error)
                       (fun g3 => Returned (enable_input g3))).
    { subst o. rewrite (send_message_dispatch E g input Hp Hne Hd Hf), Ht.
      exact (process_normal_message_text E (dispatched g (PyStr.strip input)) _ resp Hf Hr). }
    split; [|split; [|split; [|split]]].
    + rewrite Ho.
      match goal with
      | |- context [add_message ?g2 ?w ?m ?e] =>
          destruct (add_message_text_cases g2 w resp e) as [-> | ->]
      end; reflexivity.
    + rewrite Ho.
      match goal with
      | |- context [add_message ?g2 ?w ?m ?e] =>
          destruct (add_message_text_cases g2 w resp e) as [-> | ->]
      end; reflexivity.
    + intros He. unfold displayed. now rewrite He.
    + intros Hshow. rewrite Ho.
      rewrite (add_message_displayed _ "JoSi" resp _ Hshow). cbn [and_then].
      eexists. split; [reflexivity|]. split; [|split; reflexivity].
      cbn. rewrite <- app_assoc. reflexivity.
    + intros Hshow. rewrite Ho.
      rewrite (add_message_not_displayed _ "JoSi" resp _ Hshow). cbn [and_then].
      split; [eexists; reflexivity | reflexivity].
Qed.

(** A greeting and its reply. *)
Lemma normal_reply_always_recorded_witness :
  conversation_history (state_of (send_message (env_say "Hello!") new_GUI "hi"))
  = [mkTurn "user" "hi"; mkTurn "JoSi" "Hello!"].
Proof.
  destruct (normal_reply_always_recorded (env_say "Hello!") new_GUI "hi" "Hello!")
    as [_ [_ H]];
    [reflexivity | reflexivity | discriminate | reflexivity | reflexivity |].
  destruct (H eq_refl) as [_ [Hh _]]. exact Hh.
Defined.

(** C2 as stated fails on scenario 3: the sentinel of the 500 response is
    returned unmodified, and it is appended to the history as a turn. *)
Lemma error_reply_is_recorded :
  let o := send_message env_500 new_GUI "hello" in
  fst (get_response env_500
         (with_history new_GUI [mkTurn "user" "hello"]) "hello")
    = JStr "Error 500: server error" /\
  (exists g', o = Returned g') /\
  conversation_history (state_of o)
    = [mkTurn "user" "hello"; mkTurn "JoSi" "Error 500: server error"] /\
  conversation_history (state_of o) <> [mkTurn "user" "hello"].
Proof.
  split; [vm_compute; reflexivity|].
  split; [eexists; vm_compute; reflexivity|].
  split; [vm_compute; reflexivity|].
  vm_compute. discriminate.
Qed.

(** C8, as the code has it: a prompt is sent once the text of the user has
    been displayed, and none is sent when the rendering of that text does
    not end.  The user turn is recorded before the prompt is composed: the
    request carries, as its sole content, the system instructions, then the
    five most recent turns of the history that already ends with the new
    user turn (at most four earlier turns, then the new turn as a [user: ]
    line), then the new turn once more as a [User: ] line.  Older turns stay
    in the history and are left out of the prompt. *)
Theorem normal_prompt_composition : forall E g input,
  is_processing g = false ->
  in_test (test_manager g) = false ->
  PyStr.strip input <> "" ->
  contains_profanity E (PyStr.strip input) = false ->
  let user_text := PyStr.strip input in
  let h := conversation_history g in
  let sent := chat_prompt (h ++ [mkTurn "user" user_text]) user_text in
  let o := send_message E g input in
  (displayed user_text false = false -> o = Hung g /\ network (state_of o) = network g) /\
  (displayed user_text false = true ->
     network (state_of o) = (network g ++ [request_for E sent])%list /\
     exists rest,
       conversation_history (state_of o) = (h ++ mkTurn "user" user_text :: rest)%list) /\
  req_json (request_for E sent)
    = JDict [("contents", JList [JDict [("parts", JList [JDict [("text", JStr sent)]])]])] /\
  sent = SYSTEM_PROMPT ++ PyStr.nl ++ PyStr.nl
         ++ PyStr.join PyStr.nl
              (map render_turn (last_n 4 h ++ [mkTurn "user" user_text]))
         ++ PyStr.nl ++ "User: " ++ user_text /\
  (List.length (last_n 4 h) <= 4)%nat /\
  h = (firstn (List.length h - 4) h ++ last_n 4 h)%list.
Proof.
  intros E g input Hp Ht Hne Hf user_text h sent o.
  split; [|split].
  - intros Hd. subst o. rewrite (send_message_echo_hangs E g input Hp Hne Hd).
    split; reflexivity.
  - intros Hd. subst o. rewrite (send_message_dispatch E g input Hp Hne Hd Hf), Ht.
    set (g3 := dispatched g (PyStr.strip input)).
    destruct (fst (call_gemini_api E (network g3)
                     (chat_prompt (conversation_history g3) (PyStr.strip input))))
      as [| | | |resp| |] eqn:Hr.
    5: { rewrite (process_normal_message_text E g3 _ resp Hf Hr).
         match goal with
         | |- context [add_message ?g2 ?w ?m ?e] =>
             destruct (add_message_text_cases g2 w resp e) as [-> | ->]
         end; (split; [reflexivity|]); exists [mkTurn "JoSi" resp];
           cbn; rewrite <- app_assoc; reflexivity. }
    all: rewrite (process_normal_message_not_text E g3 _ Hf)
           by (intros s Hs; rewrite Hr in Hs; discriminate);
         (split; [reflexivity|]); exists []; reflexivity.
  - split; [reflexivity|]. split.
    + subst sent. unfold chat_prompt. rewrite last_n_snoc. reflexivity.
    + split; [apply last_n_length | apply last_n_suffix].
Qed.

(** The first message of a conversation. *)
Lemma normal_prompt_composition_witness :
  network (state_of (send_message (env_say "Hello!") new_GUI "hi"))
  = [request_for (env_say "Hello!") (chat_prompt [mkTurn "user" "hi"] "hi")].
Proof.
  destruct (normal_prompt_composition (env_say "Hello!") new_GUI "hi")
    as [_ [H _]];
    [reflexivity | reflexivity | discriminate | reflexivity |].
  destruct (H eq_refl) as [Hn _]. exact Hn.
Defined.

(** C8 as stated fails: the prompt is not the system instructions, the five
    most recent turns recorded before the message and the new turn.  After
    three exchanges the turn [JoSi: ok] that answered [one] is among those
    five and is left out, and the new turn comes twice. *)
Lemma prompt_repeats_new_turn :
  let E := env_say "ok" in
  let g := run E new_GUI [Send "one"; Send "two"; Send "three"] in
  let h := conversation_history g in
  let g' := state_of (send_message E g "four") in
  map render_turn (last_n 5 h)
    = ["JoSi: ok"; "user: two"; "JoSi: ok"; "user: three"; "JoSi: ok"] /\
  network g'
    = (network g ++ [request_for E (chat_prompt (h ++ [mkTurn "user" "four"]) "four")])%list /\
  map render_turn (last_n 5 (h ++ [mkTurn "user" "four"]))
    = ["user: two"; "JoSi: ok"; "user: three"; "JoSi: ok"; "user: four"] /\
  network g' <> (network g ++ [request_for E (chat_prompt h "four")])%list.
Proof.
  split; [vm_compute; reflexivity|].
  split; [vm_compute; reflexivity|].
  split; [vm_compute; reflexivity|].
  vm_compute. discriminate.
Qed.

(** A flagged input makes no request and changes neither the history
    nor the test session, however the call ends; the fixed refusal is shown
    after the text of the user whenever that text is displayed, and
    otherwise the call never returns; [get_response] returns its fixed
    refusal for every flagged prompt, without a request. *)
Theorem flagged_input_refused : forall E g input,
  contains_profanity E (PyStr.strip input) = true ->
  let o := send_message E g input in
  network (state_of o) = network g /\
  conversation_history (state_of o) = conversation_history g /\
  test_manager (state_of o) = test_manager g /\
  (is_processing g = false -> PyStr.strip input <> "" ->
   displayed (PyStr.strip input) false = true ->
     exists g',
       o = Returned g' /\
       chat_display g'
         = (chat_display g ++ [mkMessage "You" (PyStr.strip input) false;
                               mkMessage "JoSi" "Sorry, I can't respond to that language." true])%list) /\
  (is_processing g = false -> PyStr.strip input <> "" ->
   displayed (PyStr.strip input) false = false ->
     o = Hung g) /\
  get_response E g (PyStr.strip input) = (JStr "I'm sorry, but I cannot respond to that.", g).
Proof.
  intros E g input Hf o.
  assert (Hg : get_response E g (PyStr.strip input) = (JStr "I'm sorry, but I cannot respond to that.", g))
    by (unfold get_response; now rewrite Hf).
  destruct (is_processing g) eqn:Hp.
  { subst o. rewrite (send_message_ignored E g input (or_introl Hp)).
    repeat split; try reflexivity; try exact Hg; intros; discriminate. }
  destruct (string_dec (PyStr.strip input) "") as [He|Hne].
  { subst o. rewrite (send_message_ignored E g input (or_intror He)).
    repeat split; try reflexivity; try exact Hg; intros; contradiction. }
  destruct (displayed (PyStr.strip input) false) eqn:Hd.
  - subst o. rewrite (send_message_flagged E g input Hp Hne Hd Hf).
    split; [reflexivity|]. split; [reflexivity|]. split; [reflexivity|].
    split; [|split; [intros; discriminate | exact Hg]].
    intros _ _ _. eexists. split; [reflexivity|].
    cbn. rewrite <- app_assoc. reflexivity.
  - subst o. rewrite (send_message_echo_hangs E g input Hp Hne Hd).
    split; [reflexivity|]. split; [reflexivity|]. split; [reflexivity|].
    split; [intros; discriminate|]. split; [reflexivity | exact Hg].
Qed.

(** A flagged text is refused; a flagged text with an unpaired marker stops
    the window before the refusal. *)
Lemma flagged_input_refused_witness :
  let o := send_message env_flags_darn new_GUI " darn " in
  network (state_of o) = [] /\
  conversation_history (state_of o) = [] /\
  (exists g',
     o = Returned g' /\
     chat_display g'
       = (chat_display new_GUI ++ [mkMessage "You" "darn" false;
                                   mkMessage "JoSi" "Sorry, I can't respond to that language." true])%list) /\
  send_message env_flags_darn new_GUI "darn ** it" = Hung new_GUI.
Proof.
  destruct (flagged_input_refused env_flags_darn new_GUI " darn " eq_refl)
    as [Hn [Hh [_ [Hc _]]]].
  split; [exact Hn|]. split; [exact Hh|]. split.
  - apply Hc; [reflexivity | discriminate | reflexivity].
  - apply (flagged_input_refused env_flags_darn new_GUI "darn ** it" eq_refl);
      [reflexivity | discriminate | reflexivity].
Defined.

(** C7 at a flagged text with one [**]: the text is shown before the
    filter is consulted, and showing it never returns: no refusal appears,
    and the window does not come back. *)
Theorem flagged_input_hangs_before_refusal :
  let E := env_flags_darn in
  let o := send_message E new_GUI "darn ** it" in
  is_processing new_GUI = false /\
  PyStr.strip "darn ** it" = "darn ** it" /\
  contains_profanity E "darn ** it" = true /\
  displayed "darn ** it" false = false /\
  o = Hung new_GUI /\
  chat_display (state_of o) = chat_display new_GUI /\
  ~ In "Sorry, I can't respond to that language." (map msg_text (chat_display (state_of o))) /\
  ~ In "I'm sorry, but I cannot respond to that." (map msg_text (chat_display (state_of o))).
Proof.
  intros E o.
  assert (Ho : o = Hung new_GUI) by (vm_compute; reflexivity).
  split; [reflexivity|]. split; [vm_compute; reflexivity|].
  split; [vm_compute; reflexivity|]. split; [vm_compute; reflexivity|].
  split; [exact Ho|]. rewrite Ho. cbn [state_of].
  split; [reflexivity|].
  split; vm_compute; intros [H|[]]; discriminate H.
Qed.

(** An input made of whitespace only, the empty input included, changes
    nothing: the call returns, no message is shown, no turn is recorded, no
    request is made. *)
Theorem blank_input_ignored : forall E g input,
  all_space input -> send_message E g input = Returned g.
Proof.
  intros E g input H. apply send_message_ignored. right.
  now apply strip_all_space.
Qed.

(** Two blanks, a no-break space, an ideographic space and a newline. *)
Lemma blank_input_ignored_witness :
  send_message (env_say "Hello!") new_GUI
    ("  " ++ PyStr.utf8 [194; 160]%nat ++ PyStr.utf8 [227; 128; 128]%nat ++ PyStr.nl)
  = Returned new_GUI.
Proof.
  apply (blank_input_ignored (env_say "Hello!") new_GUI).
  apply (made_of_cons _ " "); [vm_compute; tauto|].
  apply (made_of_cons _ " "); [vm_compute; tauto|].
  apply (made_of_cons _ (PyStr.utf8 [194; 160]%nat)); [vm_compute; tauto|].
  apply (made_of_cons _ (PyStr.utf8 [227; 128; 128]%nat)); [vm_compute; tauto|].
  apply made_of_one. vm_compute. tauto.
Defined.

(** ** Test manager *)

Lemma next_question_frame : forall tm q tm',
  next_question tm = ok (q, tm') ->
  same_session tm tm' /\
  ((truthy q = false /\ tm' = tm) \/
   (truthy q = true /\ question_index tm' = question_index tm + 1)).
Proof.
  intros tm q tm' H. unfold next_question in H.
  destruct (py_len (technical_questions tm)) as [?|a]; [discriminate|].
  destruct (py_len (behavioral_questions tm)) as [?|b]; [discriminate|].
  simpl in H.
  match type of H with
  | rbind ?x _ = _ => destruct x as [?|q0]; [discriminate|]
  end.
  simpl in H. injection H as <- <-.
  destruct (truthy q0) eqn:Hq.
  - split; [repeat split|]. right. split; reflexivity.
  - split; [repeat split|]. left. split; reflexivity.
Qed.

(** Past the last question [next_question] returns [None] and changes
    nothing. *)
Lemma next_question_exhausted : forall tm a b,
  py_len (technical_questions tm) = ok a ->
  py_len (behavioral_questions tm) = ok b ->
  a + b <= question_index tm ->
  0 <= b ->
  next_question tm = ok (JNull, tm).
Proof.
  intros tm a b Ha Hb Hle Hb0. unfold next_question. rewrite Ha, Hb. simpl.
  destruct (Z.ltb_spec (question_index tm) a); [lia|].
  destruct (Z.ltb_spec (question_index tm) (a + b)); [lia|].
  reflexivity.
Qed.

(** [question_index] never decreases, moves by at most one, and stays
    within the number of questions. *)
Lemma next_question_monotone : forall tm q tm' a b,
  next_question tm = ok (q, tm') ->
  py_len (technical_questions tm) = ok a ->
  py_len (behavioral_questions tm) = ok b ->
  0 <= b ->
  question_index tm <= question_index tm' <= question_index tm + 1 /\
  (question_index tm <= a + b -> question_index tm' <= a + b).
Proof.
  intros tm q tm' a b H Ha Hb Hb0.
  destruct (next_question_frame tm q tm' H) as [_ [[_ ->] | [Hq Hi]]]; [lia|].
  split; [lia|]. intros _.
  unfold next_question in H. rewrite Ha, Hb in H. simpl in H.
  destruct (Z.ltb_spec (question_index tm) a); [lia|].
  destruct (Z.ltb_spec (question_index tm) (a + b)); [lia|].
  simpl in H. injection H as <- _. discriminate.
Qed.

Lemma getitem_index_list : forall l i x,
  0 <= i -> nth_error l (Z.to_nat i) = Some x ->
  getitem_index (JList l) i = ok x.
Proof.
  intros l i x Hi Hx. unfold getitem_index, seq_pos.
  assert (Z.to_nat i < List.length l)%nat
    by (apply nth_error_Some; congruence).
  destruct (Z.ltb_spec i 0); [lia|].
  destruct (Z.leb_spec 0 i); [|lia].
  destruct (Z.ltb_spec i (Z.of_nat (List.length l))); [|lia].
  simpl. rewrite Hx. reflexivity.
Qed.

(** On lists, [next_question] returns the entry of the concatenated
    sequence at [question_index], and advances when that entry is truthy. *)
Lemma next_question_list : forall tm ts bs q,
  technical_questions tm = JList ts ->
  behavioral_questions tm = JList bs ->
  0 <= question_index tm ->
  nth_error (ts ++ bs) (Z.to_nat (question_index tm)) = Some q ->
  next_question tm
  = ok (q, if truthy q then set_question_index tm (question_index tm + 1) else tm).
Proof.
  intros tm ts bs q Ht Hb Hi Hq. unfold next_question. rewrite Ht, Hb.
  cbn [py_len rbind ok].
  destruct (Z.ltb_spec (question_index tm) (Z.of_nat (List.length ts))) as [Hlt|Hge].
  - rewrite nth_error_app1 in Hq by lia.
    rewrite (getitem_index_list ts _ q Hi Hq). reflexivity.
  - rewrite nth_error_app2 in Hq by lia.
    assert (Z.to_nat (question_index tm) - List.length ts < List.length bs)%nat
      by (apply nth_error_Some; congruence).
    destruct (Z.ltb_spec (question_index tm)
                (Z.of_nat (List.length ts) + Z.of_nat (List.length bs))); [|lia].
    rewrite (getitem_index_list bs _ q); [reflexivity | lia |].
    replace (Z.to_nat (question_index tm - Z.of_nat (List.length ts)))
      with (Z.to_nat (question_index tm) - List.length ts)%nat by lia.
    exact Hq.
Qed.

(** C10 at an empty question: [next_question] returns it, which is not
    [None], and leaves [question_index] where it was, although a question
    stands at that index. *)
Theorem next_question_blank_stalls :
  question_index blank_first = 0 /\
  getitem_index (technical_questions blank_first) 0 = ok (JStr "") /\
  next_question blank_first = ok (JStr "", blank_first) /\
  (forall q tm', next_question blank_first = ok (q, tm') ->
     question_index tm' <> question_index blank_first + 1).
Proof.
  split; [reflexivity|]. split; [reflexivity|]. split; [reflexivity|].
  intros q tm' H. vm_compute in H. injection H as _ <-. discriminate.
Qed.

Lemma next_question_monotone_witness :
  question_index blank_first <= question_index blank_first
    <= question_index blank_first + 1.
Proof.
  destruct (next_question_monotone blank_first (JStr "") blank_first 5 5
              eq_refl eq_refl eq_refl ltac:(lia)) as [H _].
  exact H.
Defined.

Lemma next_question_exhausted_witness :
  next_question new_TestManager = ok (JNull, new_TestManager).
Proof.
  apply (next_question_exhausted new_TestManager 0 0);
    [reflexivity | reflexivity | simpl; lia | lia].
Defined.

(** ** Test flow *)

Lemma evaluate_answers_eta : forall E net tm,
  evaluate_answers E net tm
  = (fst (call_gemini_api E net (evaluation_prompt E tm)),
     (net ++ [request_for E (evaluation_prompt E tm)])%list).
Proof. reflexivity. Qed.

(** The end of a test: the feedback is shown and the test is left, unless
    showing the feedback raises or never returns. *)
Lemma feedback_then_exit : forall g res,
  let o := and_then (add_message g "JoSi" res false) exit_test in
  (exists s,
     res = JStr s /\ displayed s false = true /\
     o = Returned
           (shown
              (with_buttons
                 (with_test_manager (shown g "JoSi" s false) new_TestManager)
                 true false)
              "JoSi" exit_text false)) \/
  (exists s, res = JStr s /\ displayed s false = false /\ o = Hung g) \/
  ((forall s, res <> JStr s) /\ o = Raised (no_concat res) g).
Proof.
  intros g res o. subst o.
  destruct res; try (right; right; split; [intros s0 H; discriminate | reflexivity]).
  destruct (displayed s false) eqn:Hd.
  - left. exists s. split; [reflexivity|]. split; [exact Hd|].
    rewrite (add_message_displayed g "JoSi" s false Hd). cbn [and_then].
    apply exit_test_returns.
  - right. left. exists s. split; [reflexivity|]. split; [exact Hd|].
    now rewrite (add_message_not_displayed g "JoSi" s false Hd).
Qed.

(** [ask_next_question] leaves the history alone and only adds to the chat
    pane and to the requests; it keeps the buttons and the session, moving
    at most the index, or it exits the test. *)
Lemma ask_next_question_effect : forall E g,
  let g' := state_of (ask_next_question E g) in
  conversation_history g' = conversation_history g /\
  is_processing g' = is_processing g /\
  (exists c, chat_display g' = (chat_display g ++ c)%list) /\
  (exists r, network g' = (network g ++ r)%list /\ (List.length r <= 1)%nat) /\
  ((start_test_btn g' = start_test_btn g /\ exit_test_btn g' = exit_test_btn g /\
    (test_manager g' = test_manager g \/
     exists q, next_question (test_manager g) = ok (q, test_manager g'))) \/
   (test_manager g' = new_TestManager /\
    start_test_btn g' = true /\ exit_test_btn g' = false)).
Proof.
  intros E g. cbv zeta. unfold ask_next_question.
  destruct (next_question (test_manager g)) as [e|[q tm']] eqn:Hn.
  - simpl_gui. split; [reflexivity|]. split; [reflexivity|].
    split; [ext_list|]. split; [ext_bounded|]. session_case.
  - assert (Hq : exists q0, next_question (test_manager g) = ok (q0, tm'))
      by (exists q; exact Hn).
    destruct q;
      try (match goal with
           | |- context [add_message ?g1 ?w (JStr ?s) ?e] =>
               destruct (add_message_text_cases g1 w s e) as [-> | ->]
           end;
           simpl_gui; (split; [reflexivity|]); (split; [reflexivity|]);
           (split; [ext_list|]); (split; [ext_bounded|]); session_case).
    rewrite evaluate_answers_eta.
    match goal with
    | |- context [and_then (add_message ?g2 "JoSi" ?res false) exit_test] =>
        destruct (feedback_then_exit g2 res)
          as [[s [_ [_ ->]]] | [[s [_ [_ ->]]] | [_ ->]]]
    end; simpl_gui; (split; [reflexivity|]); (split; [reflexivity|]);
      (split; [ext_list|]); (split; [ext_bounded|]);
      session_case.
Qed.

Lemma gemini_check_company_eta : forall E net name,
  gemini_check_company E net name
  = (fst (gemini_check_company E net name),
     (net ++ [request_for E (check_prompt name)])%list).
Proof.
  intros E net name. unfold gemini_check_company.
  rewrite call_gemini_api_eta. reflexivity.
Qed.

Lemma generate_test_questions_eta : forall E net tm,
  generate_test_questions E net tm
  = (fst (generate_test_questions E net tm),
     (net ++ [request_for E (questions_prompt (role tm))])%list).
Proof.
  intros E net tm. unfold generate_test_questions.
  destruct (gemini_generate_questions_lengths E net (role tm)) as [Hn _].
  destruct (gemini_generate_questions E net (role tm)) as [r net']. simpl in Hn.
  now subst net'.
Qed.

(** The manager that [generate_test_questions] returns is the given one
    with two lists of length 5. *)
Lemma generate_test_questions_spec : forall E net tm tm',
  fst (generate_test_questions E net tm) = ok tm' ->
  in_test tm' = in_test tm /\
  company tm' = company tm /\
  role tm' = role tm /\
  user_answers tm' = user_answers tm /\
  question_index tm' = question_index tm /\
  py_len (technical_questions tm') = ok 5 /\
  py_len (behavioral_questions tm') = ok 5.
Proof.
  intros E net tm tm' H. unfold generate_test_questions in H.
  destruct (gemini_generate_questions_lengths E net (role tm)) as [_ Hl].
  destruct (gemini_generate_questions E net (role tm)) as [[e|out] net'];
    [discriminate|].
  cbn in H. injection H as <-. destruct (Hl out eq_refl) as [Ht Hb].
  repeat split; assumption.
Qed.

(** [handle_test_flow] leaves the history alone and only adds to the chat
    pane and to the requests, two at most; it keeps the mode and the
    buttons, or it exits the test. *)
Lemma handle_test_flow_effect : forall E g u,
  let g' := state_of (handle_test_flow E g u) in
  conversation_history g' = conversation_history g /\
  is_processing g' = is_processing g /\
  (exists c, chat_display g' = (chat_display g ++ c)%list) /\
  (exists r, network g' = (network g ++ r)%list /\ (List.length r <= 2)%nat) /\
  ((in_test (test_manager g') = in_test (test_manager g) /\
    start_test_btn g' = start_test_btn g /\ exit_test_btn g' = exit_test_btn g) \/
   (test_manager g' = new_TestManager /\
    start_test_btn g' = true /\ exit_test_btn g' = false)).
Proof.
  intros E g u. cbv zeta. unfold handle_test_flow.
  destruct (String.eqb (company (test_manager g)) "").
  - unfold set_company. rewrite gemini_check_company_eta.
    destruct (fst (gemini_check_company E (network g) u)) as [e|valid].
    + simpl_gui. split; [reflexivity|]. split; [reflexivity|].
      split; [ext_list|]. split; [ext_bounded|]. left. tauto.
    + destruct valid; cbn [negb];
        match goal with
        | |- context [add_message ?g1 ?w (JStr ?s) ?e] =>
            destruct (add_message_text_cases g1 w s e) as [-> | ->]
        end;
        simpl_gui; (split; [reflexivity|]); (split; [reflexivity|]);
        (split; [ext_list|]); (split; [ext_bounded|]); left; tauto.
  - destruct (String.eqb (role (test_manager g)) "").
    + rewrite generate_test_questions_eta.
      destruct (fst (generate_test_questions E (network g)
                       (set_role (test_manager g) u))) as [e|tm2] eqn:Hg.
      * simpl_gui. split; [reflexivity|]. split; [reflexivity|].
        split; [ext_list|]. split; [ext_bounded|]. left. tauto.
      * destruct (generate_test_questions_spec E _ _ _ Hg) as [G1 _].
        rewrite add_message_displayed by exact first_question_notice_displayed.
        cbn [and_then].
        match goal with
        | |- context [ask_next_question E ?g2] =>
            destruct (ask_next_question_effect E g2)
              as [Hh [Hp [[c Hc] [[r [Hr Hlen]] Hcases]]]];
            simpl_gui_in Hh; simpl_gui_in Hp; simpl_gui_in Hc; simpl_gui_in Hr; simpl_gui_in Hcases
        end.
        split; [exact Hh|]. split; [exact Hp|].
        split; [rewrite Hc; ext_list|].
        split; [rewrite Hr; eexists; split;
                [rewrite <- app_assoc; reflexivity | simpl; lia]|].
        destruct Hcases as [[Hs [He Htm]] | Hreset]; [|right; exact Hreset].
        left. split; [|split; assumption].
        destruct Htm as [-> | [q Hq]]; [exact G1|].
        destruct (next_question_frame _ _ _ Hq) as [[S1 _] _].
        rewrite S1. exact G1.
    + destruct (all_answers_collected (store_answer (test_manager g) u)) as [e|[|]].
      * simpl_gui. split; [reflexivity|]. split; [reflexivity|].
        split; [ext_list|]. split; [ext_bounded|]. left. tauto.
      * rewrite evaluate_answers_eta.
        match goal with
        | |- context [and_then (add_message ?g2 "JoSi" ?res false) exit_test] =>
            destruct (feedback_then_exit g2 res)
              as [[s [_ [_ ->]]] | [[s [_ [_ ->]]] | [_ ->]]]
        end; simpl_gui; (split; [reflexivity|]); (split; [reflexivity|]);
          (split; [ext_list|]); (split; [ext_bounded|]);
          first [right; tauto | left; tauto].
      * match goal with
        | |- context [ask_next_question E ?g2] =>
            destruct (ask_next_question_effect E g2)
              as [Hh [Hp [[c Hc] [[r [Hr Hlen]] Hcases]]]];
            simpl_gui_in Hh; simpl_gui_in Hp; simpl_gui_in Hc; simpl_gui_in Hr; simpl_gui_in Hcases
        end.
        split; [exact Hh|]. split; [exact Hp|].
        split; [rewrite Hc; ext_list|].
        split; [rewrite Hr; eexists; split; [reflexivity | lia]|].
        destruct Hcases as [[Hs [He Htm]] | Hreset]; [|right; exact Hreset].
        left. split; [|split; assumption].
        destruct Htm as [-> | [q Hq]]; [reflexivity|].
        destruct (next_question_frame _ _ _ Hq) as [[S1 _] _].
        rewrite S1. reflexivity.
Qed.

(** The worker of a message sent in test mode. *)
Lemma process_test_message_effect : forall E g u,
  let g' := state_of (process_test_message E g u) in
  conversation_history g' = conversation_history g /\
  (exists c, chat_display g' = (chat_display g ++ c)%list) /\
  (exists r, network g' = (network g ++ r)%list /\ (List.length r <= 2)%nat) /\
  ((in_test (test_manager g') = in_test (test_manager g) /\
    start_test_btn g' = start_test_btn g /\ exit_test_btn g' = exit_test_btn g) \/
   (test_manager g' = new_TestManager /\
    start_test_btn g' = true /\ exit_test_btn g' = false)) /\
  test_manager g' = test_manager (state_of (handle_test_flow E g u)).
Proof.
  intros E g u. cbv zeta. unfold process_test_message.
  destruct (handle_test_flow_effect E g u)
    as [Hh [_ [[c Hc] [Hr Hcases]]]].
  destruct (handle_test_flow E g u) as [g1|e g1|g1]; cbn in *.
  - split; [exact Hh|]. split; [eexists; exact Hc|]. tauto.
  - split; [exact Hh|]. split; [rewrite Hc; ext_list|]. tauto.
  - split; [exact Hh|]. split; [eexists; exact Hc|]. tauto.
Qed.

(** ** What an event can change *)

(** No event removes anything: the conversation history, the chat pane and
    the trace of requests only grow, by at most two turns and at most two
    requests per event.  In particular neither ending nor leaving a test
    clears the conversation history. *)
Theorem events_only_append : forall E g ev,
  exists h c r,
    conversation_history (step E g ev) = (conversation_history g ++ h)%list /\
    (List.length h <= 2)%nat /\
    chat_display (step E g ev) = (chat_display g ++ c)%list /\
    network (step E g ev) = (network g ++ r)%list /\
    (List.length r <= 2)%nat.
Proof.
  intros E g ev. unfold step. destruct ev as [| |input]; cbn [react].
  - rewrite start_test_returns. cbn.
    exists [], [mkMessage "JoSi" start_text false], [].
    rewrite !app_nil_r. simpl. repeat split; lia.
  - rewrite exit_test_returns. cbn.
    exists [], [mkMessage "JoSi" exit_text false], [].
    rewrite !app_nil_r. simpl. repeat split; lia.
  - destruct (is_processing g) eqn:Hp.
    { rewrite (send_message_ignored E g input (or_introl Hp)).
      exists [], [], []. rewrite !app_nil_r. simpl. repeat split; lia. }
    destruct (string_dec (PyStr.strip input) "") as [He|Hne].
    { rewrite (send_message_ignored E g input (or_intror He)).
      exists [], [], []. rewrite !app_nil_r. simpl. repeat split; lia. }
    destruct (displayed (PyStr.strip input) false) eqn:Hd.
    2:{ rewrite (send_message_echo_hangs E g input Hp Hne Hd).
        exists [], [], []. rewrite !app_nil_r. simpl. repeat split; lia. }
    destruct (contains_profanity E (PyStr.strip input)) eqn:Hf.
    { rewrite (send_message_flagged E g input Hp Hne Hd Hf).
      exists [], [mkMessage "You" (PyStr.strip input) false;
                  mkMessage "JoSi" language_refusal true], [].
      cbn. rewrite !app_nil_r, <- app_assoc.
      repeat split; try reflexivity; simpl; lia. }
    rewrite (send_message_dispatch E g input Hp Hne Hd Hf).
    set (g3 := dispatched g (PyStr.strip input)).
    destruct (in_test (test_manager g)) eqn:Hin.
    + destruct (process_test_message_effect E g3 (PyStr.strip input))
        as [Hh [[c Hc] [[r [Hr Hlen]] _]]].
      rewrite Hh, Hc, Hr. subst g3. cbn.
      exists [mkTurn "user" (PyStr.strip input)]. eexists. exists r.
      rewrite <- !app_assoc. repeat split; try reflexivity; simpl; lia.
    + destruct (fst (call_gemini_api E (network g3)
                       (chat_prompt (conversation_history g3) (PyStr.strip input))))
        as [| | | |resp| |] eqn:Hr.
      5: { rewrite (process_normal_message_text E g3 _ resp Hf Hr).
           match goal with
           | |- context [add_message ?g2 ?w ?m ?e] =>
               destruct (add_message_text_cases g2 w resp e) as [-> | ->]
           end; subst g3; cbn;
             eexists; eexists; eexists; rewrite <- !app_assoc;
             (repeat split; try reflexivity; simpl; lia). }
      all: rewrite (process_normal_message_not_text E g3 _ Hf)
             by (intros s Hs; rewrite Hr in Hs; discriminate);
           subst g3; cbn;
           eexists; eexists; eexists; rewrite <- !app_assoc;
           (repeat split; try reflexivity; simpl; lia).
Qed.

(** A property of the session and the buttons holds in every reachable
    state when the three kinds of event keep it; for an input it is enough
    to look at the test flow on a non-empty input. *)
Lemma reachable_ind_flow : forall E (P : GUI -> Prop),
  P new_GUI ->
  (forall g, P g -> P (state_of (start_test g))) ->
  (forall g, P (state_of (exit_test g))) ->
  (forall g g',
     P g -> test_manager g' = test_manager g ->
     start_test_btn g' = start_test_btn g ->
     exit_test_btn g' = exit_test_btn g -> P g') ->
  (forall g u, P g -> u <> "" -> P (state_of (handle_test_flow E g u))) ->
  forall g, reachable E g -> P g.
Proof.
  intros E P Hnew Hstart Hexit Hframe Hflow g Hr.
  induction Hr as [|g ev Hr IH]; [exact Hnew|].
  unfold step. destruct ev as [| |input]; cbn [react].
  - now apply Hstart.
  - apply Hexit.
  - destruct (is_processing g) eqn:Hp.
    { now rewrite (send_message_ignored E g input (or_introl Hp)). }
    destruct (string_dec (PyStr.strip input) "") as [He|Hne].
    { now rewrite (send_message_ignored E g input (or_intror He)). }
    destruct (displayed (PyStr.strip input) false) eqn:Hd.
    2:{ now rewrite (send_message_echo_hangs E g input Hp Hne Hd). }
    destruct (contains_profanity E (PyStr.strip input)) eqn:Hf.
    { rewrite (send_message_flagged E g input Hp Hne Hd Hf).
      apply (Hframe g); [exact IH | reflexivity | reflexivity | reflexivity]. }
    rewrite (send_message_dispatch E g input Hp Hne Hd Hf).
    set (g3 := dispatched g (PyStr.strip input)).
    assert (P3 : P g3)
      by (apply (Hframe g); [exact IH | reflexivity | reflexivity | reflexivity]).
    destruct (in_test (test_manager g)) eqn:Hin.
    + unfold process_test_message.
      pose proof (Hflow g3 _ P3 Hne) as Hh.
      destruct (handle_test_flow E g3 (PyStr.strip input)) as [g1|e g1|g1];
        cbn [state_of and_then add_message] in *.
      * apply (Hframe g1); [exact Hh | reflexivity | reflexivity | reflexivity].
      * apply (Hframe g1); [exact Hh | reflexivity | reflexivity | reflexivity].
      * exact Hh.
    + destruct (fst (call_gemini_api E (network g3)
                       (chat_prompt (conversation_history g3) (PyStr.strip input))))
        as [| | | |resp| |] eqn:Hc.
      5: { rewrite (process_normal_message_text E g3 _ resp Hf Hc).
           match goal with
           | |- context [add_message ?g2 ?w ?m ?e] =>
               destruct (add_message_text_cases g2 w resp e) as [-> | ->]
           end; apply (Hframe g3); try exact P3; reflexivity. }
      all: rewrite (process_normal_message_not_text E g3 _ Hf)
             by (intros s Hs; rewrite Hc in Hs; discriminate);
           apply (Hframe g3); try exact P3; reflexivity.
Qed.

(** In every reachable state the buttons agree with the mode: Exit is
    enabled exactly in test mode and Start exactly outside it, so the two are
    never enabled together. *)
Theorem buttons_follow_mode : forall E g,
  reachable E g ->
  exit_test_btn g = in_test (test_manager g) /\
  start_test_btn g = negb (in_test (test_manager g)) /\
  start_test_btn g = negb (exit_test_btn g).
Proof.
  intros E g Hr.
  assert (H : buttons_match g).
  { apply (reachable_ind_flow E buttons_match); try exact Hr.
    - split; reflexivity.
    - intros g0 _. rewrite start_test_returns. split; reflexivity.
    - intros g0. rewrite exit_test_returns. split; reflexivity.
    - intros g0 g' [H1 H2] Ht Hs He. unfold buttons_match.
      rewrite Ht, Hs, He. split; assumption.
    - intros g0 u [H1 H2] _.
      destruct (handle_test_flow_effect E g0 u)
        as [_ [_ [_ [_ [[Hi [Hs He]] | [Hn [Hs He]]]]]]]; unfold buttons_match.
      + rewrite Hi, Hs, He. split; assumption.
      + rewrite Hn, Hs, He. split; reflexivity. }
  destruct H as [H1 H2]. split; [exact H1|]. split; [exact H2|].
  rewrite H1. exact H2.
Qed.

Lemma buttons_follow_mode_witness :
  let E := env_say "VALID" in
  let g := run E new_GUI full_test in
  exit_test_btn g = in_test (test_manager g) /\
  start_test_btn g = negb (in_test (test_manager g)) /\
  start_test_btn g = negb (exit_test_btn g).
Proof.
  intros E g. apply (buttons_follow_mode E g).
  unfold g, full_test. repeat apply reach_step. apply reach_new.
Defined.

Lemma flow_inv_new : forall g,
  test_manager g = new_TestManager -> flow_inv g.
Proof.
  intros g H. unfold flow_inv, index_inv, lists_inv. rewrite H. simpl.
  split; [repeat split; lia|]. left. repeat split.
Qed.

Lemma lists_inv_lengths : forall tm,
  lists_inv tm ->
  exists a b,
    py_len (technical_questions tm) = ok a /\
    py_len (behavioral_questions tm) = ok b /\
    0 <= b /\ a + b <= 10 /\ (question_index tm <= 10 -> a + b < 10 -> question_index tm = 0).
Proof.
  intros tm [[Ht [Hb Hi]] | [Ht Hb]].
  - exists 0, 0. rewrite Ht, Hb. repeat split; try reflexivity; try lia.
  - exists 5, 5. repeat split; try assumption; lia.
Qed.

(** [ask_next_question] exits the test, or keeps the session and moves the
    index by at most one, within the number of questions. *)
Lemma ask_next_question_index : forall E g,
  lists_inv (test_manager g) ->
  0 <= question_index (test_manager g) <= 10 ->
  let tm := test_manager g in
  let tm' := test_manager (state_of (ask_next_question E g)) in
  tm' = new_TestManager \/
  (same_session tm tm' /\
   question_index tm <= question_index tm' <= question_index tm + 1 /\
   question_index tm' <= 10 /\
   lists_inv tm').
Proof.
  intros E g Hl Hi tm tm'. subst tm tm'.
  destruct (ask_next_question_effect E g)
    as [_ [_ [_ [_ [[_ [_ [Htm | [q Hq]]]] | [Hnew _]]]]]].
  - right. rewrite Htm. split; [repeat split|]. split; [lia|]. split; [lia | exact Hl].
  - right.
    destruct (next_question_frame _ _ _ Hq) as [Hs Hcase].
    destruct (lists_inv_lengths _ Hl) as [a [b [Ha [Hb [Hb0 [Hab Hz]]]]]].
    destruct (next_question_monotone _ _ _ a b Hq Ha Hb Hb0) as [Hm Hbound].
    split; [exact Hs|]. split; [exact Hm|].
    destruct Hs as [_ [_ [_ [S4 [S5 _]]]]].
    destruct Hl as [[Ht [Hbe Hi0]] | [Ht Hbe]].
    + rewrite Ht in Ha. rewrite Hbe in Hb. cbn in Ha, Hb.
      injection Ha as <-. injection Hb as <-.
      assert (question_index (test_manager (state_of (ask_next_question E g))) = 0)
        by lia.
      split; [lia|]. left. rewrite S4, S5. repeat split; assumption.
    + rewrite Ht in Ha. rewrite Hbe in Hb. injection Ha as <-. injection Hb as <-.
      split; [lia|]. right. rewrite S4, S5. split; assumption.
  - left. exact Hnew.
Qed.

(** The test flow keeps the bounds of the question index. *)
Lemma handle_test_flow_index : forall E g u,
  flow_inv g -> u <> "" -> flow_inv (state_of (handle_test_flow E g u)).
Proof.
  intros E g u [[Hi [Hz Hl]] Hlists] Hu.
  unfold handle_test_flow.
  destruct (String.eqb_spec (company (test_manager g)) "") as [Hce|Hcn].
  - unfold set_company. rewrite gemini_check_company_eta.
    destruct (fst (gemini_check_company E (network g) u)) as [e|valid].
    + split; [split; [exact Hi | split; assumption] | exact Hlists].
    + destruct valid; cbn [negb];
        match goal with
        | |- context [add_message ?g1 ?w (JStr ?s) ?e] =>
            destruct (add_message_text_cases g1 w s e) as [-> | ->]
        end;
        (split; [split; [exact Hi | split; assumption] | exact Hlists]).
  - destruct (String.eqb_spec (role (test_manager g)) "") as [Hre|Hrn].
    + specialize (Hz Hre).
      rewrite generate_test_questions_eta.
      destruct (fst (generate_test_questions E (network g)
                       (set_role (test_manager g) u))) as [e|tm2] eqn:Hg.
      * split; [|exact Hlists].
        unfold index_inv. cbn. split; [exact Hi|]. split; [intros; contradiction | exact Hl].
      * destruct (generate_test_questions_spec E _ _ _ Hg)
          as [_ [_ [G3 [G4 [G5 [G6 G7]]]]]].
        cbn [role user_answers question_index set_role] in G3, G4, G5.
        rewrite add_message_displayed by exact first_question_notice_displayed.
        cbn [and_then].
        match goal with
        | |- context [ask_next_question E ?g2] =>
            destruct (ask_next_question_index E g2) as [Hnew | [Hs [Hm [Hb Hli]]]]
        end.
        -- right. split; assumption.
        -- cbn. rewrite G5. lia.
        -- now apply flow_inv_new.
        -- cbn [test_manager shown with_network with_test_manager] in Hs, Hm, Hb.
           rewrite G5 in Hm.
           destruct Hs as [_ [_ [S3 [_ [_ S6]]]]].
           split; [|exact Hli].
           unfold index_inv. rewrite S3, S6, G3, G4.
           split; [lia|]. split; [intros; contradiction | lia].
    + destruct (all_answers_collected (store_answer (test_manager g) u)) as [e|[|]].
      * split; [|exact Hlists].
        unfold index_inv. cbn. rewrite length_app. simpl.
        split; [exact Hi|]. split; [exact Hz | lia].
      * rewrite evaluate_answers_eta.
        match goal with
        | |- context [and_then (add_message ?g2 "JoSi" ?res false) exit_test] =>
            destruct (feedback_then_exit g2 res)
              as [[s [_ [_ ->]]] | [[s [_ [_ ->]]] | [_ ->]]]
        end.
        -- now apply flow_inv_new.
        -- split; [|exact Hlists].
           unfold index_inv. cbn. rewrite length_app. simpl.
           split; [exact Hi|]. split; [exact Hz | lia].
        -- split; [|exact Hlists].
           unfold index_inv. cbn. rewrite length_app. simpl.
           split; [exact Hi|]. split; [exact Hz | lia].
      * match goal with
        | |- context [ask_next_question E ?g2] =>
            destruct (ask_next_question_index E g2) as [Hnew | [Hs [Hm [Hb Hli]]]]
        end.
        -- exact Hlists.
        -- exact Hi.
        -- now apply flow_inv_new.
        -- cbn [test_manager with_test_manager question_index store_answer] in Hs, Hm, Hb.
           destruct Hs as [_ [_ [S3 [_ [_ S6]]]]].
           cbn [role user_answers store_answer] in S3, S6.
           split; [|exact Hli].
           unfold index_inv. rewrite S3, S6, length_app. simpl.
           split; [lia|]. split; [intros; contradiction | lia].
Qed.

(** In every reachable state the question index lies between 0 and 10, is
    still 0 while no role is set, and is at most one ahead of the number of
    stored answers. *)
Theorem question_index_in_bounds : forall E g,
  reachable E g ->
  let tm := test_manager g in
  0 <= question_index tm <= 10 /\
  (role tm = "" -> question_index tm = 0) /\
  question_index tm <= Z.of_nat (List.length (user_answers tm)) + 1.
Proof.
  intros E g Hr.
  change (index_inv g).
  assert (H : flow_inv g); [|exact (proj1 H)].
  apply (reachable_ind_flow E flow_inv); try exact Hr.
  - now apply flow_inv_new.
  - intros g0 H. rewrite start_test_returns. exact H.
  - intros g0. rewrite exit_test_returns. now apply flow_inv_new.
  - intros g0 g' H Ht _ _. unfold flow_inv, index_inv. rewrite Ht. exact H.
  - intros g0 u H Hu. exact (handle_test_flow_index E g0 u H Hu).
Qed.

Lemma question_index_in_bounds_witness :
  let E := env_blank in
  let g := run E new_GUI
             [StartTest; Send "Acme Corp"; Send "Developer"; Send "a1"; Send "a2"] in
  0 <= question_index (test_manager g) <= 10 /\
  question_index (test_manager g)
    <= Z.of_nat (List.length (user_answers (test_manager g))) + 1.
Proof.
  intros E g.
  destruct (question_index_in_bounds E g) as [H1 [_ H3]].
  - unfold g. repeat apply reach_step. apply reach_new.
  - split; [exact H1 | exact H3].
Defined.

(** ** The invariant of the test session *)

(** A service that sends texts makes the client return a text. *)
Lemma text_service_call : forall E,
  text_service E ->
  forall net prompt, exists s, fst (call_gemini_api E net prompt) = JStr s.
Proof.
  intros E H net prompt. unfold call_gemini_api. cbn [fst].
  destruct (requests_post E net (request_for E prompt)) as [e|resp] eqn:Hp;
    cbn [rbind]; [eexists; reflexivity|].
  destruct (status_code resp =? 200); [|eexists; reflexivity].
  destruct (json resp) as [e|body] eqn:Hj; cbn [rbind]; [eexists; reflexivity|].
  destruct (first_text body) as [e|v] eqn:Hv; [eexists; reflexivity|].
  exact (H net _ resp body v Hp Hj Hv).
Qed.

Lemma validated_grows : forall E net extra name,
  validated E net name -> validated E (net ++ extra) name.
Proof.
  intros E net extra name [net0 [rest [Hn Hv]]].
  exists net0, (rest ++ extra)%list. split; [|exact Hv].
  rewrite Hn, <- app_assoc. reflexivity.
Qed.

Lemma same_session_refl : forall tm, same_session tm tm.
Proof. intros tm. repeat split. Qed.

Lemma session_inv_same_session : forall E g g',
  session_inv E g ->
  same_session (test_manager g) (test_manager g') ->
  (exists extra, network g' = (network g ++ extra)%list) ->
  (List.length (user_answers (test_manager g)) = 10%nat -> is_processing g' = true) ->
  session_inv E g'.
Proof.
  intros E g g' [Hc [Hr [Ha Hp]]] [S1 [S2 [S3 [S4 [S5 S6]]]]] [extra Hn] Hp'.
  unfold session_inv. rewrite S1, S2, S3, S4, S5, S6, Hn.
  split; [|split; [assumption | split; assumption]].
  intros H. destruct (Hc H) as [Hi Hv]. split; [exact Hi|].
  now apply validated_grows.
Qed.

Lemma session_inv_new : forall E g,
  test_manager g = new_TestManager -> session_inv E g.
Proof.
  intros E g H. unfold session_inv. rewrite H. simpl.
  split; [congruence|]. split; [congruence|]. split; [lia | discriminate].
Qed.

Lemma ask_next_question_inv : forall E g,
  session_inv E g ->
  (List.length (user_answers (test_manager g)) <= 9)%nat ->
  let g' := state_of (ask_next_question E g) in
  session_inv E g' /\ (List.length (user_answers (test_manager g')) <= 9)%nat.
Proof.
  intros E g Hinv Hk. cbv zeta.
  destruct (ask_next_question_effect E g)
    as [_ [_ [_ [[r [Hr _]] [[_ [_ Htm]] | [Hnew _]]]]]].
  - assert (Hs : same_session (test_manager g)
                   (test_manager (state_of (ask_next_question E g)))).
    { destruct Htm as [-> | [q Hq]]; [apply same_session_refl|].
      now destruct (next_question_frame _ _ _ Hq). }
    split.
    + apply (session_inv_same_session E g); [exact Hinv | exact Hs | eauto | lia].
    + destruct Hs as [_ [_ [_ [_ [_ S6]]]]]. now rewrite S6.
  - split; [now apply session_inv_new|]. rewrite Hnew. simpl. lia.
Qed.

Lemma all_answers_collected_ten : forall tm answer,
  py_len (technical_questions tm) = ok 5 ->
  py_len (behavioral_questions tm) = ok 5 ->
  all_answers_collected (store_answer tm answer)
  = ok (Z.of_nat (List.length (user_answers tm) + 1) >=? 10).
Proof.
  intros tm answer Ht Hb. unfold all_answers_collected, store_answer. simpl.
  rewrite Ht, Hb. simpl. rewrite length_app. reflexivity.
Qed.

(** With a service that sends texts, the test flow keeps the invariant of
    the session, and it leaves ten answers stored only when showing the
    feedback never returns. *)
Lemma handle_test_flow_inv : forall E g u,
  text_service E ->
  session_inv E g ->
  in_test (test_manager g) = true ->
  is_processing g = true ->
  (List.length (user_answers (test_manager g)) <= 9)%nat ->
  let o := handle_test_flow E g u in
  session_inv E (state_of o) /\
  ((exists g', o = Hung g') \/
   (List.length (user_answers (test_manager (state_of o))) <= 9)%nat).
Proof.
  intros E g u Htext Hinv Hin Hproc Hk. cbv zeta.
  pose proof Hinv as [Hc [Hr [Ha Hp]]].
  unfold handle_test_flow.
  destruct (String.eqb_spec (company (test_manager g)) "") as [Hce|Hcn].
  - assert (Hrole : role (test_manager g) = "").
    { destruct (string_dec (role (test_manager g)) "") as [|n]; [assumption|].
      apply Hr in n as [n _]. contradiction. }
    unfold set_company.
    destruct (text_service_call E Htext (network g) (check_prompt u)) as [s Hs].
    rewrite (gemini_check_company_text E (network g) u s Hs).
    destruct (String.eqb (PyStr.lower (PyStr.strip s)) "valid") eqn:Hv; cbn [negb ok].
    + match goal with
      | |- context [add_message ?g1 ?w (JStr ?m) ?e] =>
          assert (Hi2 : session_inv E g1);
          [|destruct (add_message_text_cases g1 w m e) as [-> | ->]]
      end.
      * unfold session_inv. cbn. split; [|split; [|split]].
        -- intros _. split; [exact Hin|].
           exists (network g), []. split; [reflexivity|].
           rewrite (gemini_check_company_text E (network g) u s Hs). cbn [fst].
           now rewrite Hv.
        -- intros Hn. contradiction.
        -- exact Ha.
        -- intros _. exact Hproc.
      * split; [|right; exact Hk].
        apply (session_inv_same_session E _ _ Hi2);
          [apply same_session_refl | exists []; now rewrite app_nil_r
          | intros _; exact Hproc].
      * split; [exact Hi2 | left; eauto].
    + rewrite add_message_displayed by exact not_recognized_displayed.
      split; [|right; exact Hk].
      apply (session_inv_same_session E g);
        [exact Hinv | apply same_session_refl | eexists; reflexivity
        | intros _; exact Hproc].
  - destruct (Hc Hcn) as [_ Hval].
    destruct (String.eqb_spec (role (test_manager g)) "") as [Hre|Hrn].
    + destruct (text_service_call E Htext (network g) (questions_prompt u)) as [s Hs].
      unfold generate_test_questions. cbn [role set_role].
      rewrite (gemini_generate_questions_text E (network g) u s Hs).
      cbn [rbind ok].
      destruct (questions_of_lengths E s) as [Lt Lb].
      rewrite add_message_displayed by exact first_question_notice_displayed.
      cbn [and_then].
      match goal with
      | |- context [ask_next_question E ?g2] =>
          assert (Hi2 : session_inv E g2);
          [|destruct (ask_next_question_inv E g2 Hi2) as [H1 H2];
            [exact Hk | split; [exact H1 | right; exact H2]]]
      end.
      unfold session_inv. cbn. split; [|split; [|split]].
      * intros _. split; [exact Hin | now apply validated_grows].
      * intros _. split; [exact Hcn|]. split; assumption.
      * exact Ha.
      * intros _. exact Hproc.
    + destruct (Hr Hrn) as [_ [Lt Lb]].
      rewrite (all_answers_collected_ten _ u Lt Lb).
      assert (Hi1 : session_inv E (with_test_manager g (store_answer (test_manager g) u))).
      { unfold session_inv. cbn. rewrite length_app. simpl.
        split; [intros _; split; [exact Hin | exact Hval]|].
        split; [intros _; split; [exact Hcn | split; assumption]|].
        split; [lia | intros _; exact Hproc]. }
      destruct (Z.geb_spec (Z.of_nat (List.length (user_answers (test_manager g)) + 1)) 10)
        as [Hfull|Hmore]; cbv beta iota delta [ok].
      * rewrite evaluate_answers_eta.
        match goal with
        | |- context [and_then (add_message ?g2 "JoSi" ?res false) exit_test] =>
            destruct (text_service_call E Htext (network g)
                        (evaluation_prompt E (store_answer (test_manager g) u)))
              as [s Hs];
            destruct (feedback_then_exit g2 res)
              as [[s' [_ [_ ->]]] | [[s' [_ [_ ->]]] | [Hno _]]]
        end.
        -- split; [now apply session_inv_new | right; simpl; lia].
        -- split; [|left; eauto].
           apply (session_inv_same_session E _ _ Hi1);
             [apply same_session_refl | eexists; reflexivity | intros _; exact Hproc].
        -- exfalso. exact (Hno s Hs).
      * destruct (ask_next_question_inv E _ Hi1) as [H1 H2].
        -- cbn. rewrite length_app. simpl. lia.
        -- split; [exact H1 | right; exact H2].
Qed.

(** With a service that sends texts, every reachable window carries a
    session that satisfies the invariant. *)
Lemma reachable_inv : forall E g,
  text_service E -> reachable E g -> session_inv E g.
Proof.
  intros E g Htext Hr. induction Hr as [|g ev Hr Hi].
  - now apply session_inv_new.
  - unfold step. destruct ev as [| |input]; cbn [react].
    + rewrite start_test_returns. cbn [state_of].
      destruct Hi as [Hc [Hrr [Ha Hp]]]. unfold session_inv. cbn.
      split; [|split; [assumption | split; assumption]].
      intros H. split; [reflexivity | now apply Hc].
    + rewrite exit_test_returns. now apply session_inv_new.
    + destruct (is_processing g) eqn:Hp.
      { now rewrite (send_message_ignored E g input (or_introl Hp)). }
      destruct (string_dec (PyStr.strip input) "") as [He|Hne].
      { now rewrite (send_message_ignored E g input (or_intror He)). }
      destruct (displayed (PyStr.strip input) false) eqn:Hd.
      2:{ now rewrite (send_message_echo_hangs E g input Hp Hne Hd). }
      assert (Hk : (List.length (user_answers (test_manager g)) <= 9)%nat).
      { destruct Hi as [_ [_ [Ha H10]]].
        destruct (Nat.eq_dec (List.length (user_answers (test_manager g))) 10) as [e|];
          [|lia].
        apply H10 in e. congruence. }
      assert (Hframe : forall g', test_manager g' = test_manager g ->
                (exists extra, network g' = (network g ++ extra)%list) ->
                session_inv E g').
      { intros g' Ht Hn.
        apply (session_inv_same_session E g);
          [exact Hi | rewrite Ht; apply same_session_refl | exact Hn | lia]. }
      destruct (contains_profanity E (PyStr.strip input)) eqn:Hf.
      { rewrite (send_message_flagged E g input Hp Hne Hd Hf).
        apply Hframe; [reflexivity | exists []; cbn; now rewrite app_nil_r]. }
      rewrite (send_message_dispatch E g input Hp Hne Hd Hf).
      set (g3 := dispatched g (PyStr.strip input)).
      destruct (in_test (test_manager g)) eqn:Hin.
      * unfold process_test_message.
        destruct (handle_test_flow_inv E g3 (PyStr.strip input) Htext) as [H1 H2].
        -- apply Hframe; [reflexivity | exists []; cbn; now rewrite app_nil_r].
        -- exact Hin.
        -- reflexivity.
        -- exact Hk.
        -- destruct (handle_test_flow E g3 (PyStr.strip input)) as [g1|e g1|g1];
             cbn [state_of and_then add_message] in *.
           ++ destruct H2 as [[g' H2]|H2]; [discriminate|].
              apply (session_inv_same_session E g1);
                [exact H1 | apply same_session_refl
                | exists []; cbn; now rewrite app_nil_r | lia].
           ++ destruct H2 as [[g' H2]|H2]; [discriminate|].
              apply (session_inv_same_session E g1);
                [exact H1 | apply same_session_refl
                | exists []; cbn; now rewrite app_nil_r | lia].
           ++ exact H1.
      * destruct (fst (call_gemini_api E (network g3)
                         (chat_prompt (conversation_history g3) (PyStr.strip input))))
          as [| | | |resp| |] eqn:Hc.
        5: { rewrite (process_normal_message_text E g3 _ resp Hf Hc).
             match goal with
             | |- context [add_message ?g2 ?w ?m ?e] =>
                 destruct (add_message_text_cases g2 w resp e) as [-> | ->]
             end; apply Hframe; try reflexivity; eexists; reflexivity. }
        all: rewrite (process_normal_message_not_text E g3 _ Hf)
               by (intros s Hs; rewrite Hc in Hs; discriminate);
             apply Hframe; try reflexivity; eexists; reflexivity.
Qed.

(** The text of the evaluation prompt: the company and the role, the two
    question lists and the answers, each list as Python prints it. *)
Lemma evaluation_prompt_text : forall E tm,
  evaluation_prompt E tm
  = PyStr.nl ++ "Evaluate these interview answers for " ++ company tm
    ++ " (" ++ role tm ++ "):" ++ PyStr.nl
    ++ "Technical Questions:" ++ PyStr.nl
    ++ format_value E (technical_questions tm) ++ PyStr.nl
    ++ "Behavioral Questions:" ++ PyStr.nl
    ++ format_value E (behavioral_questions tm) ++ PyStr.nl
    ++ "Answers:" ++ PyStr.nl
    ++ repr E (JList (map JStr (user_answers tm))) ++ PyStr.nl
    ++ PyStr.nl
    ++ "Give detailed feedback for each answer and a final (0-100%) 'placement probability'."
    ++ PyStr.nl.
Proof.
  intros E tm. unfold evaluation_prompt, PyStr.block. cbn [concat].
  rewrite ?string_app_assoc. reflexivity.
Qed.

(** The tenth answer: the session is evaluated with one request, the
    feedback is shown and the test is left. *)
Lemma handle_test_flow_tenth : forall E g u,
  company (test_manager g) <> "" ->
  role (test_manager g) <> "" ->
  py_len (technical_questions (test_manager g)) = ok 5 ->
  py_len (behavioral_questions (test_manager g)) = ok 5 ->
  List.length (user_answers (test_manager g)) = 9%nat ->
  let tm1 := store_answer (test_manager g) u in
  let res := fst (call_gemini_api E (network g) (evaluation_prompt E tm1)) in
  handle_test_flow E g u
  = and_then
      (add_message
         (with_network (with_test_manager g tm1)
            (network g ++ [request_for E (evaluation_prompt E tm1)])%list)
         "JoSi" res false)
      exit_test.
Proof.
  intros E g u Hc Hr Ht Hb Hn. cbv zeta. unfold handle_test_flow.
  apply String.eqb_neq in Hc. apply String.eqb_neq in Hr. rewrite Hc, Hr.
  rewrite (all_answers_collected_ten _ u Ht Hb), Hn. reflexivity.
Qed.

Lemma env_script_text_service : forall answers rest loads,
  text_service (env_script answers rest loads).
Proof.
  intros answers rest loads net rq resp body v Hp Hj Hv.
  cbn in Hp. injection Hp as <-. cbn in Hj. injection Hj as <-.
  cbn in Hv. injection Hv as <-. eexists. reflexivity.
Qed.

(** With a service that sends texts, in every reachable state the company,
    when set, has been accepted by the validator; the role is set only when
    the company is; there are at most ten answers, and ten only in a window
    that is still processing, which is one where showing the feedback has
    not returned.  From an idle window with nine answers, an input that is
    displayed and not flagged brings the tenth answer and has the session
    evaluated, with one request whose prompt carries the company, the role,
    the two question lists and the ten answers; when the feedback is
    displayed the session is then replaced by a new one, and when it is not
    the call never returns and the session stays as it is. *)
Theorem test_session_invariants : forall E g,
  text_service E ->
  reachable E g ->
  let tm := test_manager g in
  (company tm <> "" -> validated E (network g) (company tm)) /\
  (role tm <> "" -> company tm <> "") /\
  (List.length (user_answers tm) <= 10)%nat /\
  (List.length (user_answers tm) = 10%nat -> is_processing g = true) /\
  (forall input feedback,
     role tm <> "" ->
     List.length (user_answers tm) = 9%nat ->
     is_processing g = false ->
     PyStr.strip input <> "" ->
     contains_profanity E (PyStr.strip input) = false ->
     displayed (PyStr.strip input) false = true ->
     let tm1 := store_answer tm (PyStr.strip input) in
     fst (call_gemini_api E (network g) (evaluation_prompt E tm1)) = JStr feedback ->
     let o := send_message E g input in
     List.length (user_answers tm1) = 10%nat /\
     network (state_of o) = (network g ++ [request_for E (evaluation_prompt E tm1)])%list /\
     evaluation_prompt E tm1
       = PyStr.nl ++ "Evaluate these interview answers for " ++ company tm
         ++ " (" ++ role tm ++ "):" ++ PyStr.nl
         ++ "Technical Questions:" ++ PyStr.nl
         ++ format_value E (technical_questions tm) ++ PyStr.nl
         ++ "Behavioral Questions:" ++ PyStr.nl
         ++ format_value E (behavioral_questions tm) ++ PyStr.nl
         ++ "Answers:" ++ PyStr.nl
         ++ repr E (JList (map JStr (user_answers tm ++ [PyStr.strip input]))) ++ PyStr.nl
         ++ PyStr.nl
         ++ "Give detailed feedback for each answer and a final (0-100%) 'placement probability'."
         ++ PyStr.nl /\
     (displayed feedback false = true ->
        exists g',
          o = Returned g' /\ test_manager g' = new_TestManager /\
          is_processing g' = false) /\
     (displayed feedback false = false ->
        (exists g', o = Hung g') /\
        test_manager (state_of o) = tm1 /\ is_processing (state_of o) = true)).
Proof.
  intros E g Htext Hreach tm.
  destruct (reachable_inv E g Htext Hreach) as [Hc [Hr [Ha Hp]]].
  fold tm in Hc, Hr, Ha, Hp.
  split; [intros H; now apply Hc|].
  split; [intros H; now apply Hr|].
  split; [exact Ha|]. split; [exact Hp|].
  intros input feedback Hrole Hnine Hidle Hne Hf Hd tm1 Hfb o.
  destruct (Hr Hrole) as [Hcomp [Ht Hb]]. destruct (Hc Hcomp) as [Hin _].
  split; [subst tm1; unfold store_answer; simpl; rewrite length_app; simpl; lia|].
  assert (Ho : o = process_test_message E (dispatched g (PyStr.strip input))
                     (PyStr.strip input)).
  { subst o. rewrite (send_message_dispatch E g input Hidle Hne Hd Hf).
    fold tm. now rewrite Hin. }
  assert (Hflow : handle_test_flow E (dispatched g (PyStr.strip input)) (PyStr.strip input)
                  = and_then
                      (add_message
                         (with_network
                            (with_test_manager (dispatched g (PyStr.strip input)) tm1)
                            (network g ++ [request_for E (evaluation_prompt E tm1)])%list)
                         "JoSi" (JStr feedback) false)
                      exit_test).
  { rewrite handle_test_flow_tenth; try assumption.
    cbn [network dispatched with_processing with_history shown test_manager].
    fold tm. fold tm1. now rewrite Hfb. }
  split; [|split; [subst tm1; apply evaluation_prompt_text|split]].
  - rewrite Ho. unfold process_test_message. rewrite Hflow.
    match goal with
    | |- context [add_message ?g2 ?w (JStr ?m) ?e] =>
        destruct (add_message_text_cases g2 w m e) as [-> | ->]
    end; cbn [and_then]; [rewrite exit_test_returns|]; reflexivity.
  - intros Hshow. rewrite Ho. unfold process_test_message. rewrite Hflow.
    rewrite (add_message_displayed _ "JoSi" feedback false Hshow). cbn [and_then].
    rewrite exit_test_returns. eexists. repeat split.
  - intros Hshow. rewrite Ho. unfold process_test_message. rewrite Hflow.
    rewrite (add_message_not_displayed _ "JoSi" feedback false Hshow). cbn [and_then].
    split; [eexists; reflexivity|]. split; reflexivity.
Qed.

(** The invariants at a window that has just accepted a company, and the
    end of the test after nine answers. *)
Lemma test_session_invariants_witness :
  let E := env_plain in
  let g := run E new_GUI
             [ StartTest; Send "Acme Corp"; Send "Developer";
               Send "a1"; Send "a2"; Send "a3"; Send "a4"; Send "a5";
               Send "a6"; Send "a7"; Send "a8"; Send "a9" ] in
  company (test_manager g) = "Acme Corp" /\
  validated E (network g) (company (test_manager g)) /\
  exists g',
    send_message E g "a10" = Returned g' /\ test_manager g' = new_TestManager /\
    is_processing g' = false.
Proof.
  intros E g.
  assert (Hr : reachable E g) by (repeat apply reach_step; apply reach_new).
  destruct (test_session_invariants E g (env_script_text_service _ _ _) Hr)
    as [Hv [_ [_ [_ Hten]]]].
  split; [vm_compute; reflexivity|]. split.
  - apply Hv. vm_compute. discriminate.
  - apply (Hten "a10" "Well done.").
    + vm_compute. discriminate.
    + vm_compute. reflexivity.
    + vm_compute. reflexivity.
    + vm_compute. discriminate.
    + reflexivity.
    + vm_compute. reflexivity.
    + vm_compute. reflexivity.
    + vm_compute. reflexivity.
Defined.

(** C6 at a feedback that opens a fenced code block: the tenth answer is
    stored and the evaluation is requested, but showing the feedback never
    returns, so the session is not replaced: it keeps its ten answers, the
    input stays disabled and every later input is ignored. *)
Theorem fenced_feedback_keeps_session :
  let E := env_fenced in
  let g := run E new_GUI
             [ StartTest; Send "Acme Corp"; Send "Developer";
               Send "a1"; Send "a2"; Send "a3"; Send "a4"; Send "a5";
               Send "a6"; Send "a7"; Send "a8"; Send "a9" ] in
  let o := send_message E g "a10" in
  List.length (user_answers (test_manager g)) = 9%nat /\
  is_processing g = false /\
  fst (call_gemini_api E (network g)
         (evaluation_prompt E (store_answer (test_manager g) "a10")))
    = JStr fenced_feedback /\
  (exists g', o = Hung g') /\
  network (state_of o)
    = (network g
       ++ [request_for E (evaluation_prompt E (store_answer (test_manager g) "a10"))])%list /\
  user_answers (test_manager (state_of o))
    = ["a1"; "a2"; "a3"; "a4"; "a5"; "a6"; "a7"; "a8"; "a9"; "a10"] /\
  test_manager (state_of o) <> new_TestManager /\
  is_processing (state_of o) = true /\
  (forall input, send_message E (state_of o) input = Returned (state_of o)).
Proof.
  intros E g o.
  split; [vm_compute; reflexivity|].
  split; [vm_compute; reflexivity|].
  split; [vm_compute; reflexivity|].
  split; [eexists; vm_compute; reflexivity|].
  split; [vm_compute; reflexivity|].
  split; [vm_compute; reflexivity|].
  split; [vm_compute; discriminate|].
  assert (Hp : is_processing (state_of o) = true) by (vm_compute; reflexivity).
  split; [exact Hp|].
  intros input. apply send_message_ignored. left. exact Hp.
Qed.

(** In test mode an input that is not flagged and whose echo is displayed
    is appended to the conversation history as a user turn, and nothing
    else is: the test flow adds no turn of its own, however it ends.  An
    input whose echo is not displayed stops the window before the append. *)
Theorem test_input_enters_history : forall E g input,
  is_processing g = false ->
  in_test (test_manager g) = true ->
  PyStr.strip input <> "" ->
  contains_profanity E (PyStr.strip input) = false ->
  let o := send_message E g input in
  (displayed (PyStr.strip input) false = true ->
     o = process_test_message E (dispatched g (PyStr.strip input)) (PyStr.strip input) /\
     conversation_history (state_of o)
     = (conversation_history g ++ [mkTurn "user" (PyStr.strip input)])%list) /\
  (displayed (PyStr.strip input) false = false -> o = Hung g).
Proof.
  intros E g input Hp Ht Hne Hf o. split; intros Hd; subst o.
  - rewrite (send_message_dispatch E g input Hp Hne Hd Hf), Ht.
    split; [reflexivity|].
    destruct (process_test_message_effect E (dispatched g (PyStr.strip input))
                (PyStr.strip input)) as [Hh _].
    rewrite Hh. reflexivity.
  - exact (send_message_echo_hangs E g input Hp Hne Hd).
Qed.

(** A company-name attempt that the service rejects stays in the history. *)
Lemma test_input_enters_history_witness :
  conversation_history
    (state_of (send_message (env_say "INVALID") (state_of (start_test new_GUI))
                 "Nonexistent Co"))
  = [mkTurn "user" "Nonexistent Co"].
Proof.
  destruct (test_input_enters_history (env_say "INVALID") (state_of (start_test new_GUI))
              "Nonexistent Co") as [H _];
    [reflexivity | reflexivity | discriminate | reflexivity |].
  destruct (H eq_refl) as [_ Hh]. exact Hh.
Defined.


(** ** The order of the questions *)

Lemma nth_error_questions : forall ts bs n q,
  nth_error (ts ++ bs) n = Some q ->
  nth_error (map JStr ts ++ map JStr bs) n = Some (JStr q).
Proof.
  intros ts bs n q H. rewrite <- map_app. now apply map_nth_error.
Qed.

(** With ten non-empty questions, the answer to question [k + 1] is stored
    and, when it is not the last, question [k + 2] is shown under that
    number, provided it is displayed.  The answer itself plays no part. *)
Lemma answer_asks_next_question : forall E g ts bs k answer q,
  awaiting_answer g ts bs k ->
  nth_error (ts ++ bs) (k + 1) = Some q -> q <> "" ->
  displayed (question_text E (Z.of_nat (k + 2)) (JStr q)) false = true ->
  handle_test_flow E g answer
  = Returned
      (shown
         (with_test_manager g
            (set_question_index (store_answer (test_manager g) answer)
               (Z.of_nat (k + 2))))
         "JoSi" ("**Q" ++ PyStr.of_Z (Z.of_nat (k + 2)) ++ ":** " ++ q) false).
Proof.
  intros E g ts bs k answer q [Hc [Hr [Ht [Hb [Lt [Lb [Hi Ha]]]]]]] Hq Hne Hd.
  assert (k + 1 < 10)%nat.
  { assert (k + 1 < List.length (ts ++ bs))%nat
      by (apply nth_error_Some; congruence).
    rewrite length_app in *. lia. }
  unfold handle_test_flow.
  apply String.eqb_neq in Hc. apply String.eqb_neq in Hr. rewrite Hc, Hr.
  assert (Pt : py_len (technical_questions (test_manager g)) = ok 5)
    by (rewrite Ht; simpl; rewrite length_map, Lt; reflexivity).
  assert (Pb : py_len (behavioral_questions (test_manager g)) = ok 5)
    by (rewrite Hb; simpl; rewrite length_map, Lb; reflexivity).
  rewrite (all_answers_collected_ten _ answer Pt Pb), Ha.
  destruct (Z.geb_spec (Z.of_nat (k + 1)) 10); [lia|].
  cbv beta iota delta [ok]. unfold ask_next_question.
  rewrite (next_question_list _ (map JStr ts) (map JStr bs) (JStr q));
    try assumption.
  - assert (Hq' : truthy (JStr q) = true).
    { simpl. apply negb_true_iff. now apply String.eqb_neq. }
    rewrite Hq'. cbv beta iota delta [ok].
    cbn [test_manager with_test_manager question_index set_question_index store_answer].
    rewrite Hi. replace (Z.of_nat (k + 1) + 1) with (Z.of_nat (k + 2)) by lia.
    now rewrite (add_message_displayed _ "JoSi" _ false Hd).
  - simpl. rewrite Hi. lia.
  - simpl. rewrite Hi. rewrite Nat2Z.id. now apply nth_error_questions.
Qed.

Lemma answer_asks_next_question_witness :
  let E := env_say "VALID" in
  let g := run E new_GUI [StartTest; Send "Acme Corp"; Send "Developer"] in
  asked (state_of (handle_test_flow E g ""))
  = ["**Q1:** Explain what OOP is."; "**Q2:** What is a database index?"].
Proof.
  intros E g.
  rewrite (answer_asks_next_question E g default_tech default_beh 0 ""
             "What is a database index?").
  - vm_compute. reflexivity.
  - unfold awaiting_answer. repeat split; vm_compute; first [discriminate | reflexivity].
  - reflexivity.
  - discriminate.
  - vm_compute. reflexivity.
Defined.

(** C1 at a question set whose first technical question is empty: the
    sequencer shows that question, numbered 0, after the role and after each
    of the first nine answers, and never reaches the other nine; the
    evaluation still follows the tenth answer. *)
Theorem sequencer_repeats_blank_question :
  let g := run env_blank new_GUI full_test in
  technical_questions
    (test_manager (run env_blank new_GUI [StartTest; Send "Acme Corp"; Send "Developer"]))
    = JList (map JStr blank_questions) /\
  asked g = repeat "**Q0:** " 10 /\
  asked g <> map (fun p => "**Q" ++ PyStr.of_Z (fst p) ++ ":** " ++ snd p)
               (combine [1; 2; 3; 4; 5; 6; 7; 8; 9; 10] (blank_questions ++ five_b)) /\
  List.length (network g) = 3%nat /\
  test_manager g = new_TestManager.
Proof.
  split; [vm_compute; reflexivity|].
  split; [vm_compute; reflexivity|].
  split; [vm_compute; discriminate|].
  split; vm_compute; reflexivity.
Qed.

(** With ten non-empty questions, entering the role stores it, fetches the
    questions with one request and shows the first technical question as
    question 1, provided that question is displayed. *)
Theorem role_asks_first_question : forall E g u ts bs q,
  company (test_manager g) <> "" ->
  role (test_manager g) = "" ->
  question_index (test_manager g) = 0 ->
  fst (gemini_generate_questions E (network g) u)
    = ok (JList (map JStr ts), JList (map JStr bs)) ->
  nth_error (ts ++ bs) 0 = Some q -> q <> "" ->
  displayed (question_text E 1 (JStr q)) false = true ->
  let tm1 := mkTestManager (in_test (test_manager g)) 1 (company (test_manager g)) u
               (JList (map JStr ts)) (JList (map JStr bs))
               (user_answers (test_manager g)) in
  handle_test_flow E g u
  = Returned
      (shown
         (shown
            (with_network (with_test_manager g tm1)
               (network g ++ [request_for E (questions_prompt u)])%list)
            "JoSi" "Excellent! Let's begin with the first question:" false)
         "JoSi" ("**Q1:** " ++ q) false).
Proof.
  intros E g u ts bs q Hc Hr Hi Hg Hq Hne Hd. cbv zeta.
  unfold handle_test_flow.
  apply String.eqb_neq in Hc. rewrite Hc, Hr. simpl String.eqb. cbv iota.
  rewrite generate_test_questions_eta.
  unfold generate_test_questions. cbn [role set_role].
  destruct (gemini_generate_questions E (network g) u) as [gen net'].
  cbn [fst] in Hg |- *. rewrite Hg. cbn [rbind ok fst snd].
  rewrite add_message_displayed by exact first_question_notice_displayed.
  cbn [and_then]. unfold ask_next_question.
  rewrite (next_question_list _ (map JStr ts) (map JStr bs) (JStr q));
    try reflexivity.
  - assert (Hq' : truthy (JStr q) = true).
    { simpl. apply negb_true_iff. now apply String.eqb_neq. }
    rewrite Hq'. cbv beta iota delta [ok].
    cbn [test_manager shown with_network with_test_manager question_index
         set_question_index set_role in_test company role technical_questions
         behavioral_questions user_answers].
    rewrite Hi. change (0 + 1) with 1.
    now rewrite (add_message_displayed _ "JoSi" _ false Hd).
  - simpl. rewrite Hi. lia.
  - simpl. rewrite Hi. now apply nth_error_questions.
Qed.

(** The first default question, after the role. *)
Lemma role_asks_first_question_witness :
  let E := env_say "VALID" in
  let g := run E new_GUI [StartTest; Send "Acme Corp"] in
  asked (state_of (handle_test_flow E g "Developer")) = ["**Q1:** Explain what OOP is."].
Proof.
  intros E g.
  rewrite (role_asks_first_question E g "Developer" default_tech default_beh
             "Explain what OOP is.").
  - vm_compute. reflexivity.
  - vm_compute. discriminate.
  - vm_compute. reflexivity.
  - vm_compute. reflexivity.
  - vm_compute. reflexivity.
  - reflexivity.
  - discriminate.
  - vm_compute. reflexivity.
Defined.

(** A whole test over the default questions: the ten questions are shown in
    order, numbered from 1, and the evaluation is the third request. *)
Lemma default_questions_asked_in_order :
  let g := run (env_say "VALID") new_GUI full_test in
  asked g
  = map (fun p => "**Q" ++ PyStr.of_Z (fst p) ++ ":** " ++ snd p)
      (combine [1; 2; 3; 4; 5; 6; 7; 8; 9; 10] (default_tech ++ default_beh)) /\
  List.length (network g) = 3%nat /\
  test_manager g = new_TestManager.
Proof.
  split; [vm_compute; reflexivity|].
  split; vm_compute; reflexivity.
Qed.

(** ** Whole runs of the test flow *)

Lemma skipn_nth_error : forall (A : Type) (l : list A) n x,
  nth_error l n = Some x -> skipn n l = x :: skipn (S n) l.
Proof.
  induction l as [|y l IH]; intros n x H.
  - destruct n; discriminate.
  - destruct n as [|n]; simpl in *.
    + now injection H as ->.
    + now apply IH.
Qed.

Lemma answers_run : forall E ts bs it co ro feedback answers g k done,
  co <> "" -> ro <> "" ->
  List.length ts = 5%nat -> List.length bs = 5%nat ->
  Forall (fun q => q <> "") (ts ++ bs) ->
  (forall n q, nth_error (ts ++ bs) n = Some q ->
     displayed (question_text E (Z.of_nat (n + 1)) (JStr q)) false = true) ->
  test_manager g
    = mkTestManager it (Z.of_nat (k + 1)) co ro
        (JList (map JStr ts)) (JList (map JStr bs)) done ->
  List.length done = k ->
  (k + List.length answers = 10)%nat ->
  answers <> [] ->
  let final := mkTestManager it 10 co ro
                 (JList (map JStr ts)) (JList (map JStr bs)) (done ++ answers)%list in
  fst (call_gemini_api E (network g) (evaluation_prompt E final)) = JStr feedback ->
  displayed feedback false = true ->
  let g' := answer_all E g answers in
  test_manager g' = new_TestManager /\
  network g' = (network g ++ [request_for E (evaluation_prompt E final)])%list /\
  chat_display g'
    = (chat_display g ++ numbered (k + 2) (skipn (k + 1) (ts ++ bs))
         ++ [ mkMessage "JoSi" feedback false;
              mkMessage "JoSi" "Exited test mode. How else can I help you?" false ])%list /\
  conversation_history g' = conversation_history g.
Proof.
  intros E ts bs it co ro feedback answers.
  induction answers as [|a rest IH];
    intros g k done Hc Hr Lt Lb Hq Hshow Htm Hd Hk Hne final Hfb Hfd;
    [congruence|].
  cbv zeta. unfold answer_all. cbn [fold_left].
  assert (Pt : py_len (technical_questions (test_manager g)) = ok 5)
    by (rewrite Htm; simpl; rewrite length_map, Lt; reflexivity).
  assert (Pb : py_len (behavioral_questions (test_manager g)) = ok 5)
    by (rewrite Htm; simpl; rewrite length_map, Lb; reflexivity).
  destruct rest as [|b rest].
  - (* the tenth answer *)
    simpl in Hk. assert (Hk9 : k = 9%nat) by lia.
    rewrite Hk9 in Htm |- *. clear Hk.
    rewrite handle_test_flow_tenth;
      [ | rewrite Htm; exact Hc | rewrite Htm; exact Hr | exact Pt | exact Pb
        | rewrite Htm; simpl; lia ].
    assert (Hfin : store_answer (test_manager g) a = final)
      by (rewrite Htm; reflexivity).
    rewrite Hfin, Hfb.
    rewrite (add_message_displayed _ "JoSi" feedback false Hfd). cbn [and_then].
    rewrite exit_test_returns.
    cbn [fold_left state_of].
    rewrite skipn_all2 by (rewrite length_app; lia).
    cbn. repeat split. rewrite <- app_assoc. reflexivity.
  - (* an earlier answer *)
    simpl in Hk.
    assert (Hlt : (k + 1 < List.length (ts ++ bs))%nat) by (rewrite length_app; lia).
    destruct (nth_error (ts ++ bs) (k + 1)) as [q|] eqn:Hn;
      [|apply nth_error_None in Hn; lia].
    assert (Hqne : q <> "").
    { rewrite Forall_forall in Hq. apply Hq. eapply nth_error_In; eauto. }
    rewrite (answer_asks_next_question E g ts bs k a q); try assumption.
    2:{ unfold awaiting_answer. rewrite Htm. simpl. repeat split; assumption. }
    2:{ replace (k + 2)%nat with (k + 1 + 1)%nat by lia. now apply Hshow. }
    cbn [state_of].
    set (g1 := shown _ _ _ _).
    change (fold_left _ (b :: rest) g1) with (answer_all E g1 (b :: rest)).
    specialize (IH g1 (k + 1)%nat (done ++ [a])%list Hc Hr Lt Lb Hq Hshow).
    cbv zeta in IH.
    destruct IH as [I1 [I2 [I3 I4]]].
    + subst g1. cbn [test_manager shown with_test_manager].
      rewrite Htm. unfold set_question_index, store_answer. simpl.
      do 2 f_equal. lia.
    + rewrite length_app. simpl. lia.
    + simpl. lia.
    + discriminate.
    + subst g1. cbn [network shown with_test_manager].
      rewrite <- app_assoc. exact Hfb.
    + exact Hfd.
    + rewrite I1, I2, I3, I4. subst g1.
      cbn [network chat_display conversation_history shown with_test_manager].
      rewrite <- !app_assoc. cbn [app].
      rewrite (skipn_nth_error _ _ _ _ Hn).
      replace (S (k + 1)) with (k + 1 + 1)%nat by lia.
      replace (k + 1 + 2)%nat with (S (k + 2)) by lia.
      cbn [numbered app]. unfold question_message.
      repeat split.
Qed.

(** Ten answers, whatever they contain, to ten non-empty questions, when
    the questions and the feedback are displayed: the questions 2 to 10 are
    shown in the order technical then behavioral, no request is made before
    the last answer, the one evaluation request carries the company, the
    role, the two question lists and the ten answers in the order given,
    the feedback is shown, and the session is replaced by a new one; the
    conversation history is not touched by the flow itself. *)
Theorem ten_answers_complete_the_test : forall E g ts bs answers feedback,
  awaiting_answer g ts bs 0 ->
  Forall (fun q => q <> "") (ts ++ bs) ->
  (forall n q, nth_error (ts ++ bs) n = Some q ->
     displayed (question_text E (Z.of_nat (n + 1)) (JStr q)) false = true) ->
  List.length answers = 10%nat ->
  let tm := test_manager g in
  let final := mkTestManager (in_test tm) 10 (company tm) (role tm)
                 (JList (map JStr ts)) (JList (map JStr bs)) answers in
  fst (call_gemini_api E (network g) (evaluation_prompt E final)) = JStr feedback ->
  displayed feedback false = true ->
  let g' := answer_all E g answers in
  test_manager g' = new_TestManager /\
  network g' = (network g ++ [request_for E (evaluation_prompt E final)])%list /\
  evaluation_prompt E final
    = PyStr.nl ++ "Evaluate these interview answers for " ++ company tm
      ++ " (" ++ role tm ++ "):" ++ PyStr.nl
      ++ "Technical Questions:" ++ PyStr.nl
      ++ repr E (JList (map JStr ts)) ++ PyStr.nl
      ++ "Behavioral Questions:" ++ PyStr.nl
      ++ repr E (JList (map JStr bs)) ++ PyStr.nl
      ++ "Answers:" ++ PyStr.nl
      ++ repr E (JList (map JStr answers)) ++ PyStr.nl
      ++ PyStr.nl
      ++ "Give detailed feedback for each answer and a final (0-100%) 'placement probability'."
      ++ PyStr.nl /\
  chat_display g'
    = (chat_display g ++ numbered 2 (skipn 1 (ts ++ bs))
         ++ [ mkMessage "JoSi" feedback false;
              mkMessage "JoSi" "Exited test mode. How else can I help you?" false ])%list /\
  conversation_history g' = conversation_history g.
Proof.
  intros E g ts bs answers feedback [Hc [Hr [Ht [Hb [Lt [Lb [Hi Ha]]]]]]] Hq Hshow Hn
    tm final Hfb Hfd g'.
  destruct (answers_run E ts bs (in_test (test_manager g)) (company (test_manager g))
              (role (test_manager g)) feedback answers g 0 [])
    as [H1 [H2 [H3 H4]]]; try assumption.
  - destruct (test_manager g) as [it qi co ro te be ua]. simpl in *.
    destruct ua; [|discriminate]. subst. reflexivity.
  - reflexivity.
  - intros ->. discriminate.
  - split; [exact H1|]. split; [exact H2|].
    split; [apply evaluation_prompt_text|]. split; [exact H3 | exact H4].
Qed.

(** The default questions, with an empty answer among the ten. *)
Lemma ten_answers_complete_the_test_witness :
  let E := env_plain in
  let g := run E new_GUI [StartTest; Send "Acme Corp"; Send "Developer"] in
  let g' := answer_all E g ["a1"; ""; "a3"; "a4"; "a5"; "a6"; "a7"; "a8"; "a9"; "a10"] in
  test_manager g' = new_TestManager /\
  conversation_history g' = conversation_history g.
Proof.
  intros E g g'.
  destruct (ten_answers_complete_the_test E g five_t five_b
              ["a1"; ""; "a3"; "a4"; "a5"; "a6"; "a7"; "a8"; "a9"; "a10"] "Well done.")
    as [H1 [_ [_ [_ H4]]]].
  - unfold awaiting_answer. repeat split; vm_compute; first [discriminate | reflexivity].
  - repeat constructor; discriminate.
  - intros n q Hq.
    do 10 (destruct n as [|n]; [injection Hq as <-; vm_compute; reflexivity|]).
    destruct n; discriminate.
  - reflexivity.
  - vm_compute. reflexivity.
  - vm_compute. reflexivity.
  - split; [exact H1 | exact H4].
Defined.

(** ** Edge cases of the test flow *)

(** When the generator hands back an object where the technical questions
    should be an array, asking the first question raises [KeyError] inside
    the test flow: the role and the questions stay stored, the chat pane
    shows the error, flagged as such, and the input is enabled again. *)
Theorem object_questions_show_key_error : forall E g u kv beh,
  company (test_manager g) <> "" ->
  role (test_manager g) = "" ->
  question_index (test_manager g) = 0 ->
  fst (gemini_generate_questions E (network g) u) = ok (JDict kv, beh) ->
  let tm := test_manager g in
  let tm1 := mkTestManager (in_test tm) 0 (company tm) u (JDict kv) beh
               (user_answers tm) in
  process_test_message E g u
  = Returned
      (enable_input
         (shown
            (shown
               (with_network (with_test_manager g tm1)
                  (network g ++ [request_for E (questions_prompt u)])%list)
               "JoSi" "Excellent! Let's begin with the first question:" false)
            "JoSi" "Error in test flow: 0" true)).
Proof.
  intros E g u kv beh Hc Hr Hi Hg. cbv zeta.
  unfold process_test_message, handle_test_flow.
  apply String.eqb_neq in Hc. rewrite Hc, Hr. simpl String.eqb. cbv iota.
  rewrite generate_test_questions_eta.
  unfold generate_test_questions. cbn [role set_role].
  destruct (gemini_generate_questions_lengths E (network g) u) as [_ Hl].
  destruct (Hl _ Hg) as [Ht Hb]. cbn [fst snd] in Ht, Hb.
  destruct (gemini_generate_questions E (network g) u) as [gen net'].
  cbn [fst] in Hg |- *. rewrite Hg. cbn [rbind ok fst snd].
  rewrite add_message_displayed by exact first_question_notice_displayed.
  cbn [and_then]. unfold ask_next_question, next_question.
  cbn [test_manager shown with_network with_test_manager set_role
       technical_questions behavioral_questions question_index
       in_test company role user_answers].
  rewrite Hb, Hi.
  cbn [py_len] in Ht |- *. injection Ht as Ht. rewrite Ht.
  reflexivity.
Qed.

(** The run in which the service sends an object of five entries. *)
Lemma object_questions_show_key_error_witness :
  let E := env_object in
  let g := run E new_GUI [StartTest; Send "Acme Corp"] in
  map msg_text
    (filter msg_is_error (chat_display (state_of (process_test_message E g "Developer"))))
  = ["Error in test flow: 0"].
Proof.
  intros E g.
  rewrite (object_questions_show_key_error E g "Developer"
             (map (fun k => (k, JStr "T")) ["1"; "2"; "3"; "4"; "5"])
             (JList (map JStr five_b))).
  - vm_compute. reflexivity.
  - vm_compute. discriminate.
  - vm_compute. reflexivity.
  - vm_compute. reflexivity.
  - vm_compute. reflexivity.
Defined.

(** When the feedback of the evaluation is not a text, showing it raises
    inside the test flow: the error is shown and the input is enabled
    again, but the test is not left, and the session keeps its ten
    answers. *)
Theorem non_text_feedback_keeps_session : forall E g u,
  company (test_manager g) <> "" ->
  role (test_manager g) <> "" ->
  py_len (technical_questions (test_manager g)) = ok 5 ->
  py_len (behavioral_questions (test_manager g)) = ok 5 ->
  List.length (user_answers (test_manager g)) = 9%nat ->
  let tm1 := store_answer (test_manager g) u in
  let res := fst (call_gemini_api E (network g) (evaluation_prompt E tm1)) in
  (forall s, res <> JStr s) ->
  process_test_message E g u
  = Returned
      (enable_input
         (shown
            (with_network (with_test_manager g tm1)
               (network g ++ [request_for E (evaluation_prompt E tm1)])%list)
            "JoSi" ("Error in test flow: " ++ str_exn (no_concat res)) true)) /\
  List.length (user_answers tm1) = 10%nat.
Proof.
  intros E g u Hc Hr Ht Hb Hn tm1 res Hres.
  split.
  - unfold process_test_message.
    rewrite handle_test_flow_tenth; try assumption.
    fold tm1. fold res.
    destruct res; try reflexivity.
    exfalso. exact (Hres s eq_refl).
  - subst tm1. unfold store_answer. cbn. rewrite length_app, Hn. reflexivity.
Qed.

(** A feedback that is a number: the tenth answer leaves the session in
    place, and an eleventh answer is stored. *)
Lemma non_text_feedback_keeps_session_witness :
  let E := env_parts [JStr "VALID"; JStr plain_doc] (JInt 7)
             (loads_only plain_doc plain_value) in
  let g := run E new_GUI
             [ StartTest; Send "Acme Corp"; Send "Developer";
               Send "a1"; Send "a2"; Send "a3"; Send "a4"; Send "a5";
               Send "a6"; Send "a7"; Send "a8"; Send "a9" ] in
  map msg_text
    (filter msg_is_error
       (chat_display (state_of (process_test_message E (dispatched g "a10") "a10"))))
  = ["Error in test flow: unsupported operand type(s) for +: 'int' and 'str'"] /\
  List.length (user_answers (test_manager (run E g [Send "a10"; Send "a11"]))) = 11%nat.
Proof.
  intros E g. split.
  - destruct (non_text_feedback_keeps_session E (dispatched g "a10") "a10") as [H _].
    + vm_compute. discriminate.
    + vm_compute. discriminate.
    + vm_compute. reflexivity.
    + vm_compute. reflexivity.
    + vm_compute. reflexivity.
    + intros s. vm_compute. discriminate.
    + rewrite H. vm_compute. reflexivity.
  - vm_compute. reflexivity.
Defined.

(** In normal chat mode, when the text of the user is displayed and the
    client returns an object that is not a text, the prefix test raises: the
    message of the exception is shown, flagged as an error, no turn of
    [JoSi] is recorded, and the input is enabled again. *)
Theorem non_text_reply_is_not_recorded : forall E g input,
  is_processing g = false ->
  in_test (test_manager g) = false ->
  PyStr.strip input <> "" ->
  contains_profanity E (PyStr.strip input) = false ->
  displayed (PyStr.strip input) false = true ->
  let user_text := PyStr.strip input in
  let h := (conversation_history g ++ [mkTurn "user" user_text])%list in
  let resp := fst (call_gemini_api E (network g) (chat_prompt h user_text)) in
  (forall s, resp <> JStr s) ->
  exists g',
    send_message E g input = Returned g' /\
    conversation_history g' = h /\
    chat_display g'
      = (chat_display g
         ++ [mkMessage "You" user_text false;
             mkMessage "JoSi"
               ("Error: '" ++ type_name resp ++ "' object has no attribute 'startswith'")
               true])%list /\
    is_processing g' = false.
Proof.
  intros E g input Hp Ht Hne Hf Hd user_text h resp Hr.
  rewrite (send_message_dispatch E g input Hp Hne Hd Hf), Ht.
  rewrite (process_normal_message_not_text E (dispatched g (PyStr.strip input)) _ Hf)
    by exact Hr.
  eexists. split; [reflexivity|]. split; [reflexivity|]. split; [|reflexivity].
  cbn. rewrite <- app_assoc. reflexivity.
Qed.

(** A response whose text part is [null]. *)
Lemma non_text_reply_is_not_recorded_witness :
  exists g',
    send_message (env_part JNull) new_GUI "hi" = Returned g' /\
    conversation_history g' = [mkTurn "user" "hi"] /\
    map msg_text (filter msg_is_error (chat_display g'))
      = ["Error: 'NoneType' object has no attribute 'startswith'"].
Proof.
  destruct (non_text_reply_is_not_recorded (env_part JNull) new_GUI "hi")
    as [g' [H1 [H2 [H3 _]]]].
  - reflexivity.
  - reflexivity.
  - discriminate.
  - reflexivity.
  - reflexivity.
  - intros s. vm_compute. discriminate.
  - exists g'. split; [exact H1|]. split; [exact H2|]. rewrite H3. reflexivity.
Defined.

(** ** Texts that are always displayed *)

Lemma count_char_split_nl : forall c s l,
  count_char c s = 0%nat -> In l (split_nl s) -> count_char c l = 0%nat.
Proof.
  intros c s. induction s as [|d s IH]; intros l H Hin.
  - destruct Hin as [<-|[]]. reflexivity.
  - cbn [count_char] in H.
    assert (Hd : (if Ascii.eqb d c then 1 else 0)%nat = 0%nat) by lia.
    assert (Hs : count_char c s = 0%nat) by lia.
    cbn [split_nl] in Hin.
    destruct (Ascii.eqb d (ascii_of_nat 10)).
    + destruct Hin as [<-|Hin]; [reflexivity | now apply IH].
    + destruct (split_nl_cons s) as [l0 [ls Hl]]. rewrite Hl in Hin, IH.
      destruct Hin as [<-|Hin].
      * cbn [count_char]. rewrite Hd. apply (IH l0 Hs). now left.
      * apply (IH l Hs). now right.
Qed.

Lemma no_tick_no_code : forall line,
  count_char "`" line = 0%nat -> cut "`" line = None.
Proof.
  intros line H. pose proof (cut_char "`" line) as Hc.
  destruct (cut "`" line) as [[a b]|]; [|reflexivity].
  destruct Hc as [_ [_ Hc]]. lia.
Qed.

Lemma format_lines_plain : forall fuel lines,
  (forall l, In l lines -> count_char "*" l = 0%nat /\ count_char "`" l = 0%nat) ->
  exists out, format_lines (S fuel) lines = Some out.
Proof.
  intros fuel lines. induction lines as [|l ls IH]; intros H.
  - eexists. reflexivity.
  - destruct IH as [b Hb]; [intros l' Hl'; apply H; now right|].
    destruct (H l (or_introl eq_refl)) as [Hs Ht].
    cbn [format_lines]. rewrite Hb. unfold format_one.
    destruct (PyStr.startswith l "###"); [eexists; reflexivity|].
    destruct (PyStr.startswith (PyStr.strip l) bullet); [eexists; reflexivity|].
    rewrite format_line_step. unfold contains.
    rewrite (no_star_no_bold l Hs), (no_tick_no_code l Ht). cbn [orb].
    eexists. reflexivity.
Qed.

(** A text without asterisk and without backtick is always displayed:
    [add_message] returns with the message inserted. *)
Theorem plain_text_is_displayed : forall g who s,
  count_char "*" s = 0%nat -> count_char "`" s = 0%nat ->
  add_message g who (JStr s) false = Returned (shown g who s false).
Proof.
  intros g who s Hs Ht. apply add_message_displayed. unfold displayed. cbn [orb].
  destruct (format_markdown_returns_iff (s ++ PyStr.nl ++ PyStr.nl)) as [[_ Hret] _].
  apply Hret.
  destruct (format_lines_plain 0 (split_nl (s ++ PyStr.nl ++ PyStr.nl))) as [out Ho].
  - intros l Hl. split.
    + apply (count_char_split_nl "*" (s ++ PyStr.nl ++ PyStr.nl) l); [|exact Hl].
      rewrite count_char_app, Hs. reflexivity.
    + apply (count_char_split_nl "`" (s ++ PyStr.nl ++ PyStr.nl) l); [|exact Hl].
      rewrite count_char_app, Ht. reflexivity.
  - exists 1%nat, out. exact Ho.
Qed.

(** A greeting is displayed in any window. *)
Lemma plain_text_is_displayed_witness :
  add_message new_GUI "JoSi" (JStr "Hello there.") false
  = Returned (shown new_GUI "JoSi" "Hello there." false).
Proof.
  apply (plain_text_is_displayed new_GUI "JoSi" "Hello there."); reflexivity.
Defined.
